(** * skillify: a shallow embedding of the repository profiler and of the
    AutoForge skill wrapper, with the properties of their specification.

    Sources embedded here:
    - [src/skillify.py]                      (module [Skillify])
    - [src/examples/autoforge/entrypoint.py] (module [Autoforge])

    Layout: the embedding ([Py], [Skillify], [Autoforge]), then the notions
    and the sample inputs used to state properties ([SkillifySpec],
    [AutoforgeSpec]), then the proofs ([PyFacts], [SkillifyProofs],
    [AutoforgeProofs]).

    Conventions of the embedding.
    - Python [str] values are [string]s; the text handled by the program is
      taken to be ASCII, so that [len], slicing, [lower] and [upper] act on
      bytes as they act on code points.
    - Values coming out of [json.load] / [tomllib.load] are [pyval]s; JSON
      numbers are integers.
    - A Python exception is a constructor of [exc]; a computation that may
      raise returns a [result].
    - Library calls whose outcome depends only on the file system
      ([open], [read_text], [json.load], [tomllib.load], [iterdir]) are read
      off the file-system model, which records for every file what these
      calls produce.  There are no symbolic links.
    - What is printed on the standard output is left out. *)

From Stdlib Require Import ZArith String Ascii List Bool Lia Permutation.
From Stdlib Require Import DecimalString.
From stdpp Require Import base gmap strings.
Import ListNotations.

(* ===================================================================== *)
(** * Python values, exceptions and string primitives                     *)
(* ===================================================================== *)

Module Py.

(** Exceptions the two programs can meet. [OSError] is Python's [IOError];
    [FileNotFoundError], [PermissionError], [FileExistsError] and
    [IsADirectoryError] are subclasses of it.  The three decode errors are
    subclasses of [ValueError]. *)
Inductive exc : Type :=
| OSError
| FileNotFoundError
| PermissionError
| FileExistsError
| IsADirectoryError
| JSONDecodeError
| TOMLDecodeError
| UnicodeDecodeError
| ImportError
| AttributeError
| TypeError
| KeyError
| RuntimeError (msg : string)
| CalledProcessError.

Inductive result (A : Type) : Type :=
| Ok (a : A)
| Raise (e : exc).
Arguments Ok {A} a.
Arguments Raise {A} e.

Definition bind {A B} (r : result A) (k : A -> result B) : result B :=
  match r with
  | Ok a => k a
  | Raise e => Raise e
  end.

(** [isinstance(e, IOError)] *)
Definition is_IOError (e : exc) : bool :=
  match e with
  | OSError | FileNotFoundError | PermissionError
  | FileExistsError | IsADirectoryError => true
  | _ => false
  end.

Definition is_JSONDecodeError (e : exc) : bool :=
  match e with JSONDecodeError => true | _ => false end.

Definition is_ImportError (e : exc) : bool :=
  match e with ImportError => true | _ => false end.

Definition is_PermissionError (e : exc) : bool :=
  match e with PermissionError => true | _ => false end.

Definition is_CalledProcessError (e : exc) : bool :=
  match e with CalledProcessError => true | _ => false end.

(** Values produced by the JSON and TOML parsers. *)
#[warnings="-register-all"]
Inductive pyval : Type :=
| PNone
| PBool (b : bool)
| PInt (z : Z)
| PStr (s : string)
| PList (l : list pyval)
| PDict (kv : list (string * pyval)).

(** Truth value of an object ([if x], [x or y], [not x]). *)
Definition truthy (v : pyval) : bool :=
  match v with
  | PNone => false
  | PBool b => b
  | PInt z => negb (z =? 0)%Z
  | PStr s => negb (String.eqb s "")
  | PList l => match l with [] => false | _ => true end
  | PDict kv => match kv with [] => false | _ => true end
  end.

(** [x or y] *)
Definition py_or (x y : pyval) : pyval := if truthy x then x else y.

(** ** Strings *)

Definition str_startswith (s p : string) : bool := String.prefix p s.

(** [s.endswith(p)] *)
Definition str_endswith (s p : string) : bool :=
  let n := String.length s in
  let m := String.length p in
  (m <=? n)%nat && String.eqb (String.substring (n - m) m s) p.

(** [sub in s] for strings *)
Fixpoint str_contains (sub s : string) : bool :=
  String.prefix sub s ||
  match s with
  | EmptyString => false
  | String _ s' => str_contains sub s'
  end.

(** [s.replace(c, r)] for a one-character [c] *)
Fixpoint str_replace1 (c : ascii) (r : string) (s : string) : string :=
  match s with
  | EmptyString => EmptyString
  | String a s' =>
      if Ascii.eqb a c then r +:+ str_replace1 c r s'
      else String a (str_replace1 c r s')
  end.

Definition is_upper (a : ascii) : bool :=
  let n := nat_of_ascii a in (65 <=? n)%nat && (n <=? 90)%nat.

Definition is_lower (a : ascii) : bool :=
  let n := nat_of_ascii a in (97 <=? n)%nat && (n <=? 122)%nat.

Definition is_digit (a : ascii) : bool :=
  let n := nat_of_ascii a in (48 <=? n)%nat && (n <=? 57)%nat.

Definition lower_ascii (a : ascii) : ascii :=
  if is_upper a then ascii_of_nat (nat_of_ascii a + 32) else a.

Definition upper_ascii (a : ascii) : ascii :=
  if is_lower a then ascii_of_nat (nat_of_ascii a - 32) else a.

Fixpoint str_map (f : ascii -> ascii) (s : string) : string :=
  match s with
  | EmptyString => EmptyString
  | String a s' => String (f a) (str_map f s')
  end.

Definition str_lower : string -> string := str_map lower_ascii.
Definition str_upper : string -> string := str_map upper_ascii.

(** Characters matched by [\s] and stripped by [str.strip()]. *)
Definition is_space (a : ascii) : bool :=
  let n := nat_of_ascii a in
  ((9 <=? n)%nat && (n <=? 13)%nat) || ((28 <=? n)%nat && (n <=? 32)%nat).

Fixpoint str_lstrip (s : string) : string :=
  match s with
  | EmptyString => EmptyString
  | String a s' => if is_space a then str_lstrip s' else s
  end.

Fixpoint str_rev_acc (s acc : string) : string :=
  match s with
  | EmptyString => acc
  | String a s' => str_rev_acc s' (String a acc)
  end.

Definition str_rev (s : string) : string := str_rev_acc s EmptyString.

Definition str_rstrip (s : string) : string := str_rev (str_lstrip (str_rev s)).

(** [s.strip()] *)
Definition str_strip (s : string) : string := str_rstrip (str_lstrip s).

(** [s[:n]] for a non-negative [n] *)
Definition str_take (n : nat) (s : string) : string := String.substring 0 n s.

(** [sep.join(l)] *)
Definition str_join (sep : string) (l : list string) : string := String.concat sep l.

(** [s.split(sep)] for a non-empty separator: the pieces between the
    successive, non-overlapping occurrences of [sep], scanned from the left.
    [cur] holds, reversed, the characters of the piece being read. *)
Fixpoint str_split_go (sep : string) (skip : nat) (cur : string) (s : string)
  : list string :=
  match s with
  | EmptyString => [str_rev cur]
  | String a s' =>
      match skip with
      | S k => str_split_go sep k cur s'
      | O =>
          if String.prefix sep s
          then str_rev cur :: str_split_go sep (String.length sep - 1) EmptyString s'
          else str_split_go sep 0 (String a cur) s'
      end
  end.

Definition str_split (sep s : string) : list string :=
  str_split_go sep 0 EmptyString s.

(** ** Dictionaries *)

Fixpoint assoc_get {V} (k : string) (kv : list (string * V)) : option V :=
  match kv with
  | [] => None
  | (k', v) :: rest => if String.eqb k k' then Some v else assoc_get k rest
  end.

(** [d.get(k, default)]; an object that is not a dict has no [get]. *)
Definition dict_get (d : pyval) (k : string) (default : pyval) : result pyval :=
  match d with
  | PDict kv => Ok (match assoc_get k kv with Some v => v | None => default end)
  | _ => Raise AttributeError
  end.

(** [d[k]] on a dictionary *)
Definition dict_index (d : pyval) (k : string) : result pyval :=
  match d with
  | PDict kv =>
      match assoc_get k kv with
      | Some v => Ok v
      | None => Raise KeyError
      end
  | _ => Raise TypeError
  end.

(** [d.keys()] *)
Definition dict_keys (d : pyval) : result (list string) :=
  match d with
  | PDict kv => Ok (map fst kv)
  | _ => Raise AttributeError
  end.

(** ** Formatting *)

Definition str_of_Z (z : Z) : string := NilZero.string_of_int (Z.to_int z).

(** [repr(v)]; the representation of a string is given for strings that
    need no escaping. *)
Fixpoint py_repr (v : pyval) : string :=
  match v with
  | PNone => "None"
  | PBool true => "True"
  | PBool false => "False"
  | PInt z => str_of_Z z
  | PStr s => "'" +:+ s +:+ "'"
  | PList l => "[" +:+ str_join ", " (map py_repr l) +:+ "]"
  | PDict kv =>
      "{" +:+ str_join ", " (map (fun p => "'" +:+ fst p +:+ "': " +:+ py_repr (snd p)) kv)
          +:+ "}"
  end.

(** [str(v)], the conversion made by an f-string. *)
Definition py_str (v : pyval) : string :=
  match v with
  | PStr s => s
  | _ => py_repr v
  end.

(** ** Two characters *)

Definition dquote : ascii := ascii_of_nat 34.

Definition quote : string := String dquote EmptyString.

Definition newline : string := String (ascii_of_nat 10) EmptyString.

(** ** JSON text *)

Definition hex_digit (n : nat) : ascii :=
  if (n <? 10)%nat then ascii_of_nat (48 + n) else ascii_of_nat (87 + n).

Definition json_escape_char (a : ascii) : string :=
  let n := nat_of_ascii a in
  if (n =? 34)%nat then String "\"%char quote
  else if (n =? 92)%nat then "\\"
  else if (n =? 10)%nat then "\n"
  else if (n =? 13)%nat then "\r"
  else if (n =? 9)%nat then "\t"
  else if (n =? 8)%nat then "\b"
  else if (n =? 12)%nat then "\f"
  else if (n <? 32)%nat
       then "\u00" +:+ String (hex_digit (n / 16)) (String (hex_digit (n mod 16)) EmptyString)
  else String a EmptyString.

Fixpoint json_escape (s : string) : string :=
  match s with
  | EmptyString => EmptyString
  | String a s' => json_escape_char a +:+ json_escape s'
  end.

Fixpoint spaces (n : nat) : string :=
  match n with
  | O => EmptyString
  | S k => String " "%char (spaces k)
  end.

(** [json.dumps(v, indent=2)], the value standing at indentation [ind]. *)
Fixpoint json_dumps_at (ind : nat) (v : pyval) : string :=
  match v with
  | PNone => "null"
  | PBool true => "true"
  | PBool false => "false"
  | PInt z => str_of_Z z
  | PStr s => quote +:+ json_escape s +:+ quote
  | PList [] => "[]"
  | PList l =>
      "[" +:+ newline
      +:+ str_join ("," +:+ newline)
            (map (fun x => spaces (ind + 2) +:+ json_dumps_at (ind + 2) x) l)
      +:+ newline +:+ spaces ind +:+ "]"
  | PDict [] => "{}"
  | PDict kv =>
      "{" +:+ newline
      +:+ str_join ("," +:+ newline)
            (map (fun p => spaces (ind + 2) +:+ quote +:+ json_escape (fst p) +:+ quote
                           +:+ ": " +:+ json_dumps_at (ind + 2) (snd p)) kv)
      +:+ newline +:+ spaces ind +:+ "}"
  end.

Definition json_dumps (v : pyval) : string := json_dumps_at 0 v.

(** ** Statements with effects

    A statement that reads and updates a state [S] and may raise: the state
    is threaded through, and what was done before an exception stays
    done. *)
Definition ST (S A : Type) : Type := S -> result A * S.

Definition ret {S A} (a : A) : ST S A := fun s => (Ok a, s).

Definition raise {S A} (e : exc) : ST S A := fun s => (Raise e, s).

Definition bindM {S A B} (c : ST S A) (k : A -> ST S B) : ST S B :=
  fun s =>
    match c s with
    | (Ok a, s') => k a s'
    | (Raise e, s') => (Raise e, s')
    end.

Definition lift {S A} (r : result A) : ST S A := fun s => (r, s).

Definition gets {S A} (f : S -> A) : ST S A := fun s => (Ok (f s), s).

Definition modify {S} (f : S -> S) : ST S unit := fun s => (Ok tt, f s).

(** [try: body except <classes>: handler] *)
Definition try_except {S A} (body : ST S A) (catches : exc -> bool)
    (handler : ST S A) : ST S A :=
  fun s =>
    match body s with
    | (Ok a, s') => (Ok a, s')
    | (Raise e, s') => if catches e then handler s' else (Raise e, s')
    end.

(** [try: body finally: cleanup]: the cleanup runs on every way out of the
    body; the outcome of the body stands unless the cleanup itself raises. *)
Definition try_finally {S A} (body : ST S A) (cleanup : ST S unit) : ST S A :=
  fun s =>
    match body s with
    | (r, s') =>
        match cleanup s' with
        | (Ok _, s'') => (r, s'')
        | (Raise e, s'') => (Raise e, s'')
        end
    end.

Notation "'do' x <- c ; k" := (bindM c (fun x => k))
  (at level 10, x name, c at level 100, k at level 200).
Notation "c ;;; k" := (bindM c (fun _ => k))
  (at level 100, k at level 200, right associativity).

End Py.

(* ===================================================================== *)
(** * src/skillify.py                                                     *)
(* ===================================================================== *)

Module Skillify.
Import Py.

(** ** The repository on disk

    What the library calls of the program return for a file: [f_text] is the
    outcome of [read_text()] (and of [open] followed by reading), [f_json]
    the outcome of [open] + [json.load], [f_toml] the outcome of [open] +
    [tomllib.load]. *)
Record file_data : Type := {
  f_text : result string;
  f_json : result pyval;
  f_toml : result pyval
}.

(** A directory entry.  The listing of a directory is what [iterdir()]
    yields, in the order the operating system yields it; [None] stands for
    a directory whose listing raises [PermissionError]. *)
#[warnings="-register-all"]
Inductive node : Type :=
| File (name : string) (data : file_data)
| Dir (name : string) (listing : option (list node)).

Definition node_name (n : node) : string :=
  match n with
  | File nm _ => nm
  | Dir nm _ => nm
  end.

Definition is_dir (n : node) : bool :=
  match n with
  | File _ _ => false
  | Dir _ _ => true
  end.

(** [repo_path]: its last component and the listing of the directory. *)
Record repo : Type := {
  repo_name : string;
  repo_root : option (list node)
}.

Definition root_entries (r : repo) : list node :=
  match repo_root r with
  | Some l => l
  | None => []
  end.

Fixpoint lookup_entry (nm : string) (l : list node) : option node :=
  match l with
  | [] => None
  | n :: rest => if String.eqb (node_name n) nm then Some n else lookup_entry nm rest
  end.

(** The entry at a relative path, given by its components. *)
Fixpoint lookup_path (p : list string) (l : list node) : option node :=
  match p with
  | [] => None
  | [nm] => lookup_entry nm l
  | nm :: rest =>
      match lookup_entry nm l with
      | Some (Dir _ (Some l')) => lookup_path rest l'
      | _ => None
      end
  end.

(** [(repo_path / a / b).exists()] *)
Definition path_exists (r : repo) (p : list string) : bool :=
  match lookup_path p (root_entries r) with
  | Some _ => true
  | None => false
  end.

(** Opening a directory raises [IsADirectoryError]. *)
Definition read_text (n : node) : result string :=
  match n with
  | File _ d => f_text d
  | Dir _ _ => Raise IsADirectoryError
  end.

Definition json_load (n : node) : result pyval :=
  match n with
  | File _ d => f_json d
  | Dir _ _ => Raise IsADirectoryError
  end.

Definition tomllib_load (n : node) : result pyval :=
  match n with
  | File _ d => f_toml d
  | Dir _ _ => Raise IsADirectoryError
  end.

(** Names of the regular files below a node: [f.name for f in
    repo_path.rglob(pattern) if f.is_file()], as a list. *)
Fixpoint node_file_names (n : node) : list string :=
  match n with
  | File nm _ => [nm]
  | Dir _ None => []
  | Dir _ (Some l) => flat_map node_file_names l
  end.

Definition repo_file_names (r : repo) : list string :=
  flat_map node_file_names (root_entries r).

(** ** Project type detection *)

Definition PROJECT_SIGNATURES : list (string * list string) :=
  [ ("python", ["pyproject.toml"; "setup.py"; "requirements.txt"; "Pipfile"]);
    ("node", ["package.json"; "package-lock.json"; "yarn.lock"; "pnpm-lock.yaml"]);
    ("rust", ["Cargo.toml"; "Cargo.lock"]);
    ("go", ["go.mod"; "go.sum"]);
    ("ruby", ["Gemfile"; "Gemfile.lock"; "*.gemspec"]);
    ("java", ["pom.xml"; "build.gradle"; "build.gradle.kts"]);
    ("dotnet", ["*.csproj"; "*.sln"; "*.fsproj"]);
    ("terraform", ["*.tf"; "terraform.tfstate"]);
    ("docker", ["Dockerfile"; "docker-compose.yml"; "docker-compose.yaml"]);
    ("k8s", ["*.yaml"; "*.yml"]) ].

Definition DOC_FILES : list string :=
  [ "README.md"; "README.rst"; "README.txt"; "README";
    "CONTRIBUTING.md"; "CONTRIBUTING.rst";
    "ARCHITECTURE.md"; "DESIGN.md";
    "API.md"; "API.rst";
    "CHANGELOG.md"; "CHANGELOG.rst"; "CHANGELOG";
    "docs/README.md"; "docs/index.md" ].

(** The test made on one signature: a signature holding a star is a glob,
    matched by suffix once the star is removed; any other is matched by
    membership in the set of file names. *)
Definition sig_matches (files : list string) (sig : string) : bool :=
  if str_contains "*" sig then
    let pattern := str_replace1 "*"%char "" sig in
    existsb (fun f => str_endswith f pattern) files
  else
    existsb (String.eqb sig) files.

(** The inner loop over the signatures of one type: the type is appended at
    the first signature that matches, and the loop is left. *)
Fixpoint scan_signatures (files : list string) (proj_type : string)
    (signatures : list string) (types : list string) : list string :=
  match signatures with
  | [] => types
  | sig :: rest =>
      if sig_matches files sig then types ++ [proj_type]
      else scan_signatures files proj_type rest types
  end.

(** The outer loop, over [PROJECT_SIGNATURES.items()] in declaration order. *)
Definition collect_types (files : list string) : list string :=
  fold_left (fun types ps => scan_signatures files (fst ps) (snd ps) types)
            PROJECT_SIGNATURES [].

(** [list(set(types)) or ["generic"]].  The order in which a Python set of
    strings is iterated depends on the hashes of the strings, which are
    salted afresh for every interpreter process; [set_iter] is that order
    for the run at hand: it maps a list to the listing of its set. *)
Definition detect_project_type (set_iter : list string -> list string)
    (r : repo) : list string :=
  let types := collect_types (repo_file_names r) in
  match set_iter types with
  | [] => ["generic"]
  | l => l
  end.

(** What every set iteration order satisfies: the elements of the list, each
    once. *)
Definition set_order (set_iter : list string -> list string) : Prop :=
  forall l, Permutation (set_iter l) (nodup string_dec l).

(** ** Metadata extraction *)

(** The [metadata] dictionary of [get_project_metadata], one field per key. *)
Record metadata : Type := {
  md_name : pyval;
  md_description : pyval;
  md_version : pyval;
  md_scripts : pyval;
  md_dependencies : pyval
}.

(** Statements that assign into [metadata] and may raise. *)
Definition M : Type -> Type := ST metadata.

Definition set_name (v : pyval) : M unit :=
  modify (fun md => {| md_name := v; md_description := md_description md;
                       md_version := md_version md; md_scripts := md_scripts md;
                       md_dependencies := md_dependencies md |}).

Definition set_description (v : pyval) : M unit :=
  modify (fun md => {| md_name := md_name md; md_description := v;
                       md_version := md_version md; md_scripts := md_scripts md;
                       md_dependencies := md_dependencies md |}).

Definition set_version (v : pyval) : M unit :=
  modify (fun md => {| md_name := md_name md; md_description := md_description md;
                       md_version := v; md_scripts := md_scripts md;
                       md_dependencies := md_dependencies md |}).

Definition set_scripts (v : pyval) : M unit :=
  modify (fun md => {| md_name := md_name md; md_description := md_description md;
                       md_version := md_version md; md_scripts := v;
                       md_dependencies := md_dependencies md |}).

Definition set_dependencies (v : pyval) : M unit :=
  modify (fun md => {| md_name := md_name md; md_description := md_description md;
                       md_version := md_version md; md_scripts := md_scripts md;
                       md_dependencies := v |}).

(** *** The textual fallback

    [re.search(pattern, content)] for the pattern made of the key, optional
    white space, an equals sign, optional white space, and a non-empty run
    of characters other than the double quote, between double quotes; the
    run is group 1. *)

Fixpoint str_drop (n : nat) (s : string) : string :=
  match n, s with
  | S k, String _ s' => str_drop k s'
  | _, _ => s
  end.

(** The longest run of characters other than the double quote, and what
    follows it. *)
Fixpoint span_nonquote (s : string) : string * string :=
  match s with
  | EmptyString => (EmptyString, EmptyString)
  | String a s' =>
      if Ascii.eqb a dquote then (EmptyString, s)
      else let (g, rest) := span_nonquote s' in (String a g, rest)
  end.

(** A match of the pattern anchored at the head of [s]; the result is
    group 1.  Every repetition of the pattern is followed by a character
    outside its class, so the greedy match is the only one. *)
Definition match_kv_here (key s : string) : option string :=
  if String.prefix key s then
    match str_lstrip (str_drop (String.length key) s) with
    | String c1 s2 =>
        if Ascii.eqb c1 "="%char then
          match str_lstrip s2 with
          | String c2 s3 =>
              if Ascii.eqb c2 dquote then
                match span_nonquote s3 with
                | (String g0 g, String _ _) => Some (String g0 g)
                | _ => None
                end
              else None
          | EmptyString => None
          end
        else None
    | EmptyString => None
    end
  else None.

(** [re.search]: the leftmost position where the pattern matches. *)
Fixpoint re_search_kv (key content : string) : option string :=
  match match_kv_here key content with
  | Some g => Some g
  | None =>
      match content with
      | EmptyString => None
      | String _ rest => re_search_kv key rest
      end
  end.

(** The two regex assignments shared by the pyproject fallback and by the
    Cargo.toml block. *)
Definition assign_from_text (content : string) : M unit :=
  let name_match := re_search_kv "name" content in
  let desc_match := re_search_kv "description" content in
  (match name_match with
   | Some g => set_name (PStr g)
   | None => ret tt
   end) ;;;
  (match desc_match with
   | Some g => set_description (PStr g)
   | None => ret tt
   end).

(** *** The three sources *)

Definition from_package_json (pkg_json : node) : M unit :=
  try_except
    (do pkg <- lift (json_load pkg_json);
     do name0 <- gets md_name;
     do v <- lift (dict_get pkg "name" name0);
     set_name v ;;;
     do v <- lift (dict_get pkg "description" (PStr ""));
     set_description v ;;;
     do v <- lift (dict_get pkg "version" (PStr ""));
     set_version v ;;;
     do v <- lift (dict_get pkg "scripts" (PDict []));
     set_scripts v ;;;
     do d <- lift (dict_get pkg "dependencies" (PDict []));
     do ks <- lift (dict_keys d);
     set_dependencies (PList (map PStr ks)))
    (fun e => is_JSONDecodeError e || is_IOError e)
    (ret tt).

(** [tomllib_available] tells whether [import tomllib] succeeds (Python 3.11
    and later). *)
Definition from_pyproject (tomllib_available : bool) (pyproject : node) : M unit :=
  try_except
    ((if tomllib_available then ret tt else raise ImportError) ;;;
     do pyproj <- lift (tomllib_load pyproject);
     do project <- lift (dict_get pyproj "project" (PDict []));
     do name0 <- gets md_name;
     do v <- lift (dict_get project "name" name0);
     set_name v ;;;
     do v <- lift (dict_get project "description" (PStr ""));
     set_description v ;;;
     do v <- lift (dict_get project "version" (PStr ""));
     set_version v ;;;
     do v <- lift (dict_get project "dependencies" (PList []));
     set_dependencies v)
    (fun e => is_ImportError e || is_IOError e)
    (try_except
       (do content <- lift (read_text pyproject);
        assign_from_text content)
       is_IOError
       (ret tt)).

Definition from_cargo (cargo : node) : M unit :=
  try_except
    (do content <- lift (read_text cargo);
     assign_from_text content)
    is_IOError
    (ret tt).

(** [if path.exists(): block] *)
Definition if_exists (r : repo) (nm : string) (block : node -> M unit) : M unit :=
  match lookup_entry nm (root_entries r) with
  | Some n => block n
  | None => ret tt
  end.

Definition initial_metadata (r : repo) : metadata :=
  {| md_name := PStr (repo_name r);
     md_description := PStr "";
     md_version := PStr "";
     md_scripts := PDict [];
     md_dependencies := PList [] |}.

(** The three blocks in their order.  The parameter [project_types] of the
    program is not used by it and is left out. *)
Definition get_project_metadata (tomllib_available : bool) (r : repo)
  : result metadata :=
  let '(res, md) :=
    (if_exists r "package.json" from_package_json ;;;
     if_exists r "pyproject.toml" (from_pyproject tomllib_available) ;;;
     if_exists r "Cargo.toml" from_cargo) (initial_metadata r) in
  match res with
  | Ok _ => Ok md
  | Raise e => Raise e
  end.

(** ** README *)

(** The loop of [get_readme_content]: the first README that exists and can
    be read, cut to 10000 characters; an [IOError] moves on to the next
    name, any other exception leaves the function. *)
Fixpoint first_readme (r : repo) (names : list string) : result string :=
  match names with
  | [] => Ok ""
  | readme_name :: rest =>
      match lookup_entry readme_name (root_entries r) with
      | Some readme =>
          match read_text readme with
          | Ok content => Ok (str_take (Z.to_nat 10000) content)
          | Raise e => if is_IOError e then first_readme r rest else Raise e
          end
      | None => first_readme r rest
      end
  end.

Definition get_readme_content (r : repo) : result string :=
  first_readme r ["README.md"; "README.rst"; "README.txt"; "README"].

(** ** Directory tree *)

Definition ignore : list string :=
  [ ".git"; ".venv"; "venv"; "node_modules"; "__pycache__"; ".pytest_cache";
    "target"; "dist"; "build"; ".next"; ".cache"; "coverage" ].

(** The order of the sort key [(not e.is_dir(), e.name.lower())]: tuples
    compare component by component, [False] before [True]. *)
Definition key_lt (a b : node) : bool :=
  match negb (is_dir a), negb (is_dir b) with
  | false, true => true
  | true, false => false
  | _, _ => String.ltb (str_lower (node_name a)) (str_lower (node_name b))
  end.

(** [sorted] is stable: an entry goes before the first later entry that is
    not smaller than it. *)
Fixpoint insert_sorted (x : node) (l : list node) : list node :=
  match l with
  | [] => [x]
  | y :: l' => if key_lt y x then y :: insert_sorted x l' else x :: y :: l'
  end.

Definition sorted_entries (l : list node) : list node :=
  fold_right insert_sorted [] l.

Definition connector (is_last : bool) : string :=
  if is_last then "└── " else "├── ".

Definition extension (is_last : bool) : string :=
  if is_last then "    " else "│   ".

(** The state shared by the nested calls of [walk]: the [nonlocal] counter
    [file_count] and the list [lines].

    [walk] is generic in what a line is: [mk_entry depth text] builds the
    line of a listed entry and [mk_dots depth text] the line of an ellipsis,
    [depth] being the depth of the call that appends it.  The program is the
    instance that keeps the text only ([tree_lines] below); the instance
    that keeps the kind and the depth serves to state properties of the
    lines. *)
Section Walk.
Context {L : Type}.
Variable mk_entry : Z -> string -> L.
Variable mk_dots : Z -> string -> L.
Variables max_depth max_files : Z.

(** [fuel] bounds the nesting of the calls; the guard on [depth] stops the
    recursion after [max_depth + 1] levels, which is the fuel
    [get_directory_tree] gives (see [walk_fuel_enough]). *)
Fixpoint walk (fuel : nat) (path : option (list node)) (prefix : string)
    (depth : Z) (st : Z * list L) {struct fuel} : Z * list L :=
  if (depth >? max_depth)%Z || (fst st >? max_files)%Z then st
  else
    match fuel with
    | O => st
    | S fuel' =>
        match path with
        | None => st
        | Some listing =>
            let entries := sorted_entries listing in
            let n := List.length entries in
            (fix loop (i : nat) (es : list node) (st : Z * list L)
               {struct es} : Z * list L :=
               match es with
               | [] => st
               | entry :: rest =>
                   if existsb (String.eqb (node_name entry)) ignore
                      || str_startswith (node_name entry) "."
                   then loop (S i) rest st
                   else
                     let file_count := (fst st + 1)%Z in
                     if (file_count >? max_files)%Z
                     then (file_count, snd st ++ [mk_dots depth (prefix +:+ "...")])
                     else
                       let is_last := (Z.of_nat i =? Z.of_nat n - 1)%Z in
                       let st1 :=
                         (file_count,
                          snd st ++ [mk_entry depth
                                       (prefix +:+ connector is_last +:+ node_name entry)]) in
                       let st2 :=
                         match entry with
                         | Dir _ listing' =>
                             walk fuel' listing' (prefix +:+ extension is_last)
                                  (depth + 1)%Z st1
                         | File _ _ => st1
                         end in
                       loop (S i) rest st2
               end) 0%nat entries st
        end
    end.

Definition walk_root (r : repo) : Z * list L :=
  walk (Z.to_nat (max_depth + 1)) (repo_root r) "" 0%Z (0%Z, []).
End Walk.

(** The [lines] of [get_directory_tree]. *)
Definition tree_lines (max_depth max_files : Z) (r : repo) : list string :=
  snd (walk_root (fun _ text => text) (fun _ text => text) max_depth max_files r).

Definition get_directory_tree (r : repo) (max_depth max_files : Z) : string :=
  str_join newline (tree_lines max_depth max_files r).

(** Lines that remember their kind and the depth of the call that wrote
    them. *)
Inductive tagged_line : Type :=
| EntryLine (depth : Z) (text : string)
| DotsLine (depth : Z) (text : string).

Definition line_text (l : tagged_line) : string :=
  match l with
  | EntryLine _ t => t
  | DotsLine _ t => t
  end.

Definition line_depth (l : tagged_line) : Z :=
  match l with
  | EntryLine d _ => d
  | DotsLine d _ => d
  end.

Definition is_entry_line (l : tagged_line) : bool :=
  match l with
  | EntryLine _ _ => true
  | DotsLine _ _ => false
  end.

Definition is_dots_line (l : tagged_line) : bool := negb (is_entry_line l).

Definition tagged_tree_lines (max_depth max_files : Z) (r : repo) : list tagged_line :=
  snd (walk_root EntryLine DotsLine max_depth max_files r).

(** ** Entry points *)

Definition is_ident_start (a : ascii) : bool :=
  is_upper a || is_lower a || Ascii.eqb a "_"%char.

Definition is_ident_char (a : ascii) : bool :=
  is_upper a || is_lower a || is_digit a || Ascii.eqb a "_"%char || Ascii.eqb a "-"%char.

(** The longest run of identifier characters, and what follows it. *)
Fixpoint span_ident (s : string) : string * string :=
  match s with
  | EmptyString => (EmptyString, EmptyString)
  | String a s' =>
      if is_ident_char a
      then let (g, rest) := span_ident s' in (String a g, rest)
      else (EmptyString, s)
  end.

(** A match of the target pattern at the head of a line: a letter or an
    underscore, then letters, digits, underscores and hyphens, then a
    colon; the result is the identifier. *)
Definition match_target (line : string) : option string :=
  match line with
  | String a s' =>
      if is_ident_start a then
        match span_ident s' with
        | (g, String c _) => if Ascii.eqb c ":"%char then Some (String a g) else None
        | _ => None
        end
      else None
  | EmptyString => None
  end.

(** [re.findall(pattern, content, re.MULTILINE)]: the pattern is anchored
    at the start of a line and matches inside one line, so there is at most
    one match for each line, found at its head. *)
Definition findall_targets (content : string) : list string :=
  flat_map (fun line => match match_target line with Some t => [t] | None => [] end)
           (str_split newline content).

Definition executables : list string :=
  ["main.py"; "app.py"; "cli.py"; "index.js"; "main.rs"; "main.go"].

Definition common_targets : list string :=
  ["all"; "clean"; "install"; "test"; "build"].

Definition is_common (target : string) : bool :=
  existsb (String.eqb target) common_targets.

(** The loop over [targets[:10]]: a common target is inserted at index 0,
    any other is appended. *)
Fixpoint add_targets (targets : list string) (entry_points : list string)
  : list string :=
  match targets with
  | [] => entry_points
  | target :: rest =>
      if negb (is_common target)
      then add_targets rest (entry_points ++ ["make " +:+ target])
      else add_targets rest (("make " +:+ target) :: entry_points)
  end.

(** The parameter [project_types] of the program is not used by it and is
    left out. *)
Definition detect_entry_points (r : repo) : result (list string) :=
  let entry_points :=
    List.filter (fun name => path_exists r [name] || path_exists r ["src"; name])
           executables in
  bind
    (match lookup_entry "Makefile" (root_entries r) with
     | Some makefile =>
         match read_text makefile with
         | Ok content =>
             Ok (add_targets (firstn 10 (findall_targets content)) entry_points)
         | Raise e => if is_IOError e then Ok entry_points else Raise e
         end
     | None => Ok entry_points
     end)
    (fun entry_points =>
  bind
    (match lookup_entry "package.json" (root_entries r) with
     | Some pkg_json =>
         match json_load pkg_json with
         | Ok pkg =>
             bind (dict_get pkg "scripts" (PDict [])) (fun scripts =>
             bind (dict_keys scripts) (fun ks =>
             Ok (entry_points ++ map (fun script => "npm run " +:+ script) ks)))
         | Raise e =>
             if is_JSONDecodeError e || is_IOError e then Ok entry_points
             else Raise e
         end
     | None => Ok entry_points
     end)
    (fun entry_points => Ok (firstn 15 entry_points))).

(** ** Harvested documents *)

(** The loop of [extract_key_files]; [key_files] is the dictionary being
    filled, in insertion order. *)
Fixpoint harvest (r : repo) (docs : list string) (key_files : list (string * string))
  : result (list (string * string)) :=
  match docs with
  | [] => Ok key_files
  | doc_file :: rest =>
      match lookup_path (str_split "/" doc_file) (root_entries r) with
      | Some file_path =>
          match read_text file_path with
          | Ok content =>
              if (Z.of_nat (String.length content) <? 50000)%Z
              then harvest r rest (key_files ++ [(doc_file, content)])
              else harvest r rest key_files
          | Raise e => if is_IOError e then harvest r rest key_files else Raise e
          end
      | None => harvest r rest key_files
      end
  end.

Definition extract_key_files (r : repo) : result (list (string * string)) :=
  harvest r DOC_FILES [].

(** ** SKILL.md *)

(** [Path(doc).name] *)
Definition path_name (doc : string) : string :=
  List.last (str_split "/" doc) "".

(** [Path(doc).stem]: the name without its last suffix; a name has a suffix
    when its last dot is neither its first nor its last character. *)
Definition path_stem (doc : string) : string :=
  let name := path_name doc in
  let pieces := str_split "." name in
  let front := str_join "." (removelast pieces) in
  if (2 <=? List.length pieces)%nat
     && negb (String.eqb front "")
     && negb (String.eqb (List.last pieces "") "")
  then front else name.

(** [list(repo_path.glob(pattern))] is non-empty, for a pattern made of a
    directory, a slash, a name prefix and a final star. *)
Definition glob_nonempty (r : repo) (pattern : string) : bool :=
  match str_split "/" pattern with
  | [dir; leaf] =>
      let name_prefix := str_replace1 "*"%char "" leaf in
      match lookup_entry dir (root_entries r) with
      | Some (Dir _ (Some l)) =>
          existsb (fun e => str_startswith (node_name e) name_prefix) l
      | _ => false
      end
  | _ => false
  end.

Definition key_patterns : list (string * string) :=
  [ ("src/main.*", "Application entry point");
    ("src/lib.*", "Library exports");
    ("src/index.*", "Module entry");
    ("config/*", "Configuration");
    ("tests/*", "Test suite") ].

(** The loop that picks the purpose paragraph: the first block, stripped,
    longer than 50 characters that starts neither with a hash nor with a
    code fence, cut to 500 characters. *)
Fixpoint first_paragraph (paragraphs : list string) : string :=
  match paragraphs with
  | [] => ""
  | p :: rest =>
      let p := str_strip p in
      if (50 <? String.length p)%nat
         && negb (str_startswith p "#")
         && negb (str_startswith p "```")
      then str_take 500 p
      else first_paragraph rest
  end.

Definition python_setup : string :=
"### Python Setup

```bash
cd {{skill_dir}}
python -m venv .venv
source .venv/bin/activate
pip install -e .
```

".

Definition node_setup : string :=
"### Node.js Setup

```bash
cd {{skill_dir}}
npm install
```

".

Definition rust_setup : string :=
"### Rust Setup

```bash
cd {{skill_dir}}
cargo build
```

".

Definition references_header : string :=
"## References

See `references/` for detailed documentation:

".

Definition key_files_header : string :=
"
## Key Files

| File | Purpose |
|------|---------|
".

Definition str_in_list (s : string) (l : list string) : bool :=
  existsb (String.eqb s) l.

(** What follows the detected-type line of the document. *)
Definition skill_md_tail (r : repo) (project_types : list string)
    (entry_points : list string) (tree : string) : string :=
  "

## Directory Structure

```
" +:+ tree +:+ "
```

## Quick Start

"
  +:+ (match entry_points with
       | [] => ""
       | _ =>
           "### Common Commands

" +:+ String.concat ""
        (map (fun ep => "```bash
" +:+ ep +:+ "
```

") (firstn 8 entry_points))
       end)
  +:+ (if str_in_list "python" project_types then python_setup else "")
  +:+ (if str_in_list "node" project_types then node_setup else "")
  +:+ (if str_in_list "rust" project_types then rust_setup else "")
  +:+ references_header
  +:+ String.concat ""
        (map (fun doc =>
                "- [" +:+ str_upper (path_stem doc) +:+ "](references/"
                +:+ path_name doc +:+ ")" +:+ newline)
             (firstn 5 DOC_FILES))
  +:+ key_files_header
  +:+ String.concat ""
        (map (fun pp => "| `" +:+ fst pp +:+ "` | " +:+ snd pp +:+ " |" +:+ newline)
             (List.filter (fun pp => glob_nonempty r (fst pp)) key_patterns)).

(** What precedes the detected-type line. *)
Definition skill_md_head (name : string) (description : pyval)
    (md_name_str : string) (purpose : string) : string :=
  let triggers :=
    [ "working on " +:+ name; "navigate " +:+ name; "build " +:+ name;
      "debug " +:+ name; name +:+ " codebase" ] in
  "---
name: " +:+ name +:+ "
description: " +:+ py_str description +:+ " Use when "
  +:+ str_join ", " (firstn 3 triggers) +:+ ".
---

# " +:+ md_name_str +:+ "

" +:+ (if negb (String.eqb purpose "") then purpose
       else "Codebase skill for " +:+ md_name_str +:+ ".") +:+ "

## Project Type

".

(** [metadata["name"]] must be a string for [.replace] to exist; inside the
    f-strings it is then printed as it is. *)
Definition generate_skill_md (r : repo) (project_types : list string)
    (md : metadata) (entry_points : list string) (tree : string)
    (readme : string) : result string :=
  match md_name md with
  | PStr md_name_str =>
      let name := str_lower (str_replace1 "_"%char "-" md_name_str) in
      let description :=
        py_or (md_description md)
              (PStr ("Work with the " +:+ md_name_str +:+ " codebase.")) in
      let purpose :=
        if negb (String.eqb readme "")
        then first_paragraph (str_split (newline +:+ newline) readme)
        else "" in
      Ok (skill_md_head name description md_name_str purpose
          +:+ str_join ", " project_types
          +:+ skill_md_tail r project_types entry_points tree)
  | _ => Raise AttributeError
  end.

(** ** The generator *)

(** What one run finds outside the program. *)
Record env : Type := {
  (** the iteration order of string sets in this interpreter process *)
  env_set_iter : list string -> list string;
  (** whether [import tomllib] succeeds *)
  env_tomllib : bool;
  (** the directory [tempfile.mkdtemp] creates and returns *)
  env_mkdtemp : string;
  (** [subprocess.run] of the clone: the tree cloned, or the exception
      raised ([CalledProcessError] when git exits with a failure) *)
  env_clone : string -> result repo;
  (** the tree at [Path(source).resolve()], when that path exists *)
  env_local : string -> option repo;
  (** [Path.cwd()] *)
  env_cwd : string;
  (** the exception, if any, with which the k-th operation on the output
      directory fails *)
  env_output_error : nat -> option exc;
  (** whether [shutil.rmtree] manages to remove the temporary directory *)
  env_rmtree_ok : bool
}.

(** An operation made on the output directory. *)
Inductive out_op : Type :=
| Mkdir (path : string)
| WriteText (path content : string)
| Touch (path : string).

(** The part of the file system a run changes: the temporary directories
    that exist, and the operations made on the output directory so far. *)
Record world : Type := {
  temp_dirs : list string;
  out_log : list out_op
}.

Definition W : Type -> Type := ST world.

Definition mkdtemp (e : env) : W string :=
  fun w => (Ok (env_mkdtemp e),
            {| temp_dirs := env_mkdtemp e :: temp_dirs w; out_log := out_log w |}).

(** [shutil.rmtree(d, ignore_errors=True)]: never raises; the directory is
    gone when the removal succeeds. *)
Definition rmtree_ignore_errors (e : env) (d : string) : W unit :=
  fun w =>
    (Ok tt,
     if env_rmtree_ok e
     then {| temp_dirs := List.filter (fun d' => negb (String.eqb d' d)) (temp_dirs w);
             out_log := out_log w |}
     else w).

Definition output (e : env) (op : out_op) : W unit :=
  fun w =>
    match env_output_error e (List.length (out_log w)) with
    | Some err => (Raise err, w)
    | None => (Ok tt, {| temp_dirs := temp_dirs w; out_log := out_log w ++ [op] |})
    end.

(** [clone_repo]: [CalledProcessError] is caught and reported by [False];
    any other exception of [subprocess.run] leaves the function. *)
Definition clone_repo (e : env) (url : string) : result (bool * option repo) :=
  match env_clone e url with
  | Ok r => Ok (true, Some r)
  | Raise err =>
      if is_CalledProcessError err then Ok (false, None) else Raise err
  end.

Definition path_join (p c : string) : string := p +:+ "/" +:+ c.

Fixpoint write_references (e : env) (refs_path : string)
    (key_files : list (string * string)) : W unit :=
  match key_files with
  | [] => ret tt
  | (doc_file, content) :: rest =>
      output e (WriteText (path_join refs_path (path_name doc_file)) content) ;;;
      write_references e refs_path rest
  end.

(** The name under which the skill is filed. *)
Definition skill_name_of (md : metadata) : result string :=
  match md_name md with
  | PStr s => Ok (str_lower (str_replace1 "_"%char "-" s))
  | _ => Raise AttributeError
  end.

(** The content of SKILL.md for a repository, as the body of
    [generate_skill] computes it on the way to writing it. *)
Definition render_skill (e : env) (r : repo) : result string :=
  let project_types := detect_project_type (env_set_iter e) r in
  bind (get_project_metadata (env_tomllib e) r) (fun md =>
  bind (get_readme_content r) (fun readme =>
  let tree := get_directory_tree r 3 50 in
  bind (detect_entry_points r) (fun entry_points =>
  bind (extract_key_files r) (fun _ =>
  bind (skill_name_of md) (fun _ =>
  generate_skill_md r project_types md entry_points tree readme))))).

(** The body of the [try] statement. *)
Definition generate_body (e : env) (r : repo) (output_dir : option string)
  : W string :=
  let project_types := detect_project_type (env_set_iter e) r in
  do md <- lift (get_project_metadata (env_tomllib e) r);
  do readme <- lift (get_readme_content r);
  let tree := get_directory_tree r 3 50 in
  do entry_points <- lift (detect_entry_points r);
  do key_files <- lift (extract_key_files r);
  do skill_name <- lift (skill_name_of md);
  let skill_path :=
    match output_dir with
    | Some d => d
    | None => path_join (path_join (env_cwd e) "skills") skill_name
    end in
  output e (Mkdir skill_path) ;;;
  do skill_md <- lift (generate_skill_md r project_types md entry_points tree readme);
  output e (WriteText (path_join skill_path "SKILL.md") skill_md) ;;;
  let refs_path := path_join skill_path "references" in
  output e (Mkdir refs_path) ;;;
  write_references e refs_path key_files ;;;
  let scripts_path := path_join skill_path "scripts" in
  output e (Mkdir scripts_path) ;;;
  output e (Touch (path_join scripts_path ".gitkeep")) ;;;
  ret skill_path.

Definition is_url (source : string) : bool :=
  str_startswith source "http://" || str_startswith source "https://"
  || str_startswith source "git@".

(** The acquisition that precedes the [try] statement: the repository and
    the value of [temp_dir]. *)
Definition acquire (e : env) (source : string) : W (repo * option string) :=
  if is_url source then
    do temp_dir <- mkdtemp e;
    do cloned <- lift (clone_repo e source);
    match cloned with
    | (true, Some r) => ret (r, Some temp_dir)
    | _ => raise (RuntimeError ("Failed to clone " +:+ source))
    end
  else
    match env_local e source with
    | Some r => ret (r, None)
    | None => raise FileNotFoundError
    end.

(** [if temp_dir and not keep_clone: shutil.rmtree(...)] *)
Definition cleanup (e : env) (temp_dir : option string) (keep_clone : bool) : W unit :=
  match temp_dir with
  | Some d =>
      if negb (String.eqb d "") && negb keep_clone
      then rmtree_ignore_errors e d
      else ret tt
  | None => ret tt
  end.

Definition generate_skill (e : env) (source : string) (output_dir : option string)
    (keep_clone : bool) : W string :=
  do acquired <- acquire e source;
  let '(r, temp_dir) := acquired in
  try_finally (generate_body e r output_dir) (cleanup e temp_dir keep_clone).

End Skillify.

(* ===================================================================== *)
(** * src/examples/autoforge/entrypoint.py                                *)
(* ===================================================================== *)

Module Autoforge.
Import Py.

(** ** More of Python *)

(** [a == b].  A boolean equals the integer it stands for; dictionaries are
    equal when they have the same keys with equal values. *)
Fixpoint py_eq (a b : pyval) {struct a} : bool :=
  match a, b with
  | PNone, PNone => true
  | PBool x, PBool y => Bool.eqb x y
  | PBool x, PInt y => (Z.b2z x =? y)%Z
  | PInt x, PBool y => (x =? Z.b2z y)%Z
  | PInt x, PInt y => (x =? y)%Z
  | PStr x, PStr y => String.eqb x y
  | PList l1, PList l2 =>
      (fix go (l1 l2 : list pyval) {struct l1} : bool :=
         match l1, l2 with
         | [], [] => true
         | x :: r1, y :: r2 => py_eq x y && go r1 r2
         | _, _ => false
         end) l1 l2
  | PDict d1, PDict d2 =>
      (List.length d1 =? List.length d2)%nat
      && (fix go (d : list (string * pyval)) {struct d} : bool :=
            match d with
            | [] => true
            | (k, v) :: r =>
                match assoc_get k d2 with
                | Some v' => py_eq v v'
                | None => false
                end && go r
            end) d1
  | _, _ => false
  end.

(** [x in c]: by equality in a list, by key in a dictionary (whose keys
    must be hashable), by substring in a string; anything else is not a
    container. *)
Definition py_in (x c : pyval) : result bool :=
  match c with
  | PList l => Ok (existsb (py_eq x) l)
  | PDict kv =>
      match x with
      | PList _ | PDict _ => Raise TypeError
      | PStr s => Ok (existsb (String.eqb s) (map fst kv))
      | _ => Ok false
      end
  | PStr s =>
      match x with
      | PStr sub => Ok (str_contains sub s)
      | _ => Raise TypeError
      end
  | _ => Raise TypeError
  end.

(** [len(v)] *)
Definition py_len (v : pyval) : result Z :=
  match v with
  | PStr s => Ok (Z.of_nat (String.length s))
  | PList l => Ok (Z.of_nat (List.length l))
  | PDict kv => Ok (Z.of_nat (List.length kv))
  | _ => Raise TypeError
  end.

Fixpoint str_chars (s : string) : list string :=
  match s with
  | EmptyString => []
  | String a s' => String a EmptyString :: str_chars s'
  end.

(** The elements a [for] loop or a comprehension runs over. *)
Definition py_iter (v : pyval) : result (list pyval) :=
  match v with
  | PList l => Ok l
  | PDict kv => Ok (map (fun p => PStr (fst p)) kv)
  | PStr s => Ok (map PStr (str_chars s))
  | _ => Raise TypeError
  end.

(** [v.lower()] *)
Definition py_lower (v : pyval) : result string :=
  match v with
  | PStr s => Ok (str_lower s)
  | _ => Raise AttributeError
  end.

(** A list comprehension with a condition that may raise. *)
Fixpoint filterM {A} (f : A -> result bool) (l : list A) : result (list A) :=
  match l with
  | [] => Ok []
  | x :: rest =>
      bind (f x) (fun b =>
      bind (filterM f rest) (fun rest' =>
      Ok (if b then x :: rest' else rest')))
  end.

(** ** The file system

    A path is the list of its components below the root; a relative path is
    taken from the root, and no component is [..]. *)
Abbreviation path := (list string).

(** [Path(s)] *)
Definition Path (s : string) : path :=
  List.filter (fun c => negb (String.eqb c "") && negb (String.eqb c ".")) (str_split "/" s).

(** [str(p)] *)
Definition path_str (p : path) : string := "/" +:+ str_join "/" p.

(** [p / s]: an absolute right operand replaces the left one. *)
Definition path_div (p : path) (s : string) : path :=
  if str_startswith s "/" then Path s else p ++ Path s.

(** [p.name] *)
Definition path_last (p : path) : string := List.last p "".

(** What the library calls return for a file: [fd_text] is the outcome of
    [read_text()], [fd_json] the outcome of [json.loads] on that text. *)
Record fdata : Type := {
  fd_text : result string;
  fd_json : result pyval
}.

Inductive fnode : Type :=
| FFile (d : fdata)
| FDir.

Abbreviation FS := (gmap (list string) fnode).

(** The root is a directory. *)
Definition fs_lookup (fs : FS) (p : path) : option fnode :=
  match p with
  | [] => Some FDir
  | _ => fs !! p
  end.

Definition fs_exists (fs : FS) (p : path) : bool :=
  match fs_lookup fs p with
  | Some _ => true
  | None => false
  end.

Definition fs_is_dir (fs : FS) (p : path) : bool :=
  match fs_lookup fs p with
  | Some FDir => true
  | _ => false
  end.

Definition fs_read_text (fs : FS) (p : path) : result string :=
  match fs_lookup fs p with
  | Some (FFile d) => fd_text d
  | Some FDir => Raise IsADirectoryError
  | None => Raise FileNotFoundError
  end.

(** [json.loads(p.read_text())] *)
Definition fs_read_json (fs : FS) (p : path) : result pyval :=
  match fs_lookup fs p with
  | Some (FFile d) => bind (fd_text d) (fun _ => fd_json d)
  | Some FDir => Raise IsADirectoryError
  | None => Raise FileNotFoundError
  end.

(** [p.mkdir(exist_ok=True)] *)
Definition mkdir (p : path) : ST FS unit :=
  fun fs =>
    match fs_lookup fs p with
    | Some FDir => (Ok tt, fs)
    | Some (FFile _) => (Raise FileExistsError, fs)
    | None =>
        match fs_lookup fs (removelast p) with
        | Some FDir => (Ok tt, <[p := FDir]> fs)
        | Some (FFile _) => (Raise OSError, fs)
        | None => (Raise FileNotFoundError, fs)
        end
    end.

(** [p.mkdir(parents=True, exist_ok=True)]: the missing ancestors are made
    from the top, then the directory itself; [done] is the part of the path
    already walked. *)
Fixpoint mkdir_from (done todo : path) : ST FS unit :=
  match todo with
  | [] => ret tt
  | c :: rest => mkdir (done ++ [c]) ;;; mkdir_from (done ++ [c]) rest
  end.

Definition mkdir_parents (p : path) : ST FS unit := mkdir_from [] p.

(** [p.write_text(text)], for a text on which [json.loads] gives [loads]. *)
Definition write_text (p : path) (text : string) (loads : result pyval) : ST FS unit :=
  fun fs =>
    match fs_lookup fs p with
    | Some FDir => (Raise IsADirectoryError, fs)
    | _ =>
        match fs_lookup fs (removelast p) with
        | Some FDir =>
            (Ok tt, <[p := FFile {| fd_text := Ok text; fd_json := loads |}]> fs)
        | Some (FFile _) => (Raise OSError, fs)
        | None => (Raise FileNotFoundError, fs)
        end
    end.

(** [p.write_text(json.dumps(v, indent=2))] *)
Definition write_json (p : path) (v : pyval) : ST FS unit :=
  write_text p (json_dumps v) (Ok v).

(** [p.iterdir()]: the entries whose parent is [p]. *)
Definition iterdir (fs : FS) (p : path) : result (list path) :=
  match fs_lookup fs p with
  | Some FDir =>
      Ok (List.filter (fun q => match q with
                           | [] => false
                           | _ => if decide (removelast q = p) then true else false
                           end)
                 (map fst (map_to_list fs)))
  | Some (FFile _) => Raise OSError
  | None => Raise FileNotFoundError
  end.

(** ** The commands *)

Section Commands.

(** [Path(__file__).parent.parent] *)
Variable SKILL_DIR : list string.

Definition INPUT_DIR : path := SKILL_DIR ++ ["input"].
Definition OUTPUT_DIR : path := SKILL_DIR ++ ["output"].
Definition PROJECTS_DIR : path := SKILL_DIR ++ ["projects"].

Definition request_file : path := INPUT_DIR ++ ["request.json"].
Definition result_file : path := OUTPUT_DIR ++ ["result.json"].

Definition load_request (fs : FS) : result pyval :=
  if negb (fs_exists fs request_file)
  then Ok (PDict [("command", PStr "help"); ("args", PDict [])])
  else fs_read_json fs request_file.

Definition save_result (result : pyval) : ST FS unit :=
  mkdir_parents OUTPUT_DIR ;;;
  write_json result_file result.

(** [sessions_spawn] has a single return statement: the dictionary below,
    whose status is always pending. *)
Definition sessions_spawn (task label : string) (timeout : Z) : pyval :=
  PDict
    [ ("status", PStr "pending");
      ("note", PStr "Sub-agent required - orchestrator should execute sessions_spawn");
      ("action",
       PDict [ ("tool", PStr "sessions_spawn");
               ("params",
                PDict [ ("task", PStr task);
                        ("label", PStr label);
                        ("runTimeoutSeconds", PInt timeout) ]) ]) ].

Definition error_result (summary : string) : pyval :=
  PDict [("status", PStr "error"); ("summary", PStr summary); ("artifacts", PList [])].

Definition cmd_help (args : pyval) : pyval :=
  PDict
    [ ("status", PStr "ok");
      ("summary", PStr "AutoForge Skill - Available Commands");
      ("commands",
       PDict
         [ ("init",
            PDict [ ("description", PStr "Initialize a new project");
                    ("args",
                     PDict [ ("name", PStr "Project name (required)");
                             ("path", PStr "Project directory (optional)") ]) ]);
           ("plan",
            PDict [ ("description", PStr "Generate a detailed spec from requirements");
                    ("args",
                     PDict [ ("project", PStr "Project name (required)");
                             ("requirements",
                              PStr "Natural language requirements (required)") ]);
                    ("note", PStr "Uses sessions_spawn for LLM planning") ]);
           ("build",
            PDict [ ("description", PStr "Execute the build with sub-agents");
                    ("args",
                     PDict [ ("project", PStr "Project name (required)");
                             ("feature", PStr "Specific feature to build (optional)") ]);
                    ("note", PStr "Spawns sub-agents for each task") ]);
           ("status",
            PDict [ ("description", PStr "Check project status");
                    ("args",
                     PDict [ ("project",
                              PStr "Project name (optional, lists all if omitted)") ]) ]) ]);
      ("artifacts", PList []) ].

(** [base / v]: the right operand must be a string. *)
Definition path_div_val (base : path) (v : pyval) : result path :=
  match v with
  | PStr s => Ok (path_div base s)
  | _ => Raise TypeError
  end.

(** [Path(v)] *)
Definition Path_val (v : pyval) : result path :=
  match v with
  | PStr s => Ok (Path s)
  | _ => Raise TypeError
  end.

Definition spec_template (name : pyval) : string :=
"<project_specification>
# Project: " +:+ py_str name +:+ "

## Overview
[Describe what this project does]

## Features
- [ ] Feature 1
- [ ] Feature 2

## Technical Requirements
[List technical requirements]

</project_specification>
".

Definition artifact (type path : string) : pyval :=
  PDict [("type", PStr type); ("path", PStr path)].

Definition cmd_init (args : pyval) : ST FS pyval :=
  do name <- lift (dict_get args "name" PNone);
  if negb (truthy name) then ret (error_result "Project name is required")
  else
    do path_arg <- lift (dict_get args "path" PNone);
    do project_path <-
      lift (if truthy path_arg then Ok path_arg
            else bind (path_div_val PROJECTS_DIR name)
                      (fun p => Ok (PStr (path_str p))));
    do project_dir <- lift (Path_val project_path);
    mkdir_parents project_dir ;;;
    mkdir (project_dir ++ ["prompts"]) ;;;
    mkdir (project_dir ++ [".autoforge"]) ;;;
    mkdir (project_dir ++ ["src"]) ;;;
    let spec_file := project_dir ++ ["prompts"; "app_spec.txt"] in
    do spec_there <- gets (fun fs => fs_exists fs spec_file);
    (if negb spec_there
     then write_text spec_file (spec_template name) (Raise JSONDecodeError)
     else ret tt) ;;;
    let tasks_file := project_dir ++ [".autoforge"; "tasks.json"] in
    do tasks_there <- gets (fun fs => fs_exists fs tasks_file);
    (if negb tasks_there
     then write_json tasks_file (PDict [("tasks", PList []); ("completed", PList [])])
     else ret tt) ;;;
    ret (PDict
           [ ("status", PStr "ok");
             ("summary", PStr ("Initialized project '" +:+ py_str name +:+ "'"));
             ("project_path", PStr (path_str project_dir));
             ("artifacts",
              PList [ artifact "directory" (path_str project_dir);
                      artifact "file" (path_str spec_file);
                      artifact "file" (path_str tasks_file) ]);
             ("next_steps",
              PList [ PStr "Run 'plan' with your requirements to generate a detailed spec";
                      PStr "Run 'build' to start building with sub-agents" ]) ]).

Definition qt (s : string) : string := quote +:+ s +:+ quote.

Definition planning_prompt (project requirements : pyval) : string :=
"You are a technical architect. Create a detailed project specification and task breakdown.

PROJECT: " +:+ py_str project +:+ "

REQUIREMENTS:
" +:+ py_str requirements +:+ "

Please provide:

1. **Project Specification** (in <project_specification> tags):
   - Clear project overview
   - Detailed feature list with acceptance criteria
   - Technical stack recommendations
   - Architecture decisions

2. **Task Breakdown** (as JSON):
   Return a JSON object with this structure:
   {
     " +:+ qt "tasks" +:+ ": [
       {
         " +:+ qt "id" +:+ ": " +:+ qt "task-1" +:+ ",
         " +:+ qt "name" +:+ ": " +:+ qt "Setup project structure" +:+ ",
         " +:+ qt "description" +:+ ": "
           +:+ qt "Initialize the project with required dependencies" +:+ ",
         " +:+ qt "dependencies" +:+ ": [],
         " +:+ qt "estimated_complexity" +:+ ": " +:+ qt "low|medium|high" +:+ "
       }
     ]
   }

Be specific and actionable. Each task should be completable by a focused coding agent.
".

(** The test on the status of [spawn_result] always takes its first branch,
    the only one embedded: see [sessions_spawn]. *)
Definition cmd_plan (args : pyval) (fs : FS) : result pyval :=
  bind (dict_get args "project" PNone) (fun project =>
  bind (dict_get args "requirements" PNone) (fun requirements =>
  if negb (truthy project) then Ok (error_result "Project name is required")
  else if negb (truthy requirements) then Ok (error_result "Requirements are required")
  else
    bind (path_div_val PROJECTS_DIR project) (fun project_dir =>
    if negb (fs_exists fs project_dir)
    then Ok (error_result ("Project '" +:+ py_str project +:+ "' not found. Run 'init' first."))
    else
      let spawn_result :=
        sessions_spawn (planning_prompt project requirements)
                       ("autoforge-plan-" +:+ py_str project) 300 in
      bind (dict_index spawn_result "action") (fun action =>
      Ok (PDict [ ("status", PStr "pending");
                  ("summary", PStr "Planning requires OpenClaw sub-agent");
                  ("action_required", action);
                  ("artifacts", PList []) ]))))).

Definition build_prompt (project : pyval) (project_dir : path) (spec_content : string)
    (id name description dependencies : pyval) : string :=
"You are a coding agent. Implement the following task.

PROJECT: " +:+ py_str project +:+ "
WORKING DIRECTORY: " +:+ path_str project_dir +:+ "

SPECIFICATION:
" +:+ str_take 2000 spec_content +:+ "

CURRENT TASK:
ID: " +:+ py_str id +:+ "
Name: " +:+ py_str name +:+ "
Description: " +:+ py_str description +:+ "

Dependencies: " +:+ py_str dependencies +:+ "

Please:
1. Implement this task completely
2. Create/modify the necessary files
3. Write tests if applicable
4. Provide a summary of changes made

Be thorough and production-ready.
".

(** The condition of the feature filter on one task; the second operand of
    [or] is evaluated only when the first is false. *)
Definition feature_matches (feature t : pyval) : result bool :=
  bind (py_lower feature) (fun f =>
  bind (dict_get t "name" (PStr "")) (fun n =>
  bind (py_lower n) (fun n =>
  if str_contains f n then Ok true
  else
    bind (py_lower feature) (fun f =>
    bind (dict_get t "description" (PStr "")) (fun d =>
    bind (py_lower d) (fun d =>
    Ok (str_contains f d))))))).

(** [t.get("id") not in completed] *)
Definition is_pending (completed t : pyval) : result bool :=
  bind (dict_get t "id" PNone) (fun id =>
  bind (py_in id completed) (fun b => Ok (negb b))).

Definition cmd_build (args : pyval) (fs : FS) : result pyval :=
  bind (dict_get args "project" PNone) (fun project =>
  bind (dict_get args "feature" PNone) (fun feature =>
  if negb (truthy project) then Ok (error_result "Project name is required")
  else
    bind (path_div_val PROJECTS_DIR project) (fun project_dir =>
    if negb (fs_exists fs project_dir)
    then Ok (error_result ("Project '" +:+ py_str project +:+ "' not found"))
    else
      let tasks_file := project_dir ++ [".autoforge"; "tasks.json"] in
      let spec_file := project_dir ++ ["prompts"; "app_spec.txt"] in
      if negb (fs_exists fs tasks_file)
      then Ok (error_result "No tasks found. Run 'plan' first.")
      else
        bind (fs_read_json fs tasks_file) (fun tasks_data =>
        bind (dict_get tasks_data "tasks" (PList [])) (fun tasks =>
        bind (dict_get tasks_data "completed" (PList [])) (fun completed =>
        if negb (truthy tasks)
        then Ok (error_result "No tasks defined. Run 'plan' first.")
        else
          bind (if fs_exists fs spec_file then fs_read_text fs spec_file else Ok "")
               (fun spec_content =>
          bind (if truthy feature
                then bind (py_iter tasks) (fun ts =>
                     bind (filterM (feature_matches feature) ts) (fun ts' =>
                     Ok (PList ts')))
                else Ok tasks) (fun tasks =>
          bind (py_iter tasks) (fun ts =>
          bind (filterM (is_pending completed) ts) (fun pending_tasks =>
          match pending_tasks with
          | [] =>
              bind (py_len completed) (fun n_completed =>
              bind (py_len tasks) (fun n_tasks =>
              Ok (PDict
                    [ ("status", PStr "ok");
                      ("summary",
                       PStr ("All tasks completed for '" +:+ py_str project +:+ "'!"));
                      ("completed", PInt n_completed);
                      ("total", PInt n_tasks);
                      ("artifacts", PList []) ])))
          | task :: _ =>
              bind (dict_get task "id" PNone) (fun id =>
              bind (dict_get task "name" PNone) (fun name =>
              bind (dict_get task "description" PNone) (fun description =>
              bind (dict_get task "dependencies" (PList [])) (fun dependencies =>
              let spawn_result :=
                sessions_spawn
                  (build_prompt project project_dir spec_content
                                id name description dependencies)
                  ("autoforge-build-" +:+ py_str project +:+ "-" +:+ py_str id) 600 in
              bind (dict_index spawn_result "action") (fun action =>
              Ok (PDict
                    [ ("status", PStr "pending");
                      ("summary",
                       PStr ("Build task '" +:+ py_str name
                             +:+ "' requires OpenClaw sub-agent"));
                      ("task", task);
                      ("action_required", action);
                      ("artifacts", PList []) ]))))))
          end)))))))))).

(** The tasks file of a project as [cmd_status] reads it: the empty
    dictionary when the file is missing or when reading or parsing it raises
    anything at all (a bare [except]). *)
Definition tasks_data_or_empty (fs : FS) (tasks_file : path) : pyval :=
  if fs_exists fs tasks_file then
    match fs_read_json fs tasks_file with
    | Ok v => v
    | Raise _ => PDict []
    end
  else PDict [].

(** [len(d.get(k, []))] *)
Definition len_of_field (d : pyval) (k : string) : result Z :=
  bind (dict_get d k (PList [])) py_len.

Definition project_summary (fs : FS) (p : path) : result pyval :=
  let tasks_data := tasks_data_or_empty fs (p ++ [".autoforge"; "tasks.json"]) in
  bind (len_of_field tasks_data "tasks") (fun n_tasks =>
  bind (len_of_field tasks_data "completed") (fun n_completed =>
  Ok (PDict [ ("name", PStr (path_last p));
              ("path", PStr (path_str p));
              ("has_spec", PBool (fs_exists fs (p ++ ["prompts"; "app_spec.txt"])));
              ("tasks", PInt n_tasks);
              ("completed", PInt n_completed) ]))).

(** The loop over [PROJECTS_DIR.iterdir()]. *)
Fixpoint list_projects (fs : FS) (ps : list path) (projects : list pyval)
  : result (list pyval) :=
  match ps with
  | [] => Ok projects
  | p :: rest =>
      if fs_is_dir fs p && negb (str_startswith (path_last p) ".")
      then bind (project_summary fs p) (fun d => list_projects fs rest (projects ++ [d]))
      else list_projects fs rest projects
  end.

Definition cmd_status (args : pyval) (fs : FS) : result pyval :=
  bind (dict_get args "project" PNone) (fun project =>
  if negb (truthy project) then
    if negb (fs_exists fs PROJECTS_DIR)
    then Ok (PDict [ ("status", PStr "ok"); ("summary", PStr "No projects found");
                     ("projects", PList []); ("artifacts", PList []) ])
    else
      bind (iterdir fs PROJECTS_DIR) (fun ps =>
      bind (list_projects fs ps []) (fun projects =>
      Ok (PDict [ ("status", PStr "ok");
                  ("summary",
                   PStr ("Found " +:+ str_of_Z (Z.of_nat (List.length projects))
                         +:+ " project(s)"));
                  ("projects", PList projects);
                  ("artifacts", PList []) ])))
  else
    bind (path_div_val PROJECTS_DIR project) (fun project_dir =>
    if negb (fs_exists fs project_dir)
    then Ok (error_result ("Project '" +:+ py_str project +:+ "' not found"))
    else
      let spec_file := project_dir ++ ["prompts"; "app_spec.txt"] in
      let tasks_file := project_dir ++ [".autoforge"; "tasks.json"] in
      let tasks_data := tasks_data_or_empty fs tasks_file in
      bind (dict_get tasks_data "tasks" (PList [])) (fun tasks =>
      bind (dict_get tasks_data "completed" (PList [])) (fun completed =>
      bind (py_len tasks) (fun total =>
      bind (py_len completed) (fun n_completed =>
      bind (py_iter tasks) (fun ts =>
      bind (filterM (is_pending completed) ts) (fun pending =>
      bind (filterM (is_pending completed) ts) (fun pending_tasks =>
      Ok (PDict
            [ ("status", PStr "ok");
              ("summary", PStr ("Project '" +:+ py_str project +:+ "' status"));
              ("project",
               PDict [ ("name", project);
                       ("path", PStr (path_str project_dir));
                       ("has_spec", PBool (fs_exists fs spec_file));
                       ("tasks",
                        PDict [ ("total", PInt total);
                                ("completed", PInt n_completed);
                                ("pending", PInt (Z.of_nat (List.length pending))) ]) ]);
              ("pending_tasks", PList (firstn 5 pending_tasks));
              ("artifacts", PList []) ])))))))))).

(** ** Dispatch *)

Definition COMMANDS : list string := ["help"; "init"; "plan"; "build"; "status"].

(** [COMMANDS[command](args)] for a command of the table. *)
Definition run_command (command : string) (args : pyval) : ST FS pyval :=
  if String.eqb command "help" then ret (cmd_help args)
  else if String.eqb command "init" then cmd_init args
  else if String.eqb command "plan" then fun fs => (cmd_plan args fs, fs)
  else if String.eqb command "build" then fun fs => (cmd_build args fs, fs)
  else fun fs => (cmd_status args fs, fs).

(** [command in COMMANDS]: the key of a dictionary lookup must be
    hashable. *)
Definition command_known (command : pyval) : result (option string) :=
  match command with
  | PList _ | PDict _ => Raise TypeError
  | PStr c => Ok (if existsb (String.eqb c) COMMANDS then Some c else None)
  | _ => Ok None
  end.

(** [d.setdefault(k, v)] *)
Definition dict_setdefault (d : pyval) (k : string) (v : pyval) : result pyval :=
  match d with
  | PDict kv =>
      match assoc_get k kv with
      | Some _ => Ok d
      | None => Ok (PDict (kv ++ [(k, v)]))
      end
  | _ => Raise AttributeError
  end.

(** [result.get("status") == "ok"] *)
Definition status_ok (result : pyval) : bool :=
  match dict_get result "status" PNone with
  | Ok v => py_eq v (PStr "ok")
  | Raise _ => false
  end.

(** [main] up to the call of [sys.exit]: the value is the result that has
    been saved. *)
Definition main_body : ST FS pyval :=
  do request <- (fun fs => (load_request fs, fs));
  do command <- lift (dict_get request "command" (PStr "help"));
  do args <- lift (dict_get request "args" (PDict []));
  do known <- lift (command_known command);
  do result <-
    match known with
    | Some c => run_command c args
    | None =>
        ret (PDict [ ("status", PStr "error");
                     ("summary", PStr ("Unknown command: " +:+ py_str command));
                     ("available_commands", PList (map PStr COMMANDS));
                     ("artifacts", PList []) ])
    end;
  do result <- lift (dict_setdefault result "command" command);
  do result <- lift (dict_setdefault result "artifacts" (PList []));
  save_result result ;;;
  ret result.

(** The exit code of the process and the file system it leaves: the code
    given to [sys.exit], or 1 when an exception reaches the top level. *)
Definition main (fs : FS) : Z * FS :=
  match main_body fs with
  | (Ok result, fs') => ((if status_ok result then 0 else 1)%Z, fs')
  | (Raise _, fs') => (1%Z, fs')
  end.

End Commands.

End Autoforge.

(* ===================================================================== *)
(** * Notions used to state the properties of src/skillify.py              *)
(* ===================================================================== *)

Module SkillifySpec.
Import Py Skillify.

(** ** Metadata *)




(** ** Entry points *)

Definition make_cmd (target : string) : string := "make " +:+ target.

(** Entries of a list that are commands for a common target, or for another
    target. *)
Definition common_cmd (x : string) : Prop :=
  exists c, x = make_cmd c /\ is_common c = true.

Definition other_cmd (x : string) : Prop :=
  exists t, x = make_cmd t /\ is_common t = false.

(** ** Directory tree *)

(** The [for] loop of [walk], with the nested call as a parameter. *)
Definition walk_loop {L : Type} (mk_entry mk_dots : Z -> string -> L) (max_files : Z)
    (rec : option (list node) -> string -> Z -> Z * list L -> Z * list L)
    (n : nat) (prefix : string) (depth : Z)
  : nat -> list node -> Z * list L -> Z * list L :=
  fix loop (i : nat) (es : list node) (st : Z * list L) {struct es} : Z * list L :=
    match es with
    | [] => st
    | entry :: rest =>
        if existsb (String.eqb (node_name entry)) ignore
           || str_startswith (node_name entry) "."
        then loop (S i) rest st
        else
          let file_count := (fst st + 1)%Z in
          if (file_count >? max_files)%Z
          then (file_count, snd st ++ [mk_dots depth (prefix +:+ "...")])
          else
            let is_last := (Z.of_nat i =? Z.of_nat n - 1)%Z in
            let st1 :=
              (file_count,
               snd st ++ [mk_entry depth
                            (prefix +:+ connector is_last +:+ node_name entry)]) in
            let st2 :=
              match entry with
              | Dir _ listing' =>
                  rec listing' (prefix +:+ extension is_last) (depth + 1)%Z st1
              | File _ _ => st1
              end in
            loop (S i) rest st2
    end.

(** A state with its lines mapped. *)
Definition map_state {L L' : Type} (f : L -> L') (st : Z * list L) : Z * list L' :=
  (fst st, map f (snd st)).

Definition count_entries (ls : list tagged_line) : nat :=
  List.length (List.filter is_entry_line ls).

Definition count_dots (ls : list tagged_line) : nat :=
  List.length (List.filter is_dots_line ls).

(** Entry lines first, then ellipsis lines. *)
Definition entries_then_dots (ls : list tagged_line) : Prop :=
  exists es ds,
    ls = es ++ ds
    /\ forallb is_entry_line es = true
    /\ forallb is_dots_line ds = true.

Definition depth_ok (max_depth : Z) (l : tagged_line) : Prop :=
  (0 <= line_depth l <= max_depth)%Z.

(** What holds of the counter and of the lines all along the traversal:
    every increment of the counter up to [max_files] wrote an entry line,
    every increment beyond it an ellipsis line. *)
Definition walk_inv (max_depth max_files : Z) (st : Z * list tagged_line) : Prop :=
  (0 <= fst st)%Z
  /\ Z.of_nat (count_entries (snd st)) = Z.min (fst st) max_files
  /\ Z.of_nat (count_dots (snd st)) = Z.max 0 (fst st - max_files)
  /\ Forall (depth_ok max_depth) (snd st)
  /\ entries_then_dots (snd st).

(** What a call of [walk] at depth [depth] does to a state. *)
Definition walk_post (max_depth max_files depth : Z) (st st' : Z * list tagged_line)
  : Prop :=
  walk_inv max_depth max_files st'
  /\ (fst st <= fst st')%Z
  /\ ((max_files < fst st)%Z -> st' = st)
  /\ ((fst st <= max_files)%Z ->
      (fst st' - max_files <= Z.max 0 (max_depth + 1 - depth))%Z).

(** ** Rendering *)

Definition mentions (fragment : string) (rendered : result string) : bool :=
  match rendered with
  | Ok s => str_contains fragment s
  | Raise _ => false
  end.

(** ** Sample repositories and runs *)

(** A file that holds neither JSON nor TOML. *)
Definition plain_file (nm text : string) : node :=
  File nm {| f_text := Ok text;
             f_json := Raise JSONDecodeError;
             f_toml := Raise TOMLDecodeError |}.

(** A file holding a JSON document. *)
Definition json_file (nm : string) (v : pyval) : node :=
  File nm {| f_text := Ok (json_dumps v);
             f_json := Ok v;
             f_toml := Raise TOMLDecodeError |}.

(** A file holding a TOML document, with the table it parses to. *)
Definition toml_file (nm text : string) (v : pyval) : node :=
  File nm {| f_text := Ok text; f_json := Raise JSONDecodeError; f_toml := Ok v |}.

(** A repository holding notes and a picture, nothing a signature names. *)
Definition repo_notes : repo :=
  {| repo_name := "notes";
     repo_root := Some [ plain_file "notes.txt" "remember the milk";
                         Dir "img" (Some [plain_file "cat.png" "PNG"]) ] |}.

Definition package_kv : list (string * pyval) :=
  [ ("name", PStr "foo"); ("description", PStr "a node package");
    ("version", PStr "1.0.0") ].

Definition package_foo : pyval := PDict package_kv.

Definition cargo_text : string :=
"[package]
name = " +:+ quote +:+ "foo-rs" +:+ quote +:+ "
description = " +:+ quote +:+ "a rust crate" +:+ quote +:+ "
".



(** A repository whose node manifest declares a description and whose
    pyproject.toml declares a name only. *)
Definition repo_node_and_pyproject : repo :=
  {| repo_name := "foo";
     repo_root :=
       Some [ json_file "package.json" package_foo;
              toml_file "pyproject.toml"
                ("[project]
name = " +:+ quote +:+ "foo-py" +:+ quote +:+ newline)
                (PDict [("project", PDict [("name", PStr "foo-py")])]) ] |}.

(** A repository whose pyproject.toml is not valid TOML. *)
Definition repo_bad_pyproject : repo :=
  {| repo_name := "broken";
     repo_root := Some [ plain_file "pyproject.toml" "[project" ] |}.

Definition makefile_text : string :=
"all: build
build:
all: docs
docs:
".

(** A repository whose build manifest gives two rules to one target. *)
Definition repo_make : repo :=
  {| repo_name := "tool";
     repo_root := Some [ plain_file "main.py" "print(1)";
                         plain_file "Makefile" makefile_text ] |}.

(** A directory holding one file, and a file beside it. *)
Definition repo_small : repo :=
  {| repo_name := "small";
     repo_root := Some [ Dir "a" (Some [plain_file "x" "x"]); plain_file "b" "b" ] |}.

Definition world0 : world := {| temp_dirs := []; out_log := [] |}.

(** A run in which the clone fails: git exits with an error. *)
Definition env_clone_fails : env :=
  {| env_set_iter := nodup string_dec;
     env_tomllib := true;
     env_mkdtemp := "/tmp/repo-skill-gen-k3x9";
     env_clone := fun _ => Raise CalledProcessError;
     env_local := fun _ => None;
     env_cwd := "/home/dev";
     env_output_error := fun _ => None;
     env_rmtree_ok := true |}.

Definition env_with (set_iter : list string -> list string) : env :=
  {| env_set_iter := set_iter;
     env_tomllib := true;
     env_mkdtemp := "/tmp/repo-skill-gen-k3x9";
     env_clone := fun _ => Raise CalledProcessError;
     env_local := fun _ => None;
     env_cwd := "/home/dev";
     env_output_error := fun _ => None;
     env_rmtree_ok := true |}.

(** A repository with a Python manifest and a node manifest. *)
Definition repo_py_node : repo :=
  {| repo_name := "demo";
     repo_root :=
       Some [ toml_file "pyproject.toml"
                ("[project]
name = " +:+ quote +:+ "demo" +:+ quote +:+ newline)
                (PDict [("project", PDict [("name", PStr "demo")])]);
              json_file "package.json" (PDict [("name", PStr "demo")]) ] |}.

(** ** Notions for the further properties *)

(** A project type is matched when one of its signatures is. *)
Definition type_matches (files signatures : list string) : bool :=
  existsb (sig_matches files) signatures.

(** The types of the table that are matched, in the order of the table. *)
Definition matched_types (files : list string) : list string :=
  map fst (List.filter (fun ps => type_matches files (snd ps)) PROJECT_SIGNATURES).

(** A repository that holds a compose file and nothing else. *)
Definition repo_compose : repo :=
  {| repo_name := "stack";
     repo_root := Some [ plain_file "docker-compose.yml" "services: {}" ] |}.

(** Every character of a string passes a test. *)
Fixpoint str_forallb (f : ascii -> bool) (s : string) : bool :=
  match s with
  | EmptyString => true
  | String a s' => f a && str_forallb f s'
  end.

(** A README name that the loop of [get_readme_content] passes over: no
    such entry, or an entry whose reading raises an [IOError]. *)
Definition readme_skipped (r : repo) (nm : string) : Prop :=
  match lookup_entry nm (root_entries r) with
  | None => True
  | Some n => exists e, read_text n = Raise e /\ is_IOError e = true
  end.

Definition readme_names : list string :=
  ["README.md"; "README.rst"; "README.txt"; "README"].

(** A repository whose README.md is a directory and whose README.rst is a
    file. *)
Definition repo_two_readmes : repo :=
  {| repo_name := "docs";
     repo_root := Some [ Dir "README.md" (Some []);
                         plain_file "README.rst" "Title
=====
" ] |}.

(** What [extract_key_files] keeps of one documentation file: its text,
    when the file is there, can be read and is shorter than 50000
    characters. *)
Definition harvested (r : repo) (doc_file : string) : list (string * string) :=
  match lookup_path (str_split "/" doc_file) (root_entries r) with
  | Some file_path =>
      match read_text file_path with
      | Ok content =>
          if (Z.of_nat (String.length content) <? 50000)%Z
          then [(doc_file, content)] else []
      | Raise _ => []
      end
  | None => []
  end.

(** A repository with a README at the root and another under docs. *)
Definition repo_two_docs : repo :=
  {| repo_name := "lib";
     repo_root := Some [ plain_file "README.md" "the root README";
                         Dir "docs" (Some [plain_file "README.md" "the docs README"]) ] |}.

(** No entry of a list is smaller, by the sort key, than the one before
    it. *)
Fixpoint key_ordered (l : list node) : bool :=
  match l with
  | a :: (b :: _) as rest => negb (key_lt b a) && key_ordered rest
  | _ => true
  end.

(** Directories first, then the other entries. *)
Definition dirs_first (l : list node) : Prop :=
  exists ds fs,
    l = ds ++ fs
    /\ forallb is_dir ds = true
    /\ forallb (fun e => negb (is_dir e)) fs = true.

Definition not_dquote (a : ascii) : bool := negb (Ascii.eqb a dquote).

(** The words the target pattern accepts before the colon. *)
Definition is_identifier (t : string) : bool :=
  match t with
  | String a g => is_ident_start a && str_forallb is_ident_char g
  | EmptyString => false
  end.

(** The executables found at the root or under src, in the order of the
    list of the program. *)
Definition found_executables (r : repo) : list string :=
  List.filter (fun name => path_exists r [name] || path_exists r ["src"; name])
              executables.

(** The targets of the manifest that the program looks at: the first ten,
    none when there is no manifest or when it cannot be read. *)
Definition makefile_targets (r : repo) : list string :=
  match lookup_entry "Makefile" (root_entries r) with
  | Some makefile =>
      match read_text makefile with
      | Ok content => firstn 10 (findall_targets content)
      | Raise _ => []
      end
  | None => []
  end.

(** The script names of package.json, in the order of the file; none when
    there is no such file or when it cannot be read. *)
Definition package_scripts (r : repo) : list string :=
  match lookup_entry "package.json" (root_entries r) with
  | Some pkg_json =>
      match json_load pkg_json with
      | Ok pkg =>
          match bind (dict_get pkg "scripts" (PDict [])) dict_keys with
          | Ok ks => ks
          | Raise _ => []
          end
      | Raise _ => []
      end
  | None => []
  end.

(** A character that may stand in the name of a skill. *)
Definition name_char_ok (a : ascii) : bool :=
  negb (is_upper a) && negb (Ascii.eqb a "_").

(** The test of the loop that picks the purpose paragraph, on a stripped
    block. *)
Definition is_heading_or_fence (p : string) : bool :=
  str_startswith p "#" || str_startswith p "```".

(** ** Notions for the generator *)

(** The repository a source stands for: the clone of a URL, the tree at a
    local path. *)
Definition source_repo (e : env) (source : string) : option repo :=
  if is_url source then
    match env_clone e source with
    | Ok r => Some r
    | Raise _ => None
    end
  else env_local e source.

Definition skill_path_of (e : env) (output_dir : option string) (skill_name : string)
  : string :=
  match output_dir with
  | Some d => d
  | None => path_join (path_join (env_cwd e) "skills") skill_name
  end.

(** The reference files written for the harvested documents. *)
Definition reference_writes (refs_path : string) (key_files : list (string * string))
  : list out_op :=
  map (fun dc => WriteText (path_join refs_path (path_name (fst dc))) (snd dc)) key_files.

(** Everything a run that returns has done under the skill path [p]. *)
Definition skill_writes (p skill_md : string) (key_files : list (string * string))
  : list out_op :=
  [ Mkdir p; WriteText (path_join p "SKILL.md") skill_md;
    Mkdir (path_join p "references") ]
  ++ reference_writes (path_join p "references") key_files
  ++ [ Mkdir (path_join p "scripts");
       Touch (path_join (path_join p "scripts") ".gitkeep") ].

(** A computation that leaves the temporary directories as they are. *)
Definition keeps_temp {A : Type} (c : W A) : Prop :=
  forall w, temp_dirs (snd (c w)) = temp_dirs w.

(** A run on the local path lib, where [repo_two_docs] lies, and a run that
    clones it. *)
Definition env_local_lib : env :=
  {| env_set_iter := nodup string_dec;
     env_tomllib := true;
     env_mkdtemp := "/tmp/repo-skill-gen-k3x9";
     env_clone := fun _ => Ok repo_two_docs;
     env_local := fun s => if String.eqb s "lib" then Some repo_two_docs else None;
     env_cwd := "/home/dev";
     env_output_error := fun _ => None;
     env_rmtree_ok := true |}.

(** ** Notions for the lines of the tree *)

(** The names of a node and of all the entries below it. *)
Fixpoint node_entry_names (n : node) : list string :=
  node_name n ::
  match n with
  | Dir _ (Some l) => flat_map node_entry_names l
  | _ => []
  end.

Definition listing_names (path : option (list node)) : list string :=
  match path with
  | Some l => flat_map node_entry_names l
  | None => []
  end.

(** A name that the traversal lists. *)
Definition visible (name : string) : bool :=
  negb (existsb (String.eqb name) ignore) && negb (str_startswith name ".").

(** A line of the tree: an ellipsis, or a prefix, a connector and the name
    of a visible entry among [names]. *)
Definition listed_line (names : list string) (line : string) : Prop :=
  (exists prefix, line = prefix +:+ "...")
  \/ (exists prefix is_last name,
        line = prefix +:+ connector is_last +:+ name
        /\ In name names
        /\ visible name = true).

End SkillifySpec.

(* ===================================================================== *)
(** * Notions used to state the properties of the skill wrapper           *)
(* ===================================================================== *)

Module AutoforgeSpec.
Import Py Autoforge.

Definition preserves {A} (c : ST (gmap (list string) fnode) A) : Prop :=
  forall fs : gmap (list string) fnode, fs ⊆ snd (c fs).


Definition json_node (v : pyval) : fnode :=
  FFile {| fd_text := Ok (json_dumps v); fd_json := Ok v |}.

Definition SKILL_DIR0 : list string := ["skill"].

Definition demo_dir : list string := ["skill"; "projects"; "demo"].
Definition demo_spec : list string := demo_dir ++ ["prompts"; "app_spec.txt"].
Definition demo_tasks : list string := demo_dir ++ [".autoforge"; "tasks.json"].

(** The file system after [init] of the project demo on an empty disk. *)
Definition fs_fresh : gmap (list string) fnode :=
  snd (cmd_init SKILL_DIR0 (PDict [("name", PStr "demo")]) ∅).

Definition edited_spec : fnode :=
  FFile {| fd_text := Ok "<project_specification>a to-do list</project_specification>";
           fd_json := Raise JSONDecodeError |}.

(** The same project after its specification has been edited by hand. *)
Definition fs_edited : gmap (list string) fnode := <[demo_spec := edited_spec]> fs_fresh.

Definition task1 : pyval :=
  PDict [ ("id", PStr "task-1"); ("name", PStr "Setup project structure");
          ("description", PStr "Initialize the project"); ("dependencies", PList []) ].


Definition request_node (command : string) (args : pyval) : fnode :=
  json_node (PDict [("command", PStr command); ("args", args)]).

Definition request_path : list string := ["skill"; "input"; "request.json"].

Definition with_request (command : string) (args : pyval)
    (fs : gmap (list string) fnode) : gmap (list string) fnode :=
  <[request_path := request_node command args]>
    (<[ ["skill"; "input"] := FDir ]> fs).

Definition saved_status (fs : gmap (list string) fnode) : option pyval :=
  match fs !! result_file SKILL_DIR0 with
  | Some (FFile d) =>
      match fd_json d with
      | Ok (PDict kv) => assoc_get "status" kv
      | _ => None
      end
  | _ => None
  end.

(** A computation that leaves every existing entry as it is, but for the
    path [q]. *)
Definition keeps_except {A} (q : list string) (c : ST (gmap (list string) fnode) A)
  : Prop :=
  forall (fs : gmap (list string) fnode) (p : list string) (x : fnode),
    fs !! p = Some x -> p <> q -> snd (c fs) !! p = Some x.





(** The result of a successful [init]. *)
Definition init_ok_result (name : pyval) (project_dir : list string) : pyval :=
  PDict
    [ ("status", PStr "ok");
      ("summary", PStr ("Initialized project '" +:+ py_str name +:+ "'"));
      ("project_path", PStr (path_str project_dir));
      ("artifacts",
       PList [ artifact "directory" (path_str project_dir);
               artifact "file" (path_str (project_dir ++ ["prompts"; "app_spec.txt"]));
               artifact "file" (path_str (project_dir ++ [".autoforge"; "tasks.json"])) ]);
      ("next_steps",
       PList [ PStr "Run 'plan' with your requirements to generate a detailed spec";
               PStr "Run 'build' to start building with sub-agents" ]) ].

(** The steps of a run of [init] that returns with its project made. *)
Record init_run (SKILL_DIR : list string) (args : pyval)
    (fs fs' : gmap (list string) fnode) (name : pyval) (project_dir : list string)
  : Prop := {
  run_name : dict_get args "name" PNone = Ok name;
  run_named : truthy name = true;
  run_dir :
    exists path_arg project_path,
      dict_get args "path" PNone = Ok path_arg
      /\ (if truthy path_arg then Ok path_arg
          else bind (path_div_val (PROJECTS_DIR SKILL_DIR) name)
                    (fun p => Ok (PStr (path_str p)))) = Ok project_path
      /\ Path_val project_path = Ok project_dir;
  run_steps :
    exists fs1 fs2 fs3 fs4 fs5,
      mkdir_parents project_dir fs = (Ok tt, fs1)
      /\ mkdir (project_dir ++ ["prompts"]) fs1 = (Ok tt, fs2)
      /\ mkdir (project_dir ++ [".autoforge"]) fs2 = (Ok tt, fs3)
      /\ mkdir (project_dir ++ ["src"]) fs3 = (Ok tt, fs4)
      /\ (if negb (fs_exists fs4 (project_dir ++ ["prompts"; "app_spec.txt"]))
          then write_text (project_dir ++ ["prompts"; "app_spec.txt"])
                          (spec_template name) (Raise JSONDecodeError)
          else ret tt) fs4 = (Ok tt, fs5)
      /\ (if negb (fs_exists fs5 (project_dir ++ [".autoforge"; "tasks.json"]))
          then write_json (project_dir ++ [".autoforge"; "tasks.json"])
                          (PDict [("tasks", PList []); ("completed", PList [])])
          else ret tt) fs5 = (Ok tt, fs')
}.

(** The project demo with a tasks file that is not JSON. *)
Definition fs_corrupt : gmap (list string) fnode :=
  <[demo_tasks := FFile {| fd_text := Ok "{"; fd_json := Raise JSONDecodeError |}]>
    fs_fresh.

(** An entry of the projects directory that [status] lists: a directory
    whose name does not begin with a dot. *)
Definition shown (fs : gmap (list string) fnode) (p : list string) : bool :=
  fs_is_dir fs p && negb (str_startswith (path_last p) ".").

(** The projects directory with the project demo, a hidden directory and a
    stray file. *)
Definition fs_projects : gmap (list string) fnode :=
  <[ ["skill"; "projects"; ".cache"] := FDir ]>
    (<[ ["skill"; "projects"; "notes.txt"] := edited_spec ]> fs_fresh).

End AutoforgeSpec.

(* ===================================================================== *)
(** * Facts about statements with effects                                 *)
(* ===================================================================== *)

Module PyFacts.
Import Py.

Lemma bindM_ok_inv {S A B : Type} (c : ST S A) (k : A -> ST S B) (s s' : S) (b : B) :
  bindM c k s = (Ok b, s') ->
  exists a s1, c s = (Ok a, s1) /\ k a s1 = (Ok b, s').
Proof.
  unfold bindM. destruct (c s) as [[a|e] s1]; [|discriminate].
  intros H. exists a, s1. split; [reflexivity|exact H].
Qed.

Lemma lift_ok_inv {S A : Type} (r : result A) (s s' : S) (a : A) :
  lift r s = (Ok a, s') -> r = Ok a /\ s' = s.
Proof. unfold lift. intros H. inversion H. auto. Qed.

End PyFacts.

(* ===================================================================== *)
(** * Properties of src/skillify.py                                       *)
(* ===================================================================== *)

Module SkillifyProofs.
Import Py Skillify PyFacts SkillifySpec.

(** ** Project type detection *)

Lemma scan_signatures_no_match files proj_type signatures types :
  (forall sig, In sig signatures -> sig_matches files sig = false) ->
  scan_signatures files proj_type signatures types = types.
Proof.
  induction signatures as [|sig rest IH]; intros Hno; simpl.
  - reflexivity.
  - rewrite (Hno sig) by (left; reflexivity).
    apply IH. intros s Hs. apply Hno. right. exact Hs.
Qed.

Lemma fold_signatures_no_match files (table : list (string * list string)) types :
  (forall pt sigs sig, In (pt, sigs) table -> In sig sigs ->
                       sig_matches files sig = false) ->
  fold_left (fun types ps => scan_signatures files (fst ps) (snd ps) types)
            table types = types.
Proof.
  revert types.
  induction table as [|[pt sigs] rest IH]; intros types Hno; simpl.
  - reflexivity.
  - rewrite scan_signatures_no_match.
    + apply IH. intros pt' sigs' sig Hin Hsig.
      apply (Hno pt' sigs'); [right; exact Hin | exact Hsig].
    + intros sig Hsig. apply (Hno pt sigs); [left; reflexivity | exact Hsig].
Qed.

Lemma set_order_nil set_iter : set_order set_iter -> set_iter [] = [].
Proof.
  intros Hord. specialize (Hord []). simpl in Hord.
  apply Permutation_sym, Permutation_nil in Hord. exact Hord.
Qed.

Lemma set_order_nodup : set_order (nodup string_dec).
Proof. intros l. apply Permutation_refl. Qed.

Lemma set_order_rev : set_order (fun l => rev (nodup string_dec l)).
Proof. intros l. apply Permutation_sym, Permutation_rev. Qed.

(** C7.  Whatever the iteration order of sets, a repository none of whose
    file names matches a signature of any project type is classified as
    exactly [["generic"]]; and the classification of any repository is a
    non-empty list. *)
Theorem detect_project_type_generic set_iter :
  set_order set_iter ->
  forall r,
    ((forall pt sigs sig, In (pt, sigs) PROJECT_SIGNATURES -> In sig sigs ->
                          sig_matches (repo_file_names r) sig = false) ->
     detect_project_type set_iter r = ["generic"])
    /\ detect_project_type set_iter r <> [].
Proof.
  intros Hord r. split.
  - intros Hno. unfold detect_project_type, collect_types.
    rewrite fold_signatures_no_match by exact Hno.
    rewrite (set_order_nil _ Hord). reflexivity.
  - unfold detect_project_type.
    destruct (set_iter (collect_types (repo_file_names r))); discriminate.
Qed.

Lemma no_signature_bool files :
  forallb (fun ps => forallb (fun sig => negb (sig_matches files sig)) (snd ps))
          PROJECT_SIGNATURES = true ->
  forall pt sigs sig, In (pt, sigs) PROJECT_SIGNATURES -> In sig sigs ->
                      sig_matches files sig = false.
Proof.
  intros Hb pt sigs sig Hin Hsig.
  rewrite forallb_forall in Hb. specialize (Hb _ Hin). simpl in Hb.
  rewrite forallb_forall in Hb. specialize (Hb _ Hsig).
  apply negb_true_iff in Hb. exact Hb.
Qed.

Lemma detect_project_type_generic_witness :
  detect_project_type (nodup string_dec) repo_notes = ["generic"]
  /\ detect_project_type (nodup string_dec) repo_notes <> [].
Proof.
  pose proof (detect_project_type_generic (nodup string_dec) set_order_nodup
                repo_notes) as [Hgen Hne].
  split.
  - apply Hgen. apply no_signature_bool. vm_compute. reflexivity.
  - exact Hne.
Defined.

(** ** Metadata extraction *)







(** The pyproject block assigns the description it finds or the empty
    string: here the description given by package.json is lost. *)
Lemma pyproject_resets_description :
  exists md,
    get_project_metadata true repo_node_and_pyproject = Ok md
    /\ md_name md = PStr "foo-py"
    /\ md_description md = PStr "".
Proof. eexists. split; [vm_compute; reflexivity|]. split; reflexivity. Qed.

(** The failures the package.json block names are absorbed: a manifest that
    does not parse, or cannot be opened, leaves the metadata as it was. *)
Lemma package_json_failure_absorbed pkg_json e md :
  json_load pkg_json = Raise e ->
  is_JSONDecodeError e || is_IOError e = true ->
  from_package_json pkg_json md = (Ok tt, md).
Proof.
  intros Hload Hcatch. unfold from_package_json, try_except, bindM, lift.
  rewrite Hload, Hcatch. reflexivity.
Qed.

(** C2, the failing input.  With [tomllib] at hand, the decode error of a
    malformed pyproject.toml is none of the classes its handler names, and
    leaves [get_project_metadata]. *)
Lemma malformed_pyproject_propagates :
  get_project_metadata true repo_bad_pyproject = Raise TOMLDecodeError.
Proof. reflexivity. Qed.

(** The same file without [tomllib]: the import error is caught and the
    textual fallback runs. *)
Lemma malformed_pyproject_without_tomllib :
  get_project_metadata false repo_bad_pyproject = Ok (initial_metadata repo_bad_pyproject).
Proof. reflexivity. Qed.

(** ** Entry points *)

(** The loop over the targets puts the common ones in front, last found
    first, and the others behind, in the order found. *)
Lemma add_targets_split targets entry_points :
  add_targets targets entry_points =
  map make_cmd (rev (List.filter is_common targets))
  ++ entry_points
  ++ map make_cmd (List.filter (fun t => negb (is_common t)) targets).
Proof.
  revert entry_points.
  induction targets as [|t rest IH]; intros eps; simpl.
  - rewrite app_nil_r. reflexivity.
  - destruct (is_common t) eqn:Hc; simpl.
    + rewrite IH. rewrite map_app. simpl. rewrite <- app_assoc. reflexivity.
    + rewrite IH. rewrite <- !app_assoc. reflexivity.
Qed.

Lemma make_cmd_inj a b : make_cmd a = make_cmd b -> a = b.
Proof. unfold make_cmd. intros H. inversion H as [H1]. exact H1. Qed.

Lemma make_cmd_prefix t : str_startswith (make_cmd t) "make " = true.
Proof.
  unfold str_startswith, make_cmd. simpl.
  destruct t; reflexivity.
Qed.

Lemma front_before_back (front back : list string) i j x y :
  Forall common_cmd front ->
  Forall (fun z => ~ common_cmd z) back ->
  nth_error (front ++ back) i = Some x -> common_cmd x ->
  nth_error (front ++ back) j = Some y -> ~ common_cmd y ->
  (i < j)%nat.
Proof.
  intros Hfront Hback Hi Hx Hj Hy.
  assert (i < List.length front)%nat as Hlt.
  { destruct (Nat.lt_ge_cases i (List.length front)) as [Hlt|Hge]; [exact Hlt|].
    rewrite nth_error_app2 in Hi by exact Hge.
    apply nth_error_In in Hi. rewrite List.Forall_forall in Hback.
    exfalso. exact (Hback _ Hi Hx). }
  assert (List.length front <= j)%nat as Hge.
  { destruct (Nat.lt_ge_cases j (List.length front)) as [Hlt'|Hge]; [|exact Hge].
    rewrite nth_error_app1 in Hj by exact Hlt'.
    apply nth_error_In in Hj. rewrite List.Forall_forall in Hfront.
    exfalso. exact (Hy (Hfront _ Hj)). }
  lia.
Qed.

Lemma other_not_common y : other_cmd y -> ~ common_cmd y.
Proof.
  intros (t & -> & Ht) (c & Heq & Hc). apply make_cmd_inj in Heq. congruence.
Qed.

Lemma not_common_of_prefix x :
  str_startswith x "make " = false -> ~ common_cmd x.
Proof.
  intros Hp (c & -> & _). rewrite make_cmd_prefix in Hp. discriminate.
Qed.

Lemma executables_not_common (keep : string -> bool) :
  Forall (fun z => ~ common_cmd z) (List.filter keep executables).
Proof.
  rewrite List.Forall_forall. intros x Hx. apply filter_In in Hx as [Hx _].
  apply not_common_of_prefix.
  simpl in Hx.
  repeat (destruct Hx as [<-|Hx]; [reflexivity|]). destruct Hx.
Qed.

Lemma npm_not_common ks :
  Forall (fun z => ~ common_cmd z) (map (fun script => "npm run " +:+ script) ks).
Proof.
  rewrite List.Forall_forall. intros x Hx. apply in_map_iff in Hx as (s & <- & _).
  apply not_common_of_prefix. reflexivity.
Qed.

Lemma others_not_common ts :
  Forall (fun z => ~ common_cmd z)
         (map make_cmd (List.filter (fun t => negb (is_common t)) ts)).
Proof.
  rewrite List.Forall_forall. intros x Hx. apply in_map_iff in Hx as (t & <- & Ht).
  apply filter_In in Ht as [_ Ht]. apply negb_true_iff in Ht.
  intros (c & Heq & Hc). apply make_cmd_inj in Heq. congruence.
Qed.

Lemma commons_common ts :
  Forall common_cmd (map make_cmd (rev (List.filter is_common ts))).
Proof.
  rewrite List.Forall_forall. intros x Hx. apply in_map_iff in Hx as (t & <- & Ht).
  apply in_rev, filter_In in Ht as [_ Ht].
  exists t. split; [reflexivity|exact Ht].
Qed.

Lemma nth_error_firstn_some {A} n (l : list A) i x :
  nth_error (firstn n l) i = Some x -> nth_error l i = Some x.
Proof.
  revert l i. induction n as [|n IH]; intros l i; simpl.
  - destruct i; discriminate.
  - destruct l as [|a l]; [destruct i; discriminate|].
    destruct i; simpl; [auto|apply IH].
Qed.

(** The list before the final cut: a front of commands for common
    targets, and a back that holds none. *)
Lemma entry_points_shape r eps :
  detect_entry_points r = Ok eps ->
  exists front back,
    eps = firstn 15 (front ++ back)
    /\ Forall common_cmd front
    /\ Forall (fun z => ~ common_cmd z) back.
Proof.
  unfold detect_entry_points.
  set (found := List.filter _ executables).
  assert (Forall (fun z => ~ common_cmd z) found) as Hfound
      by apply executables_not_common.
  clearbody found.
  assert (exists front back1,
             (match lookup_entry "Makefile" (root_entries r) with
              | Some makefile =>
                  match read_text makefile with
                  | Ok content =>
                      Ok (add_targets (firstn 10 (findall_targets content)) found)
                  | Raise e => if is_IOError e then Ok found else Raise e
                  end
              | None => Ok found
              end = Ok (front ++ back1)
              \/ exists e, (match lookup_entry "Makefile" (root_entries r) with
              | Some makefile =>
                  match read_text makefile with
                  | Ok content =>
                      Ok (add_targets (firstn 10 (findall_targets content)) found)
                  | Raise e => if is_IOError e then Ok found else Raise e
                  end
              | None => Ok found
              end = Raise e))
             /\ Forall common_cmd front
             /\ Forall (fun z => ~ common_cmd z) back1) as (front & back1 & Hmk & Hf & Hb).
  { destruct (lookup_entry "Makefile" (root_entries r)) as [makefile|].
    - destruct (read_text makefile) as [content|e].
      + rewrite add_targets_split.
        eexists _, _. split; [left; reflexivity|]. split.
        * apply commons_common.
        * apply List.Forall_app. split; [exact Hfound|apply others_not_common].
      + destruct (is_IOError e).
        * exists [], found. split; [left; reflexivity|]. split; [constructor|exact Hfound].
        * exists [], found. split; [right; eexists; reflexivity|].
          split; [constructor|exact Hfound].
    - exists [], found. split; [left; reflexivity|]. split; [constructor|exact Hfound]. }
  destruct Hmk as [-> | [e ->]]; [|discriminate].
  simpl.
  destruct (lookup_entry "package.json" (root_entries r)) as [pkg_json|].
  - destruct (json_load pkg_json) as [pkg|e].
    + destruct (dict_get pkg "scripts" (PDict [])) as [scripts|]; [|discriminate].
      simpl. destruct (dict_keys scripts) as [ks|]; [|discriminate].
      simpl. intros H; inversion H; subst.
      exists front, (back1 ++ map (fun script => "npm run " +:+ script) ks).
      rewrite <- app_assoc. split; [reflexivity|]. split; [exact Hf|].
      apply List.Forall_app. split; [exact Hb|apply npm_not_common].
    + destruct (is_JSONDecodeError e || is_IOError e); [|discriminate].
      simpl. intros H; inversion H; subst.
      exists front, back1. auto.
  - simpl. intros H; inversion H; subst. exists front, back1. auto.
Qed.

(** C6, as amended.  The list of entry points has at most 15 elements, and
    every command for one of the five common targets stands before every
    entry that is not one: before the commands for the other targets, and
    before the executables and the script aliases as well.  (Nothing
    removes duplicates.) *)
Theorem entry_points_bounded_and_ordered r eps :
  detect_entry_points r = Ok eps ->
  (List.length eps <= 15)%nat
  /\ forall i j x y,
       nth_error eps i = Some x -> common_cmd x ->
       nth_error eps j = Some y -> ~ common_cmd y ->
       (i < j)%nat.
Proof.
  intros Hrun.
  destruct (entry_points_shape r eps Hrun) as (front & back & -> & Hf & Hb).
  split.
  - rewrite length_firstn. lia.
  - intros i j x y Hi Hx Hj Hy.
    apply nth_error_firstn_some in Hi. apply nth_error_firstn_some in Hj.
    exact (front_before_back front back i j x y Hf Hb Hi Hx Hj Hy).
Qed.

(** C6, counterexample.  A target that stands at the head of two lines of
    the manifest gives its command twice. *)
Lemma entry_points_duplicate :
  detect_entry_points repo_make
  = Ok ["make all"; "make build"; "make all"; "main.py"; "make docs"]
  /\ ~ List.NoDup ["make all"; "make build"; "make all"; "main.py"; "make docs"].
Proof.
  split; [vm_compute; reflexivity|].
  intros H. inversion H as [|? ? Hnotin _]; subst.
  apply Hnotin. simpl. auto.
Qed.

Lemma entry_points_bounded_and_ordered_witness :
  detect_entry_points repo_make
  = Ok ["make all"; "make build"; "make all"; "main.py"; "make docs"]
  /\ (2 < 4)%nat.
Proof.
  split; [vm_compute; reflexivity|].
  refine (proj2 (entry_points_bounded_and_ordered repo_make _ _)
            2%nat 4%nat "make all" "make docs" _ _ _ _).
  - vm_compute; reflexivity.
  - reflexivity.
  - exists "all". split; reflexivity.
  - reflexivity.
  - apply other_not_common. exists "docs". split; reflexivity.
Defined.

(** ** Directory tree *)

Section WalkLoop.
Context {L : Type}.
Variable mk_entry : Z -> string -> L.
Variable mk_dots : Z -> string -> L.
Variables max_depth max_files : Z.

Lemma walk_zero path prefix depth st :
  walk mk_entry mk_dots max_depth max_files 0 path prefix depth st = st.
Proof. simpl. destruct (_ || _); reflexivity. Qed.

Lemma walk_succ fuel path prefix depth st :
  walk mk_entry mk_dots max_depth max_files (S fuel) path prefix depth st =
  if (depth >? max_depth)%Z || (fst st >? max_files)%Z then st
  else
    match path with
    | None => st
    | Some listing =>
        walk_loop mk_entry mk_dots max_files
                  (walk mk_entry mk_dots max_depth max_files fuel)
                  (List.length (sorted_entries listing)) prefix depth
                  0%nat (sorted_entries listing) st
    end.
Proof. reflexivity. Qed.

Lemma walk_loop_ext rec1 rec2 n prefix depth :
  (forall path p st, rec1 path p (depth + 1)%Z st = rec2 path p (depth + 1)%Z st) ->
  forall es i st,
    walk_loop mk_entry mk_dots max_files rec1 n prefix depth i es st
    = walk_loop mk_entry mk_dots max_files rec2 n prefix depth i es st.
Proof.
  intros Hrec. induction es as [|entry rest IH]; intros i st; simpl.
  - reflexivity.
  - destruct (_ || _); [apply IH|].
    destruct (_ >? _)%Z; [reflexivity|].
    destruct entry as [nm d|nm listing']; [apply IH|].
    rewrite Hrec. apply IH.
Qed.

(** The fuel [get_directory_tree] gives is enough: past [max_depth + 1 -
    depth] levels more fuel changes nothing, the guard on the depth having
    stopped the descent. *)
Lemma walk_fuel_enough n m :
  forall path prefix depth st,
    (max_depth + 1 - depth <= Z.of_nat n)%Z ->
    (max_depth + 1 - depth <= Z.of_nat m)%Z ->
    walk mk_entry mk_dots max_depth max_files n path prefix depth st =
    walk mk_entry mk_dots max_depth max_files m path prefix depth st.
Proof.
  revert m. induction n as [|n IH]; intros m path prefix depth st Hn Hm.
  - rewrite walk_zero. destruct m; [rewrite walk_zero; reflexivity|].
    rewrite walk_succ.
    replace (depth >? max_depth)%Z with true by (symmetry; apply Z.gtb_lt; lia).
    reflexivity.
  - destruct m as [|m].
    + rewrite walk_zero, walk_succ.
      replace (depth >? max_depth)%Z with true by (symmetry; apply Z.gtb_lt; lia).
      reflexivity.
    + rewrite !walk_succ.
      destruct (_ || _); [reflexivity|].
      destruct path as [listing|]; [|reflexivity].
      apply walk_loop_ext. intros path' p st'. apply IH; lia.
Qed.

End WalkLoop.

(** Forgetting the tags of the lines gives the lines of the program. *)
Section WalkErase.
Context {L L' : Type}.
Variable mk_entry : Z -> string -> L.
Variable mk_dots : Z -> string -> L.
Variable mk_entry' : Z -> string -> L'.
Variable mk_dots' : Z -> string -> L'.
Variable f : L -> L'.
Hypothesis f_entry : forall d t, f (mk_entry d t) = mk_entry' d t.
Hypothesis f_dots : forall d t, f (mk_dots d t) = mk_dots' d t.
Variables max_depth max_files : Z.

Lemma walk_loop_map rec rec' n prefix depth :
  (forall path p d st, rec' path p d (map_state f st) = map_state f (rec path p d st)) ->
  forall es i st,
    walk_loop mk_entry' mk_dots' max_files rec' n prefix depth i es (map_state f st)
    = map_state f (walk_loop mk_entry mk_dots max_files rec n prefix depth i es st).
Proof.
  intros Hrec. induction es as [|entry rest IH]; intros i st; simpl.
  - reflexivity.
  - destruct (_ || _); [apply IH|].
    destruct (_ >? _)%Z.
    + unfold map_state. simpl. rewrite map_app. simpl. rewrite f_dots. reflexivity.
    + set (st1 := ((fst st + 1)%Z, snd st ++ [mk_entry depth _])).
      assert (((fst st + 1)%Z,
               map f (snd st) ++
               [mk_entry' depth
                  (prefix +:+ connector (Z.of_nat i =? Z.of_nat n - 1)%Z
                          +:+ node_name entry)])
              = map_state f st1) as ->.
      { unfold map_state, st1. simpl. rewrite map_app. simpl.
        rewrite f_entry. reflexivity. }
      destruct entry as [nm d|nm listing']; [apply IH|].
      rewrite Hrec. apply IH.
Qed.

Lemma walk_map fuel :
  forall path prefix depth st,
    walk mk_entry' mk_dots' max_depth max_files fuel path prefix depth (map_state f st)
    = map_state f (walk mk_entry mk_dots max_depth max_files fuel path prefix depth st).
Proof.
  induction fuel as [|fuel IH]; intros path prefix depth st.
  - rewrite !walk_zero. reflexivity.
  - rewrite !walk_succ. simpl.
    destruct (_ || _); [reflexivity|].
    destruct path as [listing|]; [|reflexivity].
    apply walk_loop_map. exact IH.
Qed.

End WalkErase.

Lemma tagged_lines_erase max_depth max_files r :
  map line_text (tagged_tree_lines max_depth max_files r)
  = tree_lines max_depth max_files r.
Proof.
  unfold tagged_tree_lines, tree_lines, walk_root.
  pose proof (walk_map EntryLine DotsLine (fun _ t => t) (fun _ t => t) line_text
                (fun _ _ => eq_refl) (fun _ _ => eq_refl) max_depth max_files
                (Z.to_nat (max_depth + 1)) (repo_root r) "" 0%Z (0%Z, [])) as H.
  unfold map_state in H. simpl in H. rewrite H. reflexivity.
Qed.

Lemma count_entries_app a b :
  count_entries (a ++ b) = (count_entries a + count_entries b)%nat.
Proof. unfold count_entries. rewrite List.filter_app, List.length_app. reflexivity. Qed.

Lemma count_dots_app a b :
  count_dots (a ++ b) = (count_dots a + count_dots b)%nat.
Proof. unfold count_dots. rewrite List.filter_app, List.length_app. reflexivity. Qed.

Lemma count_dots_all ds :
  forallb is_dots_line ds = true -> count_dots ds = List.length ds.
Proof.
  unfold count_dots. induction ds as [|x ds IH]; simpl; [reflexivity|].
  intros H. apply andb_true_iff in H as [Hx Hds].
  rewrite Hx. simpl. rewrite IH by exact Hds. reflexivity.
Qed.

Lemma entries_then_dots_dots ls d t :
  entries_then_dots ls -> entries_then_dots (ls ++ [DotsLine d t]).
Proof.
  intros (es & ds & -> & Hes & Hds).
  exists es, (ds ++ [DotsLine d t]). rewrite app_assoc. split; [reflexivity|].
  split; [exact Hes|]. rewrite forallb_app, Hds. reflexivity.
Qed.

Lemma entries_then_dots_entry ls d t :
  entries_then_dots ls -> count_dots ls = 0%nat ->
  entries_then_dots (ls ++ [EntryLine d t]).
Proof.
  intros (es & ds & -> & Hes & Hds) Hzero.
  rewrite count_dots_app, (count_dots_all ds Hds) in Hzero.
  assert (ds = []) as -> by (destruct ds; [reflexivity|simpl in Hzero; lia]).
  rewrite app_nil_r.
  exists (es ++ [EntryLine d t]), []. rewrite app_nil_r. split; [reflexivity|].
  split; [|reflexivity]. rewrite forallb_app, Hes. reflexivity.
Qed.

Section WalkInvariant.
Variables max_depth max_files : Z.

Lemma walk_inv_dots st depth text :
  walk_inv max_depth max_files st -> (0 <= depth <= max_depth)%Z -> (fst st + 1 > max_files)%Z ->
  walk_inv max_depth max_files ((fst st + 1)%Z, snd st ++ [DotsLine depth text]).
Proof.
  intros (Hc & He & Hd & Hdepth & Hsorted) Hrange Hover. unfold walk_inv. simpl.
  rewrite count_entries_app, count_dots_app. unfold count_entries, count_dots in *.
  simpl. refine (conj _ (conj _ (conj _ (conj _ _)))); try lia.
  - apply List.Forall_app. split; [exact Hdepth|]. constructor; [exact Hrange|constructor].
  - apply entries_then_dots_dots. exact Hsorted.
Qed.

Lemma walk_inv_entry st depth text :
  walk_inv max_depth max_files st -> (0 <= depth <= max_depth)%Z -> (fst st + 1 <= max_files)%Z ->
  walk_inv max_depth max_files ((fst st + 1)%Z, snd st ++ [EntryLine depth text]).
Proof.
  intros (Hc & He & Hd & Hdepth & Hsorted) Hrange Hunder. unfold walk_inv. simpl.
  assert (count_dots (snd st) = 0%nat) as Hzero by lia.
  rewrite count_entries_app, count_dots_app. unfold count_entries, count_dots in *.
  simpl. refine (conj _ (conj _ (conj _ (conj _ _)))); try lia.
  - apply List.Forall_app. split; [exact Hdepth|]. constructor; [exact Hrange|constructor].
  - apply entries_then_dots_entry; assumption.
Qed.

Lemma walk_loop_post rec n prefix depth :
  (0 <= depth <= max_depth)%Z ->
  (forall path p st, walk_inv max_depth max_files st -> walk_post max_depth max_files (depth + 1) st (rec path p (depth + 1)%Z st)) ->
  forall es i st,
    walk_inv max_depth max_files st ->
    let st' := walk_loop EntryLine DotsLine max_files rec n prefix depth i es st in
    walk_inv max_depth max_files st'
    /\ (fst st <= fst st')%Z
    /\ ((max_files < fst st)%Z -> (fst st' <= fst st + 1)%Z)
    /\ ((fst st <= max_files)%Z -> (fst st' - max_files <= max_depth + 1 - depth)%Z).
Proof.
  intros Hdepth Hrec. induction es as [|entry rest IH]; intros i st Hinv; simpl.
  - refine (conj Hinv (conj _ (conj _ _))); lia.
  - destruct (_ || _); [apply IH; exact Hinv|].
    destruct (fst st + 1 >? max_files)%Z eqn:Hover.
    + apply Z.gtb_lt in Hover. simpl.
      refine (conj _ (conj _ (conj _ _))); [|lia..].
      apply walk_inv_dots; [exact Hinv|exact Hdepth|lia].
    + assert (fst st + 1 <= max_files)%Z as Hunder
          by (destruct (Z.gtb_spec (fst st + 1) max_files); [discriminate|lia]).
      set (st1 := ((fst st + 1)%Z, snd st ++ [EntryLine depth _])).
      assert (walk_inv max_depth max_files st1) as Hinv1
          by (apply walk_inv_entry; [exact Hinv|exact Hdepth|exact Hunder]).
      assert (fst st1 = fst st + 1)%Z as Hfst1 by reflexivity.
      assert (exists st2,
                 match entry with
                 | Dir _ listing' =>
                     rec listing' (prefix +:+ extension (Z.of_nat i =? Z.of_nat n - 1)%Z)
                         (depth + 1)%Z st1
                 | File _ _ => st1
                 end = st2
                 /\ walk_inv max_depth max_files st2 /\ (fst st1 <= fst st2)%Z
                 /\ (fst st2 - max_files <= max_depth - depth)%Z)
        as (st2 & -> & Hinv2 & Hle2 & Hover2).
      { destruct entry as [nm d|nm listing'].
        - exists st1. refine (conj eq_refl (conj Hinv1 (conj _ _))); lia.
        - eexists. split; [reflexivity|].
          destruct (Hrec listing' (prefix +:+ extension (Z.of_nat i =? Z.of_nat n - 1)%Z)
                      st1 Hinv1) as (Hi & Hl & _ & Ho).
          refine (conj Hi (conj Hl _)).
          specialize (Ho ltac:(lia)). lia. }
      destruct (IH (S i) st2 Hinv2) as (Hi & Hl & Hstep & Ho).
      refine (conj Hi (conj _ (conj _ _))); [lia|lia|].
      intros _. destruct (Z.le_gt_cases (fst st2) max_files) as [Hle|Hgt].
      * apply Ho. exact Hle.
      * specialize (Hstep ltac:(lia)). lia.
Qed.

Lemma walk_post_same depth st :
  (0 <= depth)%Z -> walk_inv max_depth max_files st -> walk_post max_depth max_files depth st st.
Proof.
  intros Hdepth Hinv. refine (conj Hinv (conj _ (conj _ _))); [lia|reflexivity|lia].
Qed.

Lemma walk_post_holds fuel :
  forall path prefix depth st,
    (0 <= depth)%Z -> walk_inv max_depth max_files st ->
    walk_post max_depth max_files depth st
      (walk EntryLine DotsLine max_depth max_files fuel path prefix depth st).
Proof.
  induction fuel as [|fuel IH]; intros path prefix depth st Hdepth Hinv.
  - rewrite walk_zero. apply walk_post_same; assumption.
  - rewrite walk_succ.
    destruct (depth >? max_depth)%Z eqn:Hd; [apply walk_post_same; assumption|].
    destruct (fst st >? max_files)%Z eqn:Hc; [apply walk_post_same; assumption|].
    simpl.
    destruct path as [listing|]; [|apply walk_post_same; assumption].
    assert (depth <= max_depth)%Z as Hd'
        by (destruct (Z.gtb_spec depth max_depth); [discriminate|lia]).
    assert (fst st <= max_files)%Z as Hc'
        by (destruct (Z.gtb_spec (fst st) max_files); [discriminate|lia]).
    destruct (walk_loop_post
                (walk EntryLine DotsLine max_depth max_files fuel)
                (List.length (sorted_entries listing)) prefix depth
                ltac:(lia)
                (fun path' p st' Hinv' => IH path' p (depth + 1)%Z st' ltac:(lia) Hinv')
                (sorted_entries listing) 0%nat st Hinv) as (Hi & Hl & _ & Ho).
    refine (conj Hi (conj Hl (conj _ _))); [lia|].
    intros _. specialize (Ho Hc'). lia.
Qed.

End WalkInvariant.

Lemma count_lines_split ls :
  List.length ls = (count_entries ls + count_dots ls)%nat.
Proof.
  unfold count_entries, count_dots, is_dots_line.
  induction ls as [|x ls IH]; simpl; [reflexivity|].
  destruct (is_entry_line x); simpl; lia.
Qed.

Lemma walk_root_negative {L} (mk_entry mk_dots : Z -> string -> L)
    max_depth max_files r :
  (max_files < 0)%Z ->
  walk_root mk_entry mk_dots max_depth max_files r = (0%Z, []).
Proof.
  intros Hneg. unfold walk_root.
  destruct (Z.to_nat (max_depth + 1)) as [|fuel].
  - apply walk_zero.
  - rewrite walk_succ. simpl fst.
    replace (0 >? max_files)%Z with true by (symmetry; apply Z.gtb_lt; lia).
    rewrite orb_true_r. reflexivity.
Qed.

(** C4, as amended.  The lines of the tree are entry lines followed by
    ellipsis lines.  There are at most [max_files] entry lines; once the
    counter is past [max_files] nothing more is listed, and each call of
    [walk] still running closes with one ellipsis line, so there are at most
    [max_depth + 1] of those; every line is written by a call at a depth
    between 0 and [max_depth]. *)
Theorem tree_lines_bounds r max_depth max_files :
  map line_text (tagged_tree_lines max_depth max_files r)
  = tree_lines max_depth max_files r
  /\ (Z.of_nat (count_entries (tagged_tree_lines max_depth max_files r))
      <= Z.max 0 max_files)%Z
  /\ (Z.of_nat (count_dots (tagged_tree_lines max_depth max_files r))
      <= Z.max 0 (max_depth + 1))%Z
  /\ (Z.of_nat (List.length (tree_lines max_depth max_files r))
      <= Z.max 0 max_files + Z.max 0 (max_depth + 1))%Z
  /\ Forall (fun l => 0 <= line_depth l <= max_depth)%Z
            (tagged_tree_lines max_depth max_files r)
  /\ entries_then_dots (tagged_tree_lines max_depth max_files r).
Proof.
  assert ((Z.of_nat (count_entries (tagged_tree_lines max_depth max_files r))
           <= Z.max 0 max_files)%Z
          /\ (Z.of_nat (count_dots (tagged_tree_lines max_depth max_files r))
              <= Z.max 0 (max_depth + 1))%Z
          /\ Forall (fun l => 0 <= line_depth l <= max_depth)%Z
                    (tagged_tree_lines max_depth max_files r)
          /\ entries_then_dots (tagged_tree_lines max_depth max_files r))
    as (He & Hd & Hdepth & Hsorted).
  { unfold tagged_tree_lines.
    destruct (Z.lt_ge_cases max_files 0) as [Hneg|Hpos].
    - rewrite walk_root_negative by exact Hneg.
      unfold count_entries, count_dots. simpl.
      refine (conj _ (conj _ (conj _ _))); [lia|lia|constructor|].
      exists [], []. auto.
    - unfold walk_root.
      assert (walk_inv max_depth max_files (0%Z, [])) as Hinit.
      { unfold walk_inv, count_entries, count_dots. simpl.
        refine (conj _ (conj _ (conj _ (conj _ _)))); [lia|lia|lia|constructor|].
        exists [], []. auto. }
      destruct (walk_post_holds max_depth max_files
                  (Z.to_nat (max_depth + 1)) (repo_root r) "" 0%Z (0%Z, [])
                  ltac:(lia) Hinit)
        as ((Hc & Hent & Hdots & Hdep & Hsort) & Hle & _ & Hover).
      simpl fst in *. specialize (Hover Hpos).
      refine (conj _ (conj _ (conj Hdep Hsort))); lia. }
  pose proof (tagged_lines_erase max_depth max_files r) as Herase.
  refine (conj Herase (conj He (conj Hd (conj _ (conj Hdepth Hsorted))))).
  rewrite <- Herase, length_map, count_lines_split. lia.
Qed.

(** C4, counterexample.  With [max_files = 1] the tree of that repository
    has three lines, two of them ellipsis lines: the return that follows
    the first ellipsis leaves the inner call only, and the loop of the
    outer call goes on to write its own. *)
Lemma tree_lines_exceed_max_files :
  tagged_tree_lines 3 1 repo_small
  = [ EntryLine 0 "├── a"; DotsLine 1 "│   ..."; DotsLine 0 "..." ]
  /\ tree_lines 3 1 repo_small = [ "├── a"; "│   ..."; "..." ]
  /\ (Z.of_nat (List.length (tree_lines 3 1 repo_small)) > 1)%Z.
Proof.
  split; [vm_compute; reflexivity|]. split; [vm_compute; reflexivity|].
  vm_compute. reflexivity.
Qed.

(** ** The temporary directory *)

(** C3, the failing input.  The clone fails, [generate_skill] raises
    [RuntimeError], and the temporary directory is still there: the
    [raise] stands before the [try] statement whose [finally] clause
    removes it. *)
Lemma failed_clone_leaves_temp_dir :
  generate_skill env_clone_fails "https://example.invalid/repo.git" None false world0
  = (Raise (RuntimeError "Failed to clone https://example.invalid/repo.git"),
     {| temp_dirs := ["/tmp/repo-skill-gen-k3x9"]; out_log := [] |}).
Proof. reflexivity. Qed.

Lemma filter_out_not_in d (l : list string) :
  ~ In d (List.filter (fun d' => negb (String.eqb d' d)) l).
Proof.
  intros Hin. apply filter_In in Hin as [_ Hne].
  rewrite String.eqb_refl in Hne. discriminate.
Qed.

(** The removal never raises, whether it succeeds or not. *)
Lemma cleanup_never_raises e temp_dir keep_clone w :
  fst (cleanup e temp_dir keep_clone w) = Ok tt.
Proof.
  unfold cleanup. destruct temp_dir as [d|]; [|reflexivity].
  destruct (negb (String.eqb d "") && negb keep_clone); reflexivity.
Qed.

(** Once the clone has succeeded, the directory is removed on every way out
    of the body, whether it returns or raises, when the removal itself
    works. *)
Lemma temp_dir_removed_after_clone e source output_dir w r :
  is_url source = true ->
  env_clone e source = Ok r ->
  env_mkdtemp e <> "" ->
  env_rmtree_ok e = true ->
  ~ In (env_mkdtemp e) (temp_dirs (snd (generate_skill e source output_dir false w))).
Proof.
  intros Hurl Hclone Hname Hrm.
  unfold generate_skill, acquire, bindM, mkdtemp, lift, clone_repo, ret.
  rewrite Hurl, Hclone. unfold try_finally.
  destruct (generate_body e r output_dir _) as [res w1].
  unfold cleanup.
  apply String.eqb_neq in Hname. rewrite Hname. simpl.
  unfold rmtree_ignore_errors. rewrite Hrm. simpl.
  apply filter_out_not_in.
Qed.

(** ** What is written *)

Lemma output_ok_inv e op w w' :
  output e op w = (Ok tt, w') -> out_log w' = out_log w ++ [op].
Proof.
  unfold output. destruct (env_output_error e _); [discriminate|].
  intros H. inversion H. reflexivity.
Qed.

Lemma write_references_log e refs_path key_files :
  forall w w',
    write_references e refs_path key_files w = (Ok tt, w') ->
    exists l, out_log w' = out_log w ++ l.
Proof.
  induction key_files as [|[doc_file content] rest IH]; intros w w' H; simpl in H.
  - unfold ret in H. inversion H. exists []. rewrite app_nil_r. reflexivity.
  - apply bindM_ok_inv in H as ([] & w1 & Hout & H).
    apply output_ok_inv in Hout. apply IH in H as (l & Hl).
    eexists. rewrite Hl, Hout, <- app_assoc. reflexivity.
Qed.

(** When the body of [generate_skill] returns, the SKILL.md it has written
    under the path it returns holds [render_skill]. *)
Lemma generate_body_writes_render e r output_dir w p w' :
  generate_body e r output_dir w = (Ok p, w') ->
  exists s,
    render_skill e r = Ok s
    /\ In (WriteText (path_join p "SKILL.md") s) (out_log w').
Proof.
  unfold generate_body, render_skill. intros H.
  apply bindM_ok_inv in H as (md & w1 & Hmd & H). apply lift_ok_inv in Hmd as [Hmd ->].
  apply bindM_ok_inv in H as (readme & w1 & Hr & H). apply lift_ok_inv in Hr as [Hr ->].
  apply bindM_ok_inv in H as (eps & w1 & He & H). apply lift_ok_inv in He as [He ->].
  apply bindM_ok_inv in H as (kf & w1 & Hk & H). apply lift_ok_inv in Hk as [Hk ->].
  apply bindM_ok_inv in H as (sn & w1 & Hs & H). apply lift_ok_inv in Hs as [Hs ->].
  apply bindM_ok_inv in H as ([] & w1 & Hmk & H). apply output_ok_inv in Hmk.
  apply bindM_ok_inv in H as (skill_md & w2 & Hg & H). apply lift_ok_inv in Hg as [Hg ->].
  apply bindM_ok_inv in H as ([] & w2 & Hw & H). apply output_ok_inv in Hw.
  apply bindM_ok_inv in H as ([] & w3 & Hm2 & H). apply output_ok_inv in Hm2.
  apply bindM_ok_inv in H as ([] & w4 & Hrefs & H).
  apply write_references_log in Hrefs as (l & Hl).
  apply bindM_ok_inv in H as ([] & w5 & Hm3 & H). apply output_ok_inv in Hm3.
  apply bindM_ok_inv in H as ([] & w6 & Ht & H). apply output_ok_inv in Ht.
  unfold ret in H. inversion H; subst p w'.
  exists skill_md. split.
  - rewrite Hmd. cbn [bind]. rewrite Hr. cbn [bind]. rewrite He. cbn [bind].
    rewrite Hk. cbn [bind]. rewrite Hs. cbn [bind]. exact Hg.
  - rewrite Ht, Hm3, Hl, Hm2, Hw.
    rewrite !in_app_iff. left. left. left. left. right. left. reflexivity.
Qed.

(** ** Determinism *)

Lemma existsb_permutation {A} (f : A -> bool) l1 l2 :
  Permutation l1 l2 -> existsb f l1 = existsb f l2.
Proof.
  induction 1; simpl.
  - reflexivity.
  - rewrite IHPermutation. reflexivity.
  - destruct (f x), (f y); reflexivity.
  - congruence.
Qed.

Lemma skill_md_tail_permutation r types1 types2 entry_points tree :
  Permutation types1 types2 ->
  skill_md_tail r types1 entry_points tree = skill_md_tail r types2 entry_points tree.
Proof.
  intros Hperm. unfold skill_md_tail, str_in_list.
  rewrite !(existsb_permutation _ _ _ Hperm). reflexivity.
Qed.

Lemma detect_project_type_permutation o1 o2 r :
  set_order o1 -> set_order o2 ->
  Permutation (detect_project_type o1 r) (detect_project_type o2 r).
Proof.
  intros H1 H2. unfold detect_project_type.
  set (types := collect_types (repo_file_names r)).
  assert (Permutation (o1 types) (o2 types)) as Hperm.
  { eapply Permutation_trans; [apply H1|]. apply Permutation_sym, H2. }
  destruct (o1 types) as [|a l1], (o2 types) as [|b l2].
  - apply Permutation_refl.
  - apply Permutation_nil in Hperm. discriminate.
  - apply Permutation_sym, Permutation_nil in Hperm. discriminate.
  - exact Hperm.
Qed.

Lemma nodup_short (l : list string) :
  (List.length l <= 1)%nat -> nodup string_dec l = l.
Proof.
  destruct l as [|a [|b l]]; simpl; intros H; try reflexivity. lia.
Qed.

Lemma set_order_short o (l : list string) :
  set_order o -> (List.length l <= 1)%nat -> o l = l.
Proof.
  intros Hord Hlen. specialize (Hord l). rewrite nodup_short in Hord by exact Hlen.
  destruct l as [|a [|b l]]; simpl in Hlen.
  - apply Permutation_sym, Permutation_nil in Hord. exact Hord.
  - apply Permutation_sym, Permutation_length_1_inv in Hord. exact Hord.
  - lia.
Qed.

(** C5, as amended.  Two runs on the same repository, under the same
    Python version, whatever order each uses to iterate sets:
    - detect the same types, possibly listed in another order;
    - list them in the same order when at most one signature type is found;
    - produce the same SKILL.md whenever they list the types in the same
      order;
    - in any case produce documents that differ at most in the order of the
      names on the detected-type line: entry points, tree, purpose
      paragraph and all other sections are the same. *)
Theorem render_skill_stable e1 e2 r :
  set_order (env_set_iter e1) ->
  set_order (env_set_iter e2) ->
  env_tomllib e1 = env_tomllib e2 ->
  Permutation (detect_project_type (env_set_iter e1) r)
              (detect_project_type (env_set_iter e2) r)
  /\ ((List.length (collect_types (repo_file_names r)) <= 1)%nat ->
      detect_project_type (env_set_iter e1) r = detect_project_type (env_set_iter e2) r)
  /\ (detect_project_type (env_set_iter e1) r = detect_project_type (env_set_iter e2) r ->
      render_skill e1 r = render_skill e2 r)
  /\ (forall s1,
        render_skill e1 r = Ok s1 ->
        exists head tail,
          s1 = head +:+ str_join ", " (detect_project_type (env_set_iter e1) r) +:+ tail
          /\ render_skill e2 r
             = Ok (head +:+ str_join ", " (detect_project_type (env_set_iter e2) r)
                        +:+ tail)).
Proof.
  intros H1 H2 Htoml.
  pose proof (detect_project_type_permutation _ _ r H1 H2) as Hperm.
  split; [exact Hperm|]. split; [|split].
  - intros Hlen. unfold detect_project_type.
    rewrite (set_order_short _ _ H1 Hlen), (set_order_short _ _ H2 Hlen). reflexivity.
  - intros Heq. unfold render_skill. rewrite Htoml, Heq. reflexivity.
  - intros s1. unfold render_skill. rewrite <- Htoml.
    destruct (get_project_metadata (env_tomllib e1) r) as [md|]; [|discriminate].
    simpl. destruct (get_readme_content r) as [readme|]; [|discriminate].
    simpl. destruct (detect_entry_points r) as [eps|]; [|discriminate].
    simpl. destruct (extract_key_files r) as [kf|]; [|discriminate].
    simpl. destruct (skill_name_of md) as [sn|]; [|discriminate].
    simpl. unfold generate_skill_md.
    destruct (md_name md) as [| | |nm| |]; try discriminate.
    intros H; inversion H; subst.
    eexists _, _. split; [reflexivity|].
    rewrite (skill_md_tail_permutation r _ _ eps _ Hperm). reflexivity.
Qed.

(** C5, counterexample.  Two iteration orders of the set of detected types,
    both possible, give two different documents for the same repository. *)
Lemma render_skill_depends_on_set_order :
  set_order (nodup string_dec)
  /\ set_order (fun l => rev (nodup string_dec l))
  /\ mentions "python, node" (render_skill (env_with (nodup string_dec)) repo_py_node) = true
  /\ mentions "python, node"
       (render_skill (env_with (fun l => rev (nodup string_dec l))) repo_py_node) = false
  /\ render_skill (env_with (nodup string_dec)) repo_py_node
     <> render_skill (env_with (fun l => rev (nodup string_dec l))) repo_py_node.
Proof.
  split; [apply set_order_nodup|]. split; [apply set_order_rev|].
  assert (mentions "python, node"
            (render_skill (env_with (nodup string_dec)) repo_py_node) = true) as Ha
      by (vm_compute; reflexivity).
  assert (mentions "python, node"
            (render_skill (env_with (fun l => rev (nodup string_dec l))) repo_py_node)
          = false) as Hb by (vm_compute; reflexivity).
  split; [exact Ha|]. split; [exact Hb|].
  intros Heq. rewrite Heq in Ha. rewrite Ha in Hb. discriminate.
Qed.

Lemma render_skill_stable_witness :
  Permutation (detect_project_type (nodup string_dec) repo_py_node)
              (detect_project_type (fun l => rev (nodup string_dec l)) repo_py_node).
Proof.
  exact (proj1 (render_skill_stable (env_with (nodup string_dec))
                  (env_with (fun l => rev (nodup string_dec l))) repo_py_node
                  set_order_nodup set_order_rev eq_refl)).
Defined.

End SkillifyProofs.

(* ===================================================================== *)
(** * Properties of src/examples/autoforge/entrypoint.py                  *)
(* ===================================================================== *)

Module AutoforgeProofs.
Import Py Autoforge PyFacts AutoforgeSpec.

(** ** Statements that only add to the file system *)

Lemma preserves_ret {A} (a : A) : preserves (ret a).
Proof. intros fs. reflexivity. Qed.

Lemma preserves_lift {A} (r : result A) : preserves (lift r).
Proof. intros fs. reflexivity. Qed.

Lemma preserves_bind {A B : Type} (c : ST (gmap (list string) fnode) A)
    (k : A -> ST (gmap (list string) fnode) B) :
  preserves c -> (forall a, preserves (k a)) -> preserves (bindM c k).
Proof.
  intros Hc Hk fs. unfold bindM. specialize (Hc fs).
  destruct (c fs) as [[a|e] fs1]; simpl in *.
  - etrans; [exact Hc|apply Hk].
  - exact Hc.
Qed.

Lemma fs_lookup_none (fs : gmap (list string) fnode) (p : list string) :
  fs_lookup fs p = None -> fs !! p = None.
Proof. unfold fs_lookup. destruct p; [discriminate|auto]. Qed.

Lemma preserves_mkdir (p : list string) : preserves (mkdir p).
Proof.
  intros fs. unfold mkdir.
  destruct (fs_lookup fs p) as [[d|]|] eqn:Hp; simpl; try reflexivity.
  destruct (fs_lookup fs (removelast p)) as [[d|]|]; simpl; try reflexivity.
  apply insert_subseteq, fs_lookup_none, Hp.
Qed.

Lemma preserves_mkdir_from (todo : list string) :
  forall done : list string, preserves (mkdir_from done todo).
Proof.
  induction todo as [|c rest IH]; intros done; simpl.
  - apply preserves_ret.
  - apply preserves_bind; [apply preserves_mkdir|intros _; apply IH].
Qed.

(** A file is written only where the test made just before found nothing. *)
Lemma preserves_write_if_missing {A : Type} (p : list string) (text : string)
    (loads : result pyval) (rest : ST (gmap (list string) fnode) A) :
  preserves rest ->
  preserves (do there <- gets (fun fs => fs_exists fs p);
             (if negb there then write_text p text loads else ret tt) ;;;
             rest).
Proof.
  intros Hrest fs. unfold bindM at 1. unfold gets, fs_exists.
  destruct (fs_lookup fs p) as [nd|] eqn:Hp; simpl.
  - unfold bindM, ret. apply Hrest.
  - unfold bindM, write_text. rewrite Hp.
    destruct (fs_lookup fs (removelast p)) as [[d|]|]; simpl; try reflexivity.
    etrans; [|apply Hrest].
    apply insert_subseteq, fs_lookup_none, Hp.
Qed.

Lemma preserves_cmd_init (SKILL_DIR : list string) (args : pyval) :
  preserves (cmd_init SKILL_DIR args).
Proof.
  unfold cmd_init.
  apply preserves_bind; [apply preserves_lift|intros name].
  destruct (negb (truthy name)); [apply preserves_ret|].
  apply preserves_bind; [apply preserves_lift|intros path_arg].
  apply preserves_bind; [apply preserves_lift|intros project_path].
  apply preserves_bind; [apply preserves_lift|intros project_dir].
  apply preserves_bind; [apply preserves_mkdir_from|intros _].
  apply preserves_bind; [apply preserves_mkdir|intros _].
  apply preserves_bind; [apply preserves_mkdir|intros _].
  apply preserves_bind; [apply preserves_mkdir|intros _].
  apply preserves_write_if_missing.
  apply preserves_write_if_missing.
  apply preserves_ret.
Qed.

(** C10.  Whatever its arguments and whatever it returns or raises, [init]
    leaves every file and directory that exists as it is: in particular an
    existing prompts/app_spec.txt and an existing .autoforge/tasks.json keep
    their contents. *)
Theorem cmd_init_keeps_existing (SKILL_DIR : list string) (args : pyval)
    (fs : gmap (list string) fnode) (p : list string) (x : fnode) :
  fs !! p = Some x ->
  snd (cmd_init SKILL_DIR args fs) !! p = Some x.
Proof.
  intros Hp. eapply lookup_weaken; [exact Hp|apply preserves_cmd_init].
Qed.

Lemma cmd_init_keeps_existing_witness :
  fs_edited !! demo_spec = Some edited_spec
  /\ snd (cmd_init SKILL_DIR0 (PDict [("name", PStr "demo")]) fs_edited) !! demo_spec
     = Some edited_spec.
Proof.
  assert (fs_edited !! demo_spec = Some edited_spec) as H by (vm_compute; reflexivity).
  split; [exact H|].
  exact (cmd_init_keeps_existing SKILL_DIR0 (PDict [("name", PStr "demo")])
           fs_edited demo_spec edited_spec H).
Defined.

(** ** build *)






(** ** main *)

Lemma py_eq_str (v : pyval) (s : string) : py_eq v (PStr s) = true <-> v = PStr s.
Proof.
  destruct v; simpl; split; intros H; try discriminate.
  - apply String.eqb_eq in H. subst. reflexivity.
  - inversion H. apply String.eqb_refl.
Qed.

Lemma status_ok_iff (result : pyval) :
  status_ok result = true <-> dict_get result "status" PNone = Ok (PStr "ok").
Proof.
  unfold status_ok. destruct (dict_get result "status" PNone) as [v|e].
  - rewrite py_eq_str. split; intros H; [subst; reflexivity|inversion H; reflexivity].
  - split; discriminate.
Qed.




(** A [plan] request on an existing project: the result is written with
    status pending, and the exit code is 1. *)
Lemma main_plan_pending :
  let out :=
    main SKILL_DIR0
      (with_request "plan"
         (PDict [("project", PStr "demo"); ("requirements", PStr "a to-do list")])
         fs_fresh) in
  fst out = 1%Z /\ saved_status (snd out) = Some (PStr "pending").
Proof. split; vm_compute; reflexivity. Qed.

(** A [build] request with a task left to do. *)
Lemma main_build_pending :
  let out :=
    main SKILL_DIR0
      (with_request "build" (PDict [("project", PStr "demo")])
         (<[demo_tasks := json_node (PDict [ ("tasks", PList [task1]);
                                             ("completed", PList []) ])]> fs_fresh)) in
  fst out = 1%Z /\ saved_status (snd out) = Some (PStr "pending").
Proof. split; vm_compute; reflexivity. Qed.

(** A command outside the table. *)
Lemma main_unknown_command :
  let out := main SKILL_DIR0 (with_request "deploy" (PDict []) fs_fresh) in
  fst out = 1%Z /\ saved_status (snd out) = Some (PStr "error").
Proof. split; vm_compute; reflexivity. Qed.

(** No request file: the default command is [help], and the exit code 0. *)
Lemma main_default_help :
  let out := main SKILL_DIR0 fs_fresh in
  fst out = 0%Z /\ saved_status (snd out) = Some (PStr "ok").
Proof. split; vm_compute; reflexivity. Qed.

(** Any request whose command is not in the table ends with exit code 1. *)
Lemma unknown_command_exits_1 (SKILL_DIR : list string) (fs : gmap (list string) fnode)
    (request command : pyval) :
  load_request SKILL_DIR fs = Ok request ->
  dict_get request "command" (PStr "help") = Ok command ->
  command_known command = Ok None ->
  fst (main SKILL_DIR fs) = 1%Z.
Proof.
  intros Hload Hcommand Hknown.
  unfold main, main_body, bindM, lift. rewrite Hload, Hcommand.
  destruct (dict_get request "args" (PDict [])) as [args|e]; [|reflexivity].
  rewrite Hknown. unfold ret. cbn [dict_setdefault assoc_get String.eqb Ascii.eqb
                                     Bool.eqb app].
  destruct (save_result SKILL_DIR _ fs) as [[[]|e] fs']; reflexivity.
Qed.

End AutoforgeProofs.

(* ===================================================================== *)
(** * Further properties of src/skillify.py                               *)
(* ===================================================================== *)

Module SkillifyExtra.
Import Py Skillify PyFacts SkillifySpec SkillifyProofs.

(** ** Project type detection *)

Lemma scan_signatures_spec files proj_type signatures types :
  scan_signatures files proj_type signatures types
  = if type_matches files signatures then types ++ [proj_type] else types.
Proof.
  unfold type_matches.
  induction signatures as [|sig rest IH]; simpl; [reflexivity|].
  destruct (sig_matches files sig); simpl; [reflexivity|exact IH].
Qed.

Lemma fold_signatures_spec files (table : list (string * list string)) types :
  fold_left (fun types ps => scan_signatures files (fst ps) (snd ps) types) table types
  = types ++ map fst (List.filter (fun ps => type_matches files (snd ps)) table).
Proof.
  revert types. induction table as [|[pt sigs] rest IH]; intros types; simpl.
  - rewrite app_nil_r. reflexivity.
  - rewrite IH, scan_signatures_spec.
    destruct (type_matches files sigs); simpl; [|reflexivity].
    rewrite <- app_assoc. reflexivity.
Qed.

Lemma collect_types_matched files : collect_types files = matched_types files.
Proof. unfold collect_types, matched_types. apply fold_signatures_spec. Qed.

Lemma matched_types_in files pt sigs :
  In (pt, sigs) PROJECT_SIGNATURES -> type_matches files sigs = true ->
  In pt (matched_types files).
Proof.
  intros Hin Hm. unfold matched_types.
  apply in_map_iff. exists (pt, sigs). split; [reflexivity|].
  apply filter_In. split; [exact Hin|exact Hm].
Qed.

Lemma detect_in_iff set_iter r t :
  set_order set_iter ->
  matched_types (repo_file_names r) <> [] ->
  In t (detect_project_type set_iter r) <-> In t (matched_types (repo_file_names r)).
Proof.
  intros Hord Hne. unfold detect_project_type. rewrite collect_types_matched.
  set (types := matched_types (repo_file_names r)) in *.
  pose proof (Hord types) as Hperm.
  assert (forall x, In x (set_iter types) <-> In x types) as Hin.
  { intros x. rewrite <- (nodup_In string_dec types x). split; intros H.
    - eapply Permutation_in; [exact Hperm|exact H].
    - eapply Permutation_in; [apply Permutation_sym; exact Hperm|exact H]. }
  destruct (set_iter types) as [|a l] eqn:E.
  - destruct types as [|x rest]; [contradiction|].
    exfalso. apply (proj2 (Hin x)). left. reflexivity.
  - apply Hin.
Qed.

(** X1.  Whatever the iteration order of sets, no type is listed twice,
    and when some signature matches, the types listed are exactly the types
    of the table with a matching signature. *)
Theorem detect_project_type_exact set_iter :
  set_order set_iter ->
  forall r,
    List.NoDup (detect_project_type set_iter r)
    /\ (matched_types (repo_file_names r) <> [] ->
        forall t, In t (detect_project_type set_iter r)
                  <-> In t (matched_types (repo_file_names r))).
Proof.
  intros Hord r. split.
  - unfold detect_project_type.
    pose proof (Hord (collect_types (repo_file_names r))) as Hperm.
    destruct (set_iter (collect_types (repo_file_names r))) as [|a l].
    + constructor; [intros []|constructor].
    + eapply Permutation_NoDup; [apply Permutation_sym; exact Hperm|].
      apply NoDup_nodup.
  - intros Hne t. apply detect_in_iff; assumption.
Qed.

Lemma detect_project_type_exact_witness :
  List.NoDup (detect_project_type (nodup string_dec) repo_py_node)
  /\ (In "node" (detect_project_type (nodup string_dec) repo_py_node)
      <-> In "node" (matched_types (repo_file_names repo_py_node))).
Proof.
  destruct (detect_project_type_exact (nodup string_dec) set_order_nodup repo_py_node)
    as [Hnd Hiff].
  split; [exact Hnd|]. apply Hiff. vm_compute. discriminate.
Defined.

(** X2.  A file whose name ends in .yaml or .yml, anywhere in the
    repository, is enough for the type k8s to be detected: the content of
    the file is not looked at. *)
Theorem yaml_file_means_k8s set_iter r f :
  set_order set_iter ->
  In f (repo_file_names r) ->
  str_endswith f ".yaml" || str_endswith f ".yml" = true ->
  In "k8s" (detect_project_type set_iter r).
Proof.
  intros Hord Hf Hend.
  assert (In "k8s" (matched_types (repo_file_names r))) as Hin.
  { apply (matched_types_in _ "k8s" ["*.yaml"; "*.yml"]).
    - unfold PROJECT_SIGNATURES. simpl. tauto.
    - unfold type_matches. cbn [existsb]. apply orb_true_iff in Hend.
      destruct Hend as [Hy|Hy].
      + apply orb_true_iff. left.
        change (sig_matches (repo_file_names r) "*.yaml")
          with (existsb (fun f0 => str_endswith f0 ".yaml") (repo_file_names r)).
        apply existsb_exists. exists f. split; assumption.
      + apply orb_true_iff. right. apply orb_true_iff. left.
        change (sig_matches (repo_file_names r) "*.yml")
          with (existsb (fun f0 => str_endswith f0 ".yml") (repo_file_names r)).
        apply existsb_exists. exists f. split; assumption. }
  apply detect_in_iff; [exact Hord| |exact Hin].
  intros Hnil. rewrite Hnil in Hin. destruct Hin.
Qed.

Lemma yaml_file_means_k8s_witness :
  In "k8s" (detect_project_type (nodup string_dec) repo_compose).
Proof.
  apply (yaml_file_means_k8s (nodup string_dec) repo_compose "docker-compose.yml"
           set_order_nodup).
  - left. reflexivity.
  - reflexivity.
Defined.

(** ** Strings *)

Lemma str_take_length n s :
  String.length (str_take n s) = Nat.min n (String.length s).
Proof.
  unfold str_take. revert s. induction n as [|n IH]; intros s.
  - destruct s; reflexivity.
  - destruct s as [|a s]; simpl; [reflexivity|]. rewrite IH. reflexivity.
Qed.

Lemma str_app_cons (c : ascii) (a b : string) :
  String c a +:+ b = String c (a +:+ b).
Proof. reflexivity. Qed.

Lemma str_app_length (a b : string) :
  String.length (a +:+ b) = (String.length a + String.length b)%nat.
Proof.
  induction a as [|c a IH]; [reflexivity|].
  rewrite str_app_cons. simpl. rewrite IH. reflexivity.
Qed.

Lemma str_app_assoc (a b c : string) : (a +:+ b) +:+ c = a +:+ (b +:+ c).
Proof.
  induction a as [|x a IH]; [reflexivity|].
  rewrite !str_app_cons. rewrite IH. reflexivity.
Qed.

Lemma str_app_nil_r (a : string) : a +:+ "" = a.
Proof.
  induction a as [|x a IH]; [reflexivity|].
  rewrite str_app_cons, IH. reflexivity.
Qed.

Lemma prefix_take q : forall n s,
  (String.length q <= n)%nat ->
  String.prefix q (str_take n s) = String.prefix q s.
Proof.
  unfold str_take.
  induction q as [|c q IH]; intros n s Hlen.
  - destruct n, s; reflexivity.
  - simpl in Hlen. destruct n as [|n]; [lia|].
    destruct s as [|a s]; simpl; [reflexivity|].
    destruct (ascii_dec c a); [apply IH; lia|reflexivity].
Qed.

(** ** README *)



Lemma first_readme_skips r pre nm post n content :
  Forall (readme_skipped r) pre ->
  lookup_entry nm (root_entries r) = Some n ->
  read_text n = Ok content ->
  first_readme r (pre ++ nm :: post) = Ok (str_take (Z.to_nat 10000) content).
Proof.
  intros Hpre Hn Hread. induction Hpre as [|x pre Hx _ IH]; simpl.
  - rewrite Hn, Hread. reflexivity.
  - unfold readme_skipped in Hx.
    destruct (lookup_entry x (root_entries r)) as [m|]; [|exact IH].
    destruct Hx as (e & -> & ->). exact IH.
Qed.

(** X4.  The README used is the first of README.md, README.rst,
    README.txt, README that exists and can be read; the names before it are
    missing, or fail with an [IOError] when read. *)
Theorem readme_first_readable r pre nm post n content :
  readme_names = pre ++ nm :: post ->
  Forall (readme_skipped r) pre ->
  lookup_entry nm (root_entries r) = Some n ->
  read_text n = Ok content ->
  get_readme_content r = Ok (str_take (Z.to_nat 10000) content).
Proof.
  intros Hnames Hpre Hn Hread. unfold get_readme_content.
  fold readme_names. rewrite Hnames.
  exact (first_readme_skips r pre nm post n content Hpre Hn Hread).
Qed.

Lemma readme_first_readable_witness :
  get_readme_content repo_two_readmes = Ok "Title
=====
".
Proof.
  refine (readme_first_readable repo_two_readmes ["README.md"] "README.rst"
            ["README.txt"; "README"]
            (plain_file "README.rst" "Title
=====
") "Title
=====
" eq_refl _ eq_refl eq_refl).
  constructor; [|constructor].
  exists IsADirectoryError. split; reflexivity.
Defined.

(** ** Harvested documents *)

Lemma harvest_spec r docs :
  forall key_files,
    match harvest r docs key_files with
    | Ok kf => kf = key_files ++ flat_map (harvested r) docs
    | Raise e => is_IOError e = false
    end.
Proof.
  induction docs as [|doc rest IH]; intros acc; simpl.
  - rewrite app_nil_r. reflexivity.
  - unfold harvested at 1.
    destruct (lookup_path (str_split "/" doc) (root_entries r)) as [n|];
      [|exact (IH acc)].
    destruct (read_text n) as [content|e].
    + destruct (Z.of_nat (String.length content) <? 50000)%Z.
      * specialize (IH (acc ++ [(doc, content)])).
        destruct (harvest r rest (acc ++ [(doc, content)])); [|exact IH].
        rewrite IH, <- app_assoc. reflexivity.
      * exact (IH acc).
    + destruct (is_IOError e) eqn:He; [exact (IH acc)|exact He].
Qed.






(** ** The order in which a directory is listed *)

Lemma string_ltb_asym a b : String.ltb a b = true -> String.ltb b a = false.
Proof.
  unfold String.ltb. rewrite (String.compare_antisym b a).
  destruct (String.compare a b); simpl; intros H; try discriminate. reflexivity.
Qed.

Lemma key_lt_asym a b : key_lt a b = true -> key_lt b a = false.
Proof.
  unfold key_lt. destruct (is_dir a), (is_dir b); simpl;
    try discriminate; try reflexivity; apply string_ltb_asym.
Qed.

Lemma insert_sorted_perm x l : Permutation (insert_sorted x l) (x :: l).
Proof.
  induction l as [|y l IH]; simpl; [apply Permutation_refl|].
  destruct (key_lt y x); [|apply Permutation_refl].
  eapply Permutation_trans; [apply perm_skip; exact IH|apply perm_swap].
Qed.

Lemma insert_sorted_ordered x l :
  key_ordered l = true -> key_ordered (insert_sorted x l) = true.
Proof.
  induction l as [|y l IH]; intros Hl; [reflexivity|].
  simpl insert_sorted. destruct (key_lt y x) eqn:Hyx.
  - destruct l as [|z l'].
    + simpl. rewrite (key_lt_asym _ _ Hyx). reflexivity.
    + simpl in Hl. apply andb_true_iff in Hl as [Hzy Hrest].
      specialize (IH Hrest). simpl insert_sorted in *.
      destruct (key_lt z x) eqn:Hzx.
      * simpl. rewrite Hzy. simpl. exact IH.
      * simpl. rewrite (key_lt_asym _ _ Hyx), Hzx. simpl. exact Hrest.
  - simpl. rewrite Hyx. simpl. exact Hl.
Qed.

Lemma insert_sorted_files x fs :
  is_dir x = false ->
  forallb (fun e => negb (is_dir e)) fs = true ->
  forallb (fun e => negb (is_dir e)) (insert_sorted x fs) = true.
Proof.
  intros Hx. induction fs as [|f fs IH]; simpl; intros Hfs.
  - rewrite Hx. reflexivity.
  - apply andb_true_iff in Hfs as [Hf Hrest].
    destruct (key_lt f x); simpl.
    + rewrite Hf, (IH Hrest). reflexivity.
    + rewrite Hx, Hf, Hrest. reflexivity.
Qed.

Lemma insert_sorted_dirs_first x ds fs :
  forallb is_dir ds = true ->
  forallb (fun e => negb (is_dir e)) fs = true ->
  dirs_first (insert_sorted x (ds ++ fs)).
Proof.
  intros Hds Hfs. induction ds as [|y ds IH]; simpl.
  - destruct (is_dir x) eqn:Hx.
    + exists [x], fs. split; [|simpl; rewrite Hx; auto].
      destruct fs as [|f fs']; [reflexivity|]. simpl.
      simpl in Hfs. apply andb_true_iff in Hfs as [Hf _].
      unfold key_lt. rewrite Hx. destruct (is_dir f); [discriminate|reflexivity].
    + exists [], (insert_sorted x fs). split; [reflexivity|].
      split; [reflexivity|]. apply insert_sorted_files; assumption.
  - simpl in Hds. apply andb_true_iff in Hds as [Hy Hrest].
    destruct (key_lt y x) eqn:Hyx.
    + destruct (IH Hrest) as (ds' & fs' & -> & Hds' & Hfs').
      exists (y :: ds'), fs'. split; [reflexivity|]. simpl. rewrite Hy. auto.
    + exists (x :: y :: ds), fs. split; [reflexivity|]. simpl.
      rewrite Hy, Hrest. split; [|exact Hfs].
      unfold key_lt in Hyx. rewrite Hy in Hyx. simpl in Hyx.
      destruct (is_dir x); [reflexivity|discriminate].
Qed.

(** X6.  A directory is listed with its entries rearranged, none lost and
    none added, so that no entry is smaller by the sort key than the one
    before it; in particular the directories come first. *)
Theorem sorted_entries_spec l :
  Permutation (sorted_entries l) l
  /\ key_ordered (sorted_entries l) = true
  /\ dirs_first (sorted_entries l).
Proof.
  unfold sorted_entries. induction l as [|x l (Hperm & Hord & Hdirs)]; simpl.
  - split; [apply Permutation_refl|]. split; [reflexivity|].
    exists [], []. auto.
  - split; [|split].
    + eapply Permutation_trans; [apply insert_sorted_perm|].
      apply perm_skip. exact Hperm.
    + apply insert_sorted_ordered. exact Hord.
    + destruct Hdirs as (ds & fs & -> & Hds & Hfs).
      apply insert_sorted_dirs_first; assumption.
Qed.

(** ** The textual fallback *)

Lemma prefix_split p : forall s,
  String.prefix p s = true -> s = p +:+ str_drop (String.length p) s.
Proof.
  induction p as [|c p IH]; intros s H; [reflexivity|].
  destruct s as [|a s]; simpl in H; [discriminate|].
  destruct (ascii_dec c a) as [->|]; [|discriminate].
  rewrite str_app_cons. simpl. f_equal. apply IH. exact H.
Qed.

Lemma prefix_app p r : String.prefix p (p +:+ r) = true.
Proof.
  induction p as [|c p IH]; [destruct r; reflexivity|].
  rewrite str_app_cons. simpl. destruct (ascii_dec c c); [exact IH|contradiction].
Qed.

Lemma str_drop_app p r : str_drop (String.length p) (p +:+ r) = r.
Proof.
  induction p as [|c p IH]; [destruct r; reflexivity|].
  rewrite str_app_cons. simpl. exact IH.
Qed.

Lemma lstrip_split s :
  exists ws, s = ws +:+ str_lstrip s /\ str_forallb is_space ws = true.
Proof.
  induction s as [|a s (ws & Hs & Hws)]; simpl.
  - exists "". split; reflexivity.
  - destruct (is_space a) eqn:Ha.
    + exists (String a ws). rewrite str_app_cons. split; [f_equal; exact Hs|].
      simpl. rewrite Ha. exact Hws.
    + exists "". split; reflexivity.
Qed.

Lemma lstrip_app ws c rest :
  str_forallb is_space ws = true -> is_space c = false ->
  str_lstrip (ws +:+ String c rest) = String c rest.
Proof.
  intros Hws Hc. induction ws as [|a ws IH].
  - simpl. rewrite Hc. reflexivity.
  - simpl in Hws. apply andb_true_iff in Hws as [Ha Hrest].
    rewrite str_app_cons. simpl. rewrite Ha. apply IH. exact Hrest.
Qed.

Lemma span_nonquote_split s g rest :
  span_nonquote s = (g, rest) ->
  s = g +:+ rest
  /\ str_forallb not_dquote g = true
  /\ (rest = "" \/ exists r, rest = String dquote r).
Proof.
  revert g rest. induction s as [|a s IH]; intros g rest; simpl.
  - intros H. inversion H. auto.
  - destruct (Ascii.eqb a dquote) eqn:Ha.
    + intros H. inversion H; subst. apply Ascii.eqb_eq in Ha. subst a.
      split; [reflexivity|]. split; [reflexivity|]. right. eauto.
    + destruct (span_nonquote s) as [g' rest'].
      intros H. inversion H; subst.
      destruct (IH g' rest eq_refl) as (Hs & Hg & Hrest).
      split; [rewrite str_app_cons; f_equal; exact Hs|].
      split; [simpl; unfold not_dquote at 1; rewrite Ha; exact Hg|exact Hrest].
Qed.

Lemma span_nonquote_app v rest :
  str_forallb not_dquote v = true ->
  span_nonquote (v +:+ String dquote rest) = (v, String dquote rest).
Proof.
  intros Hv. induction v as [|a v IH].
  - reflexivity.
  - simpl in Hv. apply andb_true_iff in Hv as [Ha Hrest].
    rewrite str_app_cons. simpl. unfold not_dquote in Ha.
    apply negb_true_iff in Ha. rewrite Ha, (IH Hrest). reflexivity.
Qed.

(** The shape of a text in which the pattern for [key] matches here with
    group [g]. *)
Lemma match_kv_here_sound key s g :
  match_kv_here key s = Some g ->
  g <> ""
  /\ str_forallb not_dquote g = true
  /\ exists ws1 ws2 post,
       s = key +:+ ws1 +:+ "=" +:+ ws2 +:+ quote +:+ g +:+ quote +:+ post
       /\ str_forallb is_space ws1 = true
       /\ str_forallb is_space ws2 = true.
Proof.
  unfold match_kv_here. destruct (String.prefix key s) eqn:Hp; [|discriminate].
  apply prefix_split in Hp.
  destruct (lstrip_split (str_drop (String.length key) s)) as (ws1 & H1 & Hws1).
  destruct (str_lstrip (str_drop (String.length key) s)) as [|c1 s2]; [discriminate|].
  destruct (Ascii.eqb c1 "=") eqn:Hc1; [|discriminate].
  apply Ascii.eqb_eq in Hc1. subst c1.
  destruct (lstrip_split s2) as (ws2 & H2 & Hws2).
  destruct (str_lstrip s2) as [|c2 s3]; [discriminate|].
  destruct (Ascii.eqb c2 dquote) eqn:Hc2; [|discriminate].
  apply Ascii.eqb_eq in Hc2. subst c2.
  destruct (span_nonquote s3) as [g' rest] eqn:Hspan.
  apply span_nonquote_split in Hspan as (H3 & Hg & Hrest).
  destruct g' as [|g0 g1]; [discriminate|].
  destruct rest as [|q rest']; [discriminate|].
  destruct Hrest as [Hrest|[r Hrest]]; [discriminate|]. inversion Hrest; subst q r.
  intros H. inversion H; subst g.
  split; [discriminate|]. split; [exact Hg|].
  exists ws1, ws2, rest'. split; [|auto].
  rewrite Hp at 1. rewrite H1, H2, H3. reflexivity.
Qed.

(** X7.  What the textual fallback extracts for a key is a non-empty
    text without double quote that stands in the file between double
    quotes, after the key, an equals sign and optional white space. *)
Theorem re_search_kv_sound key content g :
  re_search_kv key content = Some g ->
  g <> ""
  /\ str_forallb not_dquote g = true
  /\ exists pre ws1 ws2 post,
       content = pre +:+ key +:+ ws1 +:+ "=" +:+ ws2 +:+ quote +:+ g +:+ quote +:+ post
       /\ str_forallb is_space ws1 = true
       /\ str_forallb is_space ws2 = true.
Proof.
  induction content as [|a content IH]; simpl.
  - destruct (match_kv_here key "") as [g'|] eqn:Hm; [|discriminate].
    intros H. inversion H; subst g'.
    destruct (match_kv_here_sound _ _ _ Hm) as (Hne & Hq & ws1 & ws2 & post & Hs & H1 & H2).
    split; [exact Hne|]. split; [exact Hq|]. exists "", ws1, ws2, post. auto.
  - destruct (match_kv_here key (String a content)) as [g'|] eqn:Hm.
    + intros H. inversion H; subst g'.
      destruct (match_kv_here_sound _ _ _ Hm)
        as (Hne & Hq & ws1 & ws2 & post & Hs & H1 & H2).
      split; [exact Hne|]. split; [exact Hq|]. exists "", ws1, ws2, post. auto.
    + intros H. destruct (IH H) as (Hne & Hq & pre & ws1 & ws2 & post & Hs & H1 & H2).
      split; [exact Hne|]. split; [exact Hq|].
      exists (String a pre), ws1, ws2, post. rewrite str_app_cons, <- Hs. auto.
Qed.

Lemma re_search_kv_sound_witness :
  exists pre ws1 ws2 post,
    cargo_text
    = pre +:+ "description" +:+ ws1 +:+ "=" +:+ ws2 +:+ quote +:+ "a rust crate"
          +:+ quote +:+ post.
Proof.
  destruct (re_search_kv_sound "description" cargo_text "a rust crate" eq_refl)
    as (_ & _ & pre & ws1 & ws2 & post & H & _).
  exists pre, ws1, ws2, post. exact H.
Defined.

Lemma match_kv_here_complete key ws1 ws2 v post :
  str_forallb is_space ws1 = true ->
  str_forallb is_space ws2 = true ->
  v <> "" ->
  str_forallb not_dquote v = true ->
  match_kv_here key
    (key +:+ ws1 +:+ "=" +:+ ws2 +:+ quote +:+ v +:+ quote +:+ post) = Some v.
Proof.
  intros H1 H2 Hne Hq. unfold match_kv_here.
  rewrite prefix_app, str_drop_app.
  change ("=" +:+ ws2 +:+ quote +:+ v +:+ quote +:+ post)
    with (String "="%char (ws2 +:+ quote +:+ v +:+ quote +:+ post)).
  rewrite (lstrip_app ws1 "="%char (ws2 +:+ quote +:+ v +:+ quote +:+ post) H1 eq_refl).
  rewrite Ascii.eqb_refl.
  change (quote +:+ v +:+ quote +:+ post)
    with (String dquote (v +:+ String dquote post)).
  rewrite (lstrip_app ws2 dquote (v +:+ String dquote post) H2 eq_refl).
  rewrite Ascii.eqb_refl.
  rewrite (span_nonquote_app v post Hq).
  destruct v as [|v0 v1]; [contradiction|reflexivity].
Qed.

Lemma re_search_kv_some key pre s g :
  match_kv_here key s = Some g ->
  exists g', re_search_kv key (pre +:+ s) = Some g'.
Proof.
  intros Hm. induction pre as [|a pre IH].
  - exists g. change ("" +:+ s) with s. destruct s; simpl; rewrite Hm; reflexivity.
  - rewrite str_app_cons. simpl.
    destruct (match_kv_here key (String a (pre +:+ s))) as [g0|]; eauto.
Qed.

(** X8.  A text that begins with the key, an equals sign and a non-empty
    quoted value gives that value; and the key is looked for anywhere: put
    after any other text, also at the end of a longer word, it still gives a
    match. *)
Theorem re_search_kv_finds key ws1 ws2 v post :
  str_forallb is_space ws1 = true ->
  str_forallb is_space ws2 = true ->
  v <> "" ->
  str_forallb not_dquote v = true ->
  re_search_kv key (key +:+ ws1 +:+ "=" +:+ ws2 +:+ quote +:+ v +:+ quote +:+ post)
  = Some v
  /\ forall pre, exists g,
       re_search_kv key
         (pre +:+ key +:+ ws1 +:+ "=" +:+ ws2 +:+ quote +:+ v +:+ quote +:+ post)
       = Some g.
Proof.
  intros H1 H2 Hne Hq.
  pose proof (match_kv_here_complete key ws1 ws2 v post H1 H2 Hne Hq) as Hm.
  split.
  - destruct (key +:+ ws1 +:+ "=" +:+ ws2 +:+ quote +:+ v +:+ quote +:+ post);
      simpl; rewrite Hm; reflexivity.
  - intros pre. exact (re_search_kv_some key pre _ v Hm).
Qed.

Lemma re_search_kv_finds_witness :
  re_search_kv "name" ("name = " +:+ quote +:+ "foo" +:+ quote +:+ newline) = Some "foo"
  /\ exists g,
       re_search_kv "name" ("file" +:+ "name = " +:+ quote +:+ "foo" +:+ quote +:+ newline)
       = Some g.
Proof.
  destruct (re_search_kv_finds "name" " " " " "foo" newline
              eq_refl eq_refl ltac:(discriminate) eq_refl) as [Hhead Hany].
  split; [exact Hhead|]. exact (Hany "file").
Defined.

(** ** Targets of the manifest *)

Lemma span_ident_split s : forall g rest,
  span_ident s = (g, rest) ->
  s = g +:+ rest /\ str_forallb is_ident_char g = true.
Proof.
  induction s as [|a s IH]; intros g rest; simpl.
  - intros H. inversion H. auto.
  - destruct (is_ident_char a) eqn:Ha.
    + destruct (span_ident s) as [g' rest'].
      intros H. inversion H; subst.
      destruct (IH g' rest eq_refl) as [Hs Hg].
      split; [rewrite str_app_cons; f_equal; exact Hs|].
      simpl. rewrite Ha. exact Hg.
    + intros H. inversion H; subst. auto.
Qed.

Lemma span_ident_app g c rest :
  str_forallb is_ident_char g = true -> is_ident_char c = false ->
  span_ident (g +:+ String c rest) = (g, String c rest).
Proof.
  intros Hg Hc. induction g as [|a g IH].
  - simpl. rewrite Hc. reflexivity.
  - simpl in Hg. apply andb_true_iff in Hg as [Ha Hrest].
    rewrite str_app_cons. simpl. rewrite Ha, (IH Hrest). reflexivity.
Qed.

Lemma match_target_iff line t :
  match_target line = Some t
  <-> is_identifier t = true /\ exists rest, line = t +:+ ":" +:+ rest.
Proof.
  split.
  - destruct line as [|a s]; simpl; [discriminate|].
    destruct (is_ident_start a) eqn:Ha; [|discriminate].
    destruct (span_ident s) as [g rest] eqn:Hspan.
    apply span_ident_split in Hspan as [Hs Hg].
    destruct rest as [|c rest]; [discriminate|].
    destruct (Ascii.eqb c ":") eqn:Hc; [|discriminate].
    apply Ascii.eqb_eq in Hc. subst c.
    intros H. inversion H; subst t. split.
    + simpl. rewrite Ha. exact Hg.
    + exists rest. rewrite str_app_cons. f_equal. exact Hs.
  - intros [Hid [rest ->]].
    destruct t as [|a g]; [discriminate|]. simpl in Hid.
    apply andb_true_iff in Hid as [Ha Hg].
    rewrite str_app_cons. simpl. rewrite Ha.
    change (":" +:+ rest) with (String ":"%char rest).
    rewrite (span_ident_app g ":"%char rest Hg eq_refl). reflexivity.
Qed.

(** X9.  The targets found in a manifest are exactly the identifiers (a
    letter or an underscore, then letters, digits, underscores and hyphens)
    that stand at the head of one of its lines and are followed at once by a
    colon, whatever follows the colon; each line gives at most one. *)
Theorem findall_targets_spec content :
  (List.length (findall_targets content)
   <= List.length (str_split newline content))%nat
  /\ forall t,
       In t (findall_targets content)
       <-> is_identifier t = true
           /\ exists rest, In (t +:+ ":" +:+ rest) (str_split newline content).
Proof.
  unfold findall_targets. split.
  { induction (str_split newline content) as [|line lines IH]; simpl; [lia|].
    rewrite List.length_app. destruct (match_target line); simpl; lia. }
  intros t. rewrite in_flat_map. split.
  - intros (line & Hline & Hin).
    destruct (match_target line) as [t'|] eqn:Hm; [|destruct Hin].
    destruct Hin as [->|[]].
    apply match_target_iff in Hm as [Hid [rest ->]].
    split; [exact Hid|]. exists rest. exact Hline.
  - intros [Hid [rest Hin]].
    exists (t +:+ ":" +:+ rest). split; [exact Hin|].
    assert (match_target (t +:+ ":" +:+ rest) = Some t) as ->
        by (apply match_target_iff; eauto).
    left. reflexivity.
Qed.

(** X10.  The order of the entry points: the commands for the common
    targets, the one found last in the manifest first; then the executables
    found, in the order of the program's list; then the commands for the
    other targets, in the order of the manifest; then one command for each
    script of package.json, in the order of the file; the whole cut to its
    first 15 elements.  Only the first ten targets of the manifest count. *)
Theorem entry_points_order r eps :
  detect_entry_points r = Ok eps ->
  eps = firstn 15
          (map make_cmd (rev (List.filter is_common (makefile_targets r)))
           ++ found_executables r
           ++ map make_cmd (List.filter (fun t => negb (is_common t)) (makefile_targets r))
           ++ map (fun script => "npm run " +:+ script) (package_scripts r)).
Proof.
  unfold detect_entry_points, makefile_targets, package_scripts.
  fold (found_executables r).
  destruct (lookup_entry "Makefile" (root_entries r)) as [makefile|].
  - destruct (read_text makefile) as [content|e].
    + rewrite add_targets_split. cbn [bind].
      destruct (lookup_entry "package.json" (root_entries r)) as [pkg_json|].
      * destruct (json_load pkg_json) as [pkg|e].
        -- destruct (dict_get pkg "scripts" (PDict [])) as [scripts|]; [|discriminate].
           cbn [bind]. destruct (dict_keys scripts) as [ks|]; [|discriminate].
           cbn [bind]. intros H. inversion H. rewrite <- !app_assoc. reflexivity.
        -- destruct (is_JSONDecodeError e || is_IOError e); [|discriminate].
           cbn [bind]. intros H. inversion H. cbn [map]. rewrite !app_nil_r. reflexivity.
      * cbn [bind]. intros H. inversion H. cbn [map]. rewrite !app_nil_r. reflexivity.
    + destruct (is_IOError e); [|discriminate]. cbn [bind List.filter rev map app].
      destruct (lookup_entry "package.json" (root_entries r)) as [pkg_json|].
      * destruct (json_load pkg_json) as [pkg|e'].
        -- destruct (dict_get pkg "scripts" (PDict [])) as [scripts|]; [|discriminate].
           cbn [bind]. destruct (dict_keys scripts) as [ks|]; [|discriminate].
           cbn [bind]. intros H. inversion H. reflexivity.
        -- destruct (is_JSONDecodeError e' || is_IOError e'); [|discriminate].
           cbn [bind]. intros H. inversion H. cbn [map]. rewrite !app_nil_r. reflexivity.
      * cbn [bind]. intros H. inversion H. cbn [map]. rewrite !app_nil_r. reflexivity.
  - cbn [bind List.filter rev map app].
    destruct (lookup_entry "package.json" (root_entries r)) as [pkg_json|].
    + destruct (json_load pkg_json) as [pkg|e'].
      * destruct (dict_get pkg "scripts" (PDict [])) as [scripts|]; [|discriminate].
        cbn [bind]. destruct (dict_keys scripts) as [ks|]; [|discriminate].
        cbn [bind]. intros H. inversion H. reflexivity.
      * destruct (is_JSONDecodeError e' || is_IOError e'); [|discriminate].
        cbn [bind]. intros H. inversion H. cbn [map]. rewrite !app_nil_r. reflexivity.
    + cbn [bind]. intros H. inversion H. cbn [map]. rewrite !app_nil_r. reflexivity.
Qed.

Lemma entry_points_order_witness :
  detect_entry_points repo_make
  = Ok ["make all"; "make build"; "make all"; "main.py"; "make docs"]
  /\ ["make all"; "make build"; "make all"; "main.py"; "make docs"]
     = firstn 15
         (map make_cmd (rev (List.filter is_common (makefile_targets repo_make)))
          ++ found_executables repo_make
          ++ map make_cmd
               (List.filter (fun t => negb (is_common t)) (makefile_targets repo_make))
          ++ map (fun script => "npm run " +:+ script) (package_scripts repo_make)).
Proof.
  split; [reflexivity|].
  exact (entry_points_order repo_make
           ["make all"; "make build"; "make all"; "main.py"; "make docs"] eq_refl).
Defined.

(** ** The name of the skill *)

Lemma lower_ascii_ok a :
  name_char_ok (lower_ascii (if Ascii.eqb a "_" then "-"%char else a)) = true.
Proof.
  destruct a as [[] [] [] [] [] [] [] []]; reflexivity.
Qed.

Lemma replace_underscore_cons a s :
  str_replace1 "_"%char "-" (String a s)
  = String (if Ascii.eqb a "_" then "-"%char else a) (str_replace1 "_"%char "-" s).
Proof. simpl. destruct (Ascii.eqb a "_"); reflexivity. Qed.

Lemma name_char_ok_fixed a :
  name_char_ok a = true ->
  lower_ascii (if Ascii.eqb a "_" then "-"%char else a) = a.
Proof.
  destruct a as [[] [] [] [] [] [] [] []]; intros H; try reflexivity; discriminate H.
Qed.

Lemma normalise_ok s :
  str_forallb name_char_ok (str_lower (str_replace1 "_"%char "-" s)) = true.
Proof.
  induction s as [|a s IH]; [reflexivity|].
  rewrite replace_underscore_cons. unfold str_lower in *. cbn [str_map str_forallb].
  rewrite lower_ascii_ok, IH. reflexivity.
Qed.

Lemma normalise_fixed s :
  str_forallb name_char_ok s = true ->
  str_lower (str_replace1 "_"%char "-" s) = s.
Proof.
  induction s as [|a s IH]; [reflexivity|].
  cbn [str_forallb]. intros H. apply andb_true_iff in H as [Ha Hs].
  rewrite replace_underscore_cons. unfold str_lower in *. cbn [str_map].
  rewrite (name_char_ok_fixed a Ha), (IH Hs). reflexivity.
Qed.

(** X11.  The name under which a skill is filed holds neither an
    upper-case letter nor an underscore, and is left as it is by a second
    normalisation: the skill of a project that bears this name is filed
    under the same name. *)
Theorem skill_name_normalised md n :
  skill_name_of md = Ok n ->
  str_forallb name_char_ok n = true
  /\ skill_name_of {| md_name := PStr n; md_description := md_description md;
                      md_version := md_version md; md_scripts := md_scripts md;
                      md_dependencies := md_dependencies md |} = Ok n.
Proof.
  unfold skill_name_of. destruct (md_name md) as [| | |s| |] eqn:Hname; try discriminate.
  intros H. inversion H; subst n. clear H.
  pose proof (normalise_ok s) as Hok.
  split; [exact Hok|].
  cbn [md_name]. rewrite (normalise_fixed _ Hok). reflexivity.
Qed.

Lemma skill_name_normalised_witness :
  str_forallb name_char_ok "my-tool" = true
  /\ skill_name_of {| md_name := PStr "my-tool"; md_description := PStr "";
                      md_version := PStr ""; md_scripts := PDict [];
                      md_dependencies := PList [] |} = Ok "my-tool".
Proof.
  exact (skill_name_normalised
           {| md_name := PStr "My_Tool"; md_description := PStr "";
              md_version := PStr ""; md_scripts := PDict [];
              md_dependencies := PList [] |} "my-tool" eq_refl).
Defined.

(** ** The purpose paragraph *)

(** X12.  The purpose paragraph picked from the blocks of a README is
    either empty or a text of 51 to 500 characters that begins neither with
    a hash nor with a code fence, and that is the beginning of one of the
    blocks, stripped. *)
Theorem first_paragraph_spec paragraphs :
  first_paragraph paragraphs = ""
  \/ ((50 < Z.of_nat (String.length (first_paragraph paragraphs)) <= 500)%Z
      /\ is_heading_or_fence (first_paragraph paragraphs) = false
      /\ exists p, In p paragraphs
                   /\ first_paragraph paragraphs = str_take 500 (str_strip p)).
Proof.
  induction paragraphs as [|p rest IH]; [left; reflexivity|].
  cbn [first_paragraph].
  destruct (50 <? String.length (str_strip p))%nat eqn:Hlen; cbn [andb].
  - destruct (str_startswith (str_strip p) "#") eqn:Hh; cbn [negb andb].
    + destruct IH as [IH|(Hb & Hf & q & Hq & Heq)]; [left; exact IH|].
      right. split; [exact Hb|]. split; [exact Hf|]. exists q. split; [right; exact Hq|exact Heq].
    + destruct (str_startswith (str_strip p) "```") eqn:Hc; cbn [negb].
      * destruct IH as [IH|(Hb & Hf & q & Hq & Heq)]; [left; exact IH|].
        right. split; [exact Hb|]. split; [exact Hf|].
        exists q. split; [right; exact Hq|exact Heq].
      * right. apply Nat.ltb_lt in Hlen. split; [|split].
        -- rewrite str_take_length. lia.
        -- unfold is_heading_or_fence, str_startswith in *.
           rewrite !prefix_take by (simpl; lia). rewrite Hh, Hc. reflexivity.
        -- exists p. split; [left; reflexivity|reflexivity].
  - destruct IH as [IH|(Hb & Hf & q & Hq & Heq)]; [left; exact IH|].
    right. split; [exact Hb|]. split; [exact Hf|]. exists q. split; [right; exact Hq|exact Heq].
Qed.

(** ** The generator *)

Lemma keeps_temp_ret {A : Type} (a : A) : keeps_temp (ret a).
Proof. intros w. reflexivity. Qed.

Lemma keeps_temp_lift {A : Type} (r : result A) : keeps_temp (lift r).
Proof. intros w. reflexivity. Qed.

Lemma keeps_temp_bind {A B : Type} (c : W A) (k : A -> W B) :
  keeps_temp c -> (forall a, keeps_temp (k a)) -> keeps_temp (bindM c k).
Proof.
  intros Hc Hk w. unfold bindM. specialize (Hc w).
  destruct (c w) as [[a|x] w1]; simpl in *.
  - rewrite Hk. exact Hc.
  - exact Hc.
Qed.

Lemma keeps_temp_output e op : keeps_temp (output e op).
Proof.
  intros w. unfold output. destruct (env_output_error e _); reflexivity.
Qed.

Lemma keeps_temp_write_references e refs_path key_files :
  keeps_temp (write_references e refs_path key_files).
Proof.
  induction key_files as [|[doc_file content] rest IH]; simpl.
  - apply keeps_temp_ret.
  - apply keeps_temp_bind; [apply keeps_temp_output|intros _; exact IH].
Qed.

Create HintDb keeps.

#[local] Hint Resolve keeps_temp_ret keeps_temp_lift keeps_temp_output
  keeps_temp_write_references : keeps.

Lemma keeps_temp_generate_body e r output_dir :
  keeps_temp (generate_body e r output_dir).
Proof.
  unfold generate_body.
  repeat (apply keeps_temp_bind; [auto with keeps|intros ?]).
  apply keeps_temp_ret.
Qed.

Lemma output_inv e op w w' :
  output e op w = (Ok tt, w') ->
  w' = {| temp_dirs := temp_dirs w; out_log := out_log w ++ [op] |}.
Proof.
  unfold output. destruct (env_output_error e _); [discriminate|].
  intros H. inversion H. reflexivity.
Qed.

Lemma write_references_inv e refs_path key_files :
  forall w w',
    write_references e refs_path key_files w = (Ok tt, w') ->
    w' = {| temp_dirs := temp_dirs w;
            out_log := out_log w ++ reference_writes refs_path key_files |}.
Proof.
  induction key_files as [|[doc_file content] rest IH]; intros w w' H; simpl in H.
  - unfold ret in H. inversion H. subst w'. cbn [reference_writes map].
    rewrite app_nil_r. destruct w; reflexivity.
  - apply bindM_ok_inv in H as ([] & w1 & Hout & H).
    apply output_inv in Hout. apply IH in H. subst w1 w'.
    cbn [temp_dirs out_log reference_writes map fst snd].
    rewrite <- app_assoc. reflexivity.
Qed.

(** What the body of the [try] statement has done when it returns. *)
Lemma generate_body_inv e r output_dir w p w' :
  generate_body e r output_dir w = (Ok p, w') ->
  exists md skill_name skill_md key_files,
    get_project_metadata (env_tomllib e) r = Ok md
    /\ skill_name_of md = Ok skill_name
    /\ p = skill_path_of e output_dir skill_name
    /\ render_skill e r = Ok skill_md
    /\ extract_key_files r = Ok key_files
    /\ w' = {| temp_dirs := temp_dirs w;
               out_log := out_log w ++ skill_writes p skill_md key_files |}.
Proof.
  unfold generate_body, render_skill. intros H.
  apply bindM_ok_inv in H as (md & w1 & Hmd & H). apply lift_ok_inv in Hmd as [Hmd ->].
  apply bindM_ok_inv in H as (readme & w1 & Hr & H). apply lift_ok_inv in Hr as [Hr ->].
  apply bindM_ok_inv in H as (eps & w1 & He & H). apply lift_ok_inv in He as [He ->].
  apply bindM_ok_inv in H as (kf & w1 & Hk & H). apply lift_ok_inv in Hk as [Hk ->].
  apply bindM_ok_inv in H as (sn & w1 & Hs & H). apply lift_ok_inv in Hs as [Hs ->].
  fold (skill_path_of e output_dir sn) in H.
  apply bindM_ok_inv in H as ([] & w1 & Hmk & H). apply output_inv in Hmk.
  apply bindM_ok_inv in H as (skill_md & w2 & Hg & H). apply lift_ok_inv in Hg as [Hg ->].
  apply bindM_ok_inv in H as ([] & w2 & Hw & H). apply output_inv in Hw.
  apply bindM_ok_inv in H as ([] & w3 & Hm2 & H). apply output_inv in Hm2.
  apply bindM_ok_inv in H as ([] & w4 & Hrefs & H).
  apply write_references_inv in Hrefs.
  apply bindM_ok_inv in H as ([] & w5 & Hm3 & H). apply output_inv in Hm3.
  apply bindM_ok_inv in H as ([] & w6 & Ht & H). apply output_inv in Ht.
  unfold ret in H. inversion H; subst p w'. clear H.
  exists md, sn, skill_md, kf.
  split; [exact Hmd|]. split; [exact Hs|]. split; [reflexivity|]. split.
  - rewrite Hmd. cbn [bind]. rewrite Hr. cbn [bind]. rewrite He. cbn [bind].
    rewrite Hk. cbn [bind]. rewrite Hs. cbn [bind]. exact Hg.
  - split; [exact Hk|].
    subst w6 w5 w4 w3 w2 w1. cbn [temp_dirs out_log]. unfold skill_writes.
    f_equal. rewrite <- !app_assoc. reflexivity.
Qed.

Lemma cleanup_log e temp_dir keep_clone w :
  out_log (snd (cleanup e temp_dir keep_clone w)) = out_log w.
Proof.
  unfold cleanup. destruct temp_dir as [d|]; [|reflexivity].
  destruct (negb (String.eqb d "") && negb keep_clone); [|reflexivity].
  unfold rmtree_ignore_errors. destruct (env_rmtree_ok e); reflexivity.
Qed.

Lemma try_finally_cleanup {A : Type} (body : W A) e temp_dir keep_clone w :
  try_finally body (cleanup e temp_dir keep_clone) w
  = (fst (body w), snd (cleanup e temp_dir keep_clone (snd (body w)))).
Proof.
  unfold try_finally. destruct (body w) as [res w1]. cbn [fst snd].
  pose proof (cleanup_never_raises e temp_dir keep_clone w1) as Hc.
  destruct (cleanup e temp_dir keep_clone w1) as [[[]|x] w2]; cbn [fst] in Hc;
    [reflexivity|discriminate].
Qed.

(** A run that returns has acquired a repository, and its outcome and its
    output are those of the body on that repository. *)
Lemma generate_skill_ok_inv e source output_dir keep_clone w p w' :
  generate_skill e source output_dir keep_clone w = (Ok p, w') ->
  exists r w1 w2,
    source_repo e source = Some r
    /\ out_log w1 = out_log w
    /\ generate_body e r output_dir w1 = (Ok p, w2)
    /\ out_log w' = out_log w2.
Proof.
  unfold generate_skill, source_repo. intros H.
  apply bindM_ok_inv in H as ([r temp_dir] & w1 & Hacq & H).
  rewrite try_finally_cleanup in H.
  destruct (generate_body e r output_dir w1) as [res w2] eqn:Hbody.
  cbn [fst snd] in H. inversion H; subst res w'. clear H.
  exists r, w1, w2. rewrite cleanup_log.
  unfold acquire in Hacq. destruct (is_url source).
  - unfold bindM, mkdtemp, lift, clone_repo in Hacq.
    destruct (env_clone e source) as [r'|x].
    + unfold ret in Hacq. inversion Hacq; subst. auto.
    + destruct (is_CalledProcessError x); discriminate.
  - destruct (env_local e source) as [r'|]; [|discriminate].
    unfold ret in Hacq. inversion Hacq; subst. auto.
Qed.

Lemma bindM_ret {A B : Type} (a : A) (k : A -> W B) (w : world) :
  bindM (ret a) k w = k a w.
Proof. reflexivity. Qed.

(** X13.  With a local path as source, a run neither makes nor removes a
    temporary directory, whatever its outcome; the keep-clone flag changes
    nothing; and a path that does not exist ends the run with
    FileNotFoundError before anything is done. *)
Theorem local_source_no_temp e source output_dir keep_clone w :
  is_url source = false ->
  temp_dirs (snd (generate_skill e source output_dir keep_clone w)) = temp_dirs w
  /\ generate_skill e source output_dir keep_clone w
     = generate_skill e source output_dir (negb keep_clone) w
  /\ (env_local e source = None ->
      generate_skill e source output_dir keep_clone w = (Raise FileNotFoundError, w)).
Proof.
  intros Hurl. unfold generate_skill, acquire. rewrite Hurl.
  destruct (env_local e source) as [r|].
  - rewrite !bindM_ret, !try_finally_cleanup. cbn [cleanup ret snd].
    split; [apply keeps_temp_generate_body|]. split; [reflexivity|discriminate].
  - split; [reflexivity|]. split; reflexivity.
Qed.

Lemma local_source_no_temp_witness :
  temp_dirs (snd (generate_skill env_local_lib "lib" None false world0)) = []
  /\ generate_skill env_local_lib "lib" None false world0
     = generate_skill env_local_lib "lib" None true world0
  /\ generate_skill env_local_lib "nowhere" None false world0
     = (Raise FileNotFoundError, world0).
Proof.
  destruct (local_source_no_temp env_local_lib "lib" None false world0 eq_refl)
    as (Ht & Hk & _).
  destruct (local_source_no_temp env_local_lib "nowhere" None false world0 eq_refl)
    as (_ & _ & Hn).
  split; [exact Ht|]. split; [exact Hk|]. exact (Hn eq_refl).
Defined.

(** X14.  With a URL as source and the keep-clone flag set, the temporary
    directory is still there when the run ends, whatever its outcome; and
    the flag changes neither the outcome of the run nor what is written. *)
Theorem keep_clone_retains e source output_dir w :
  is_url source = true ->
  In (env_mkdtemp e) (temp_dirs (snd (generate_skill e source output_dir true w)))
  /\ fst (generate_skill e source output_dir true w)
     = fst (generate_skill e source output_dir false w)
  /\ out_log (snd (generate_skill e source output_dir true w))
     = out_log (snd (generate_skill e source output_dir false w)).
Proof.
  intros Hurl. unfold generate_skill, acquire. rewrite Hurl.
  unfold bindM at 1 2 4 5 7 8, mkdtemp, lift, clone_repo.
  destruct (env_clone e source) as [r|x].
  - unfold bindM, ret. rewrite !try_finally_cleanup. cbn [fst snd].
    rewrite !cleanup_log. split; [|split; reflexivity].
    unfold cleanup. rewrite andb_false_r.
    destruct (negb (String.eqb (env_mkdtemp e) "")); cbn [ret snd];
      rewrite keeps_temp_generate_body; left; reflexivity.
  - destruct (is_CalledProcessError x); cbn.
    + split; [left; reflexivity|]. split; reflexivity.
    + split; [left; reflexivity|]. split; reflexivity.
Qed.

Lemma keep_clone_retains_witness :
  In "/tmp/repo-skill-gen-k3x9"
     (temp_dirs (snd (generate_skill env_local_lib "https://example.org/lib.git"
                        None true world0)))
  /\ fst (generate_skill env_local_lib "https://example.org/lib.git" None true world0)
     = fst (generate_skill env_local_lib "https://example.org/lib.git" None false world0)
  /\ out_log (snd (generate_skill env_local_lib "https://example.org/lib.git"
                     None true world0))
     = out_log (snd (generate_skill env_local_lib "https://example.org/lib.git"
                       None false world0)).
Proof.
  exact (keep_clone_retains env_local_lib "https://example.org/lib.git" None world0
           eq_refl).
Defined.



Lemma bindM_lift_ok {A B : Type} (a : A) (k : A -> W B) (w : world) :
  bindM (lift (Ok a)) k w = k a w.
Proof. reflexivity. Qed.

Lemma bindM_lift_raise {A B : Type} (x : exc) (k : A -> W B) (w : world) :
  bindM (lift (Raise x)) k w = (Raise x, w).
Proof. reflexivity. Qed.

Lemma bindM_output_ok {B : Type} e op (k : unit -> W B) (w : world) :
  (forall n, env_output_error e n = None) ->
  bindM (output e op) k w
  = k tt {| temp_dirs := temp_dirs w; out_log := out_log w ++ [op] |}.
Proof.
  intros Hno. unfold bindM, output. rewrite Hno. reflexivity.
Qed.

Lemma write_references_ok e refs_path key_files :
  (forall n, env_output_error e n = None) ->
  forall w,
    write_references e refs_path key_files w
    = (Ok tt, {| temp_dirs := temp_dirs w;
                 out_log := out_log w ++ reference_writes refs_path key_files |}).
Proof.
  intros Hno.
  induction key_files as [|[doc_file content] rest IH]; intros w.
  - cbn [write_references reference_writes map]. rewrite app_nil_r.
    destruct w; reflexivity.
  - cbn [write_references]. rewrite (bindM_output_ok _ _ _ _ Hno), IH.
    cbn [temp_dirs out_log reference_writes map fst snd].
    rewrite <- app_assoc. reflexivity.
Qed.

Lemma skill_md_of_name r project_types md entry_points tree readme n :
  skill_name_of md = Ok n ->
  exists s, generate_skill_md r project_types md entry_points tree readme = Ok s.
Proof.
  unfold skill_name_of, generate_skill_md.
  destruct (md_name md); try discriminate. eauto.
Qed.

(** The outcome of the body when no operation on the output directory
    fails: the analysis decides. *)
Lemma generate_body_run e r output_dir w :
  (forall n, env_output_error e n = None) ->
  match render_skill e r with
  | Ok skill_md =>
      exists p key_files,
        extract_key_files r = Ok key_files
        /\ generate_body e r output_dir w
           = (Ok p, {| temp_dirs := temp_dirs w;
                       out_log := out_log w ++ skill_writes p skill_md key_files |})
  | Raise x => generate_body e r output_dir w = (Raise x, w)
  end.
Proof.
  intros Hno. unfold render_skill, generate_body.
  destruct (get_project_metadata (env_tomllib e) r) as [md|x]; [|reflexivity].
  rewrite bindM_lift_ok. cbn [bind].
  destruct (get_readme_content r) as [readme|x]; [|reflexivity].
  rewrite bindM_lift_ok. cbn [bind].
  destruct (detect_entry_points r) as [eps|x]; [|reflexivity].
  rewrite bindM_lift_ok. cbn [bind].
  destruct (extract_key_files r) as [kf|x]; [|reflexivity].
  rewrite bindM_lift_ok. cbn [bind].
  destruct (skill_name_of md) as [sn|x] eqn:Hsn; [|reflexivity].
  rewrite bindM_lift_ok. cbn [bind].
  destruct (skill_md_of_name r (detect_project_type (env_set_iter e) r) md eps
              (get_directory_tree r 3 50) readme sn Hsn) as [s Hs].
  rewrite Hs. fold (skill_path_of e output_dir sn).
  exists (skill_path_of e output_dir sn), kf. split; [reflexivity|].
  rewrite (bindM_output_ok _ _ _ _ Hno), bindM_lift_ok.
  rewrite !(bindM_output_ok _ _ _ _ Hno).
  unfold bindM at 1. rewrite (write_references_ok _ _ _ Hno).
  rewrite !(bindM_output_ok _ _ _ _ Hno).
  unfold ret, skill_writes. cbn [temp_dirs out_log].
  rewrite <- !app_assoc. reflexivity.
Qed.

(** X16.  For a source whose repository is acquired and when no operation
    on the output directory fails, the run returns if and only if the
    analysis gives a document, and then it leaves exactly the files of that
    document and of the harvested ones; when the analysis raises, the run
    raises the same exception and has written nothing: every analysis step
    comes before the first write. *)
Theorem analysis_decides e source output_dir keep_clone w r :
  source_repo e source = Some r ->
  (forall n, env_output_error e n = None) ->
  match render_skill e r with
  | Ok skill_md =>
      exists p key_files,
        extract_key_files r = Ok key_files
        /\ fst (generate_skill e source output_dir keep_clone w) = Ok p
        /\ out_log (snd (generate_skill e source output_dir keep_clone w))
           = out_log w ++ skill_writes p skill_md key_files
  | Raise x =>
      fst (generate_skill e source output_dir keep_clone w) = Raise x
      /\ out_log (snd (generate_skill e source output_dir keep_clone w)) = out_log w
  end.
Proof.
  intros Hsrc Hno.
  assert (exists w1 temp_dir,
             out_log w1 = out_log w
             /\ generate_skill e source output_dir keep_clone w
                = try_finally (generate_body e r output_dir)
                              (cleanup e temp_dir keep_clone) w1)
    as (w1 & temp_dir & Hlog & ->).
  { unfold generate_skill, acquire, source_repo in *. destruct (is_url source).
    - unfold bindM at 1 2, mkdtemp, lift, clone_repo.
      destruct (env_clone e source) as [r'|]; [|discriminate].
      inversion Hsrc; subst r'.
      exists {| temp_dirs := env_mkdtemp e :: temp_dirs w; out_log := out_log w |},
             (Some (env_mkdtemp e)).
      split; reflexivity.
    - rewrite Hsrc, bindM_ret. eexists _, _. split; reflexivity. }
  rewrite try_finally_cleanup. cbn [fst snd]. rewrite cleanup_log.
  pose proof (generate_body_run e r output_dir w1 Hno) as Hrun.
  destruct (render_skill e r) as [skill_md|x].
  - destruct Hrun as (p & kf & Hkf & ->). exists p, kf. cbn [fst snd out_log].
    rewrite Hlog. auto.
  - rewrite Hrun. cbn [fst snd]. auto.
Qed.

Lemma analysis_decides_witness :
  exists p key_files,
    extract_key_files repo_two_docs = Ok key_files
    /\ fst (generate_skill env_local_lib "lib" None false world0) = Ok p
    /\ exists skill_md,
         out_log (snd (generate_skill env_local_lib "lib" None false world0))
         = out_log world0 ++ skill_writes p skill_md key_files.
Proof.
  pose proof (analysis_decides env_local_lib "lib" None false world0 repo_two_docs
                eq_refl (fun _ => eq_refl)) as H.
  destruct (render_skill env_local_lib repo_two_docs) as [skill_md|x] eqn:Hr.
  - destruct H as (p & kf & Hkf & Hp & Hlog). exists p, kf. eauto.
  - vm_compute in Hr. discriminate Hr.
Defined.

Lemma str_app_inv_l (q a b : string) : q +:+ a = q +:+ b -> a = b.
Proof.
  induction q as [|c q IH]; [exact (fun H => H)|].
  rewrite !str_app_cons. intros H. inversion H. auto.
Qed.

Lemma reference_writes_app refs_path l1 l2 :
  reference_writes refs_path (l1 ++ l2)
  = reference_writes refs_path l1 ++ reference_writes refs_path l2.
Proof. unfold reference_writes. apply map_app. Qed.

Lemma doc_files_split :
  DOC_FILES
  = ["README.md"] ++ firstn 12 (skipn 1 DOC_FILES) ++ ["docs/README.md"] ++ ["docs/index.md"].
Proof. reflexivity. Qed.

Lemma flat_map_four {A B : Type} (f : A -> list B) a mid b c :
  flat_map f ([a] ++ mid ++ [b] ++ [c]) = f a ++ flat_map f mid ++ f b ++ f c.
Proof.
  rewrite !flat_map_app. simpl. rewrite !app_nil_r. reflexivity.
Qed.

Lemma doc_files_harvested r : flat_map (harvested r) DOC_FILES
  = harvested r "README.md" ++ flat_map (harvested r) (firstn 12 (skipn 1 DOC_FILES))
    ++ harvested r "docs/README.md" ++ harvested r "docs/index.md".
Proof.
  rewrite <- flat_map_four. f_equal.
Qed.

Lemma extract_key_files_flat r kf :
  extract_key_files r = Ok kf -> kf = flat_map (harvested r) DOC_FILES.
Proof.
  pose proof (harvest_spec r DOC_FILES []) as Hh. unfold extract_key_files.
  destruct (harvest r DOC_FILES []) as [kf'|e]; [|discriminate].
  intros H. injection H as ->. exact Hh.
Qed.

Lemma key_files_split r c1 c2 kf :
  extract_key_files r = Ok kf ->
  harvested r "README.md" = [("README.md", c1)] ->
  harvested r "docs/README.md" = [("docs/README.md", c2)] ->
  kf = [("README.md", c1)]
       ++ flat_map (harvested r) (firstn 12 (skipn 1 DOC_FILES))
       ++ [("docs/README.md", c2)] ++ harvested r "docs/index.md".
Proof.
  intros Hkf H1 H2.
  rewrite (extract_key_files_flat r kf Hkf), doc_files_harvested, H1, H2. reflexivity.
Qed.

Lemma path_join_inj (q a b : string) : path_join q a = path_join q b -> a = b.
Proof.
  unfold path_join. intros H. apply str_app_inv_l in H.
  injection H as H. exact H.
Qed.

Lemma path_name_index : path_name "docs/index.md" = "index.md".
Proof. reflexivity. Qed.

Lemma index_md_elsewhere r refs_path :
  Forall (fun op => forall c, op <> WriteText (path_join refs_path "README.md") c)
         (reference_writes refs_path (harvested r "docs/index.md")).
Proof.
  unfold harvested.
  destruct (lookup_path _ _) as [n|]; [|constructor].
  destruct (read_text n) as [content|]; [|constructor].
  destruct (_ <? _)%Z; [|constructor].
  constructor; [|constructor]. intros c Heq.
  cbn [fst snd] in Heq. rewrite path_name_index in Heq.
  injection Heq as Hpath _. apply path_join_inj in Hpath. discriminate Hpath.
Qed.

(** X17.  Reference files are named by the last component of the
    document's path, so the README of the root and the README under docs go
    to the same file: in a run that returns on a repository where both are
    harvested, references/README.md is written twice, first with the README
    of the root, then with the one under docs, which is what it holds in
    the end. *)
Theorem reference_name_collision e source output_dir keep_clone w p w' r c1 c2 :
  generate_skill e source output_dir keep_clone w = (Ok p, w') ->
  source_repo e source = Some r ->
  harvested r "README.md" = [("README.md", c1)] ->
  harvested r "docs/README.md" = [("docs/README.md", c2)] ->
  exists l1 l2 l3,
    out_log w'
    = l1 ++ WriteText (path_join (path_join p "references") "README.md") c1
         :: l2 ++ WriteText (path_join (path_join p "references") "README.md") c2
         :: l3
    /\ Forall (fun op => forall c,
                 op <> WriteText (path_join (path_join p "references") "README.md") c)
              l3.
Proof.
  intros H Hsrc H1 H2.
  apply generate_skill_ok_inv in H as (r' & w1 & w2 & Hsrc' & Hlog1 & Hbody & Hlog2).
  rewrite Hsrc in Hsrc'. injection Hsrc' as <-.
  apply generate_body_inv in Hbody
    as (md & sn & skill_md & kf & Hmd & Hsn & Hp & Hrender & Hkf & Hw2).
  pose proof (key_files_split r c1 c2 kf Hkf H1 H2) as Hsplit.
  exists (out_log w ++ [ Mkdir p; WriteText (path_join p "SKILL.md") skill_md;
                         Mkdir (path_join p "references") ]),
         (reference_writes (path_join p "references")
            (flat_map (harvested r) (firstn 12 (skipn 1 DOC_FILES)))),
         (reference_writes (path_join p "references") (harvested r "docs/index.md")
          ++ [ Mkdir (path_join p "scripts");
               Touch (path_join (path_join p "scripts") ".gitkeep") ]).
  split.
  - rewrite Hlog2, Hw2. cbn [out_log]. rewrite Hlog1, Hsplit. unfold skill_writes.
    rewrite !reference_writes_app. rewrite <- !app_assoc. reflexivity.
  - apply List.Forall_app. split.
    + apply index_md_elsewhere.
    + constructor; [discriminate|]. constructor; [discriminate|constructor].
Qed.

Lemma reference_name_collision_witness :
  exists l1 l2 l3,
    out_log (snd (generate_skill env_local_lib "lib" None false world0))
    = l1 ++ WriteText "/home/dev/skills/lib/references/README.md" "the root README"
         :: l2 ++ WriteText "/home/dev/skills/lib/references/README.md" "the docs README"
         :: l3.
Proof.
  destruct (reference_name_collision env_local_lib "lib" None false world0
              "/home/dev/skills/lib"
              (snd (generate_skill env_local_lib "lib" None false world0))
              repo_two_docs "the root README" "the docs README"
              ltac:(vm_compute; reflexivity) eq_refl eq_refl eq_refl)
    as (l1 & l2 & l3 & H & _).
  exists l1, l2, l3. exact H.
Defined.

(** ** The lines of the tree *)

Lemma sorted_entries_perm l : Permutation (sorted_entries l) l.
Proof.
  unfold sorted_entries. induction l as [|x l IH]; simpl.
  - apply Permutation_refl.
  - eapply Permutation_trans; [apply insert_sorted_perm|].
    apply perm_skip. exact IH.
Qed.

Lemma listed_line_incl names names' line :
  incl names names' -> listed_line names line -> listed_line names' line.
Proof.
  intros Hincl [Hdots|(prefix & is_last & name & Hline & Hin & Hvis)].
  - left. exact Hdots.
  - right. exists prefix, is_last, name. auto.
Qed.

Lemma entry_names_in (e : node) (l : list node) :
  In e l -> incl (node_entry_names e) (flat_map node_entry_names l).
Proof.
  intros Hin x Hx. apply in_flat_map. exists e. auto.
Qed.

Lemma walk_loop_cons {L : Type} (mk_entry mk_dots : Z -> string -> L) max_files
    rec n prefix depth i entry rest st :
  walk_loop mk_entry mk_dots max_files rec n prefix depth i (entry :: rest) st
  = if existsb (String.eqb (node_name entry)) ignore
       || str_startswith (node_name entry) "."
    then walk_loop mk_entry mk_dots max_files rec n prefix depth (S i) rest st
    else
      if (fst st + 1 >? max_files)%Z
      then ((fst st + 1)%Z, snd st ++ [mk_dots depth (prefix +:+ "...")])
      else
        walk_loop mk_entry mk_dots max_files rec n prefix depth (S i) rest
          match entry with
          | Dir _ listing' =>
              rec listing' (prefix +:+ extension (Z.of_nat i =? Z.of_nat n - 1)%Z)
                  (depth + 1)%Z
                  ((fst st + 1)%Z,
                   snd st ++ [mk_entry depth
                                (prefix +:+ connector (Z.of_nat i =? Z.of_nat n - 1)%Z
                                        +:+ node_name entry)])
          | File _ _ =>
              ((fst st + 1)%Z,
               snd st ++ [mk_entry depth
                            (prefix +:+ connector (Z.of_nat i =? Z.of_nat n - 1)%Z
                                    +:+ node_name entry)])
          end.
Proof. reflexivity. Qed.

Section WalkVisible.
Variables max_depth max_files : Z.
Variable names : list string.

Lemma walk_loop_listed rec n prefix depth :
  (forall path p st,
      incl (listing_names path) names ->
      Forall (listed_line names) (snd st) ->
      Forall (listed_line names) (snd (rec path p (depth + 1)%Z st))) ->
  forall es i st,
    incl (flat_map node_entry_names es) names ->
    Forall (listed_line names) (snd st) ->
    Forall (listed_line names)
           (snd (walk_loop (fun _ text => text) (fun _ text => text) max_files
                           rec n prefix depth i es st)).
Proof.
  intros Hrec. induction es as [|entry rest IH]; intros i st Hincl Hst.
  - exact Hst.
  - rewrite walk_loop_cons.
    assert (incl (flat_map node_entry_names rest) names) as Hrest.
    { intros x Hx. apply Hincl. simpl. apply in_or_app. right. exact Hx. }
    destruct (existsb (String.eqb (node_name entry)) ignore
              || str_startswith (node_name entry) ".") eqn:Hskip;
      [apply IH; assumption|].
    destruct (fst st + 1 >? max_files)%Z.
    + simpl. apply List.Forall_app. split; [exact Hst|].
      constructor; [|constructor]. left. exists prefix. reflexivity.
    + apply IH; [exact Hrest|].
      set (st1 := ((fst st + 1)%Z, snd st ++ [_])).
      assert (Forall (listed_line names) (snd st1)) as Hst1.
      { unfold st1. simpl. apply List.Forall_app. split; [exact Hst|].
        constructor; [|constructor]. right.
        exists prefix, (Z.of_nat i =? Z.of_nat n - 1)%Z, (node_name entry).
        split; [reflexivity|]. split.
        - apply Hincl. simpl. apply in_or_app. left.
          destruct entry; left; reflexivity.
        - unfold visible. apply orb_false_iff in Hskip as [-> ->]. reflexivity. }
      destruct entry as [nm d|nm listing']; [exact Hst1|].
      apply Hrec; [|exact Hst1].
      intros x Hx. apply Hincl. simpl. right. apply in_or_app. left.
      destruct listing' as [l'|]; [exact Hx|destruct Hx].
Qed.

Lemma walk_listed fuel :
  forall path prefix depth st,
    incl (listing_names path) names ->
    Forall (listed_line names) (snd st) ->
    Forall (listed_line names)
           (snd (walk (fun _ text => text) (fun _ text => text) max_depth max_files
                      fuel path prefix depth st)).
Proof.
  induction fuel as [|fuel IH]; intros path prefix depth st Hincl Hst.
  - rewrite walk_zero. exact Hst.
  - rewrite walk_succ.
    destruct (_ || _); [exact Hst|].
    destruct path as [listing|]; [|exact Hst].
    apply walk_loop_listed; [intros path' p st'; apply IH| |exact Hst].
    intros x Hx. apply Hincl. simpl.
    apply in_flat_map in Hx as (e & He & Hx). apply in_flat_map. exists e.
    split; [|exact Hx].
    eapply Permutation_in; [apply sorted_entries_perm|exact He].
Qed.

End WalkVisible.

(** X18.  Every line of the directory tree is an ellipsis or shows, after
    a prefix and a connector, the name of an entry of the repository that
    is visible: the directories .git, node_modules, target, dist, build and
    the other ignored names, and every entry whose name begins with a dot,
    are never listed, whatever the depth and the limits. *)
Theorem tree_lists_visible_entries r max_depth max_files :
  Forall (listed_line (listing_names (repo_root r)))
         (tree_lines max_depth max_files r).
Proof.
  unfold tree_lines, walk_root.
  apply walk_listed.
  - apply incl_refl.
  - constructor.
Qed.

End SkillifyExtra.

(* ===================================================================== *)
(** * Further properties of src/examples/autoforge/entrypoint.py          *)
(* ===================================================================== *)

Module AutoforgeExtra.
Import Py Autoforge PyFacts AutoforgeSpec AutoforgeProofs.

(** ** What a run leaves in place *)

Lemma keeps_except_preserves {A : Type} (q : list string)
    (c : ST (gmap (list string) fnode) A) :
  preserves c -> keeps_except q c.
Proof.
  intros Hc fs p x Hp _. exact (lookup_weaken _ _ _ _ Hp (Hc fs)).
Qed.

Lemma keeps_except_pure {A : Type} (q : list string)
    (f : gmap (list string) fnode -> result A) :
  keeps_except q (fun fs => (f fs, fs)).
Proof. intros fs p x Hp _. exact Hp. Qed.

Lemma keeps_except_bind {A B : Type} (q : list string)
    (c : ST (gmap (list string) fnode) A)
    (k : A -> ST (gmap (list string) fnode) B) :
  keeps_except q c -> (forall a, keeps_except q (k a)) -> keeps_except q (bindM c k).
Proof.
  intros Hc Hk fs p x Hp Hne. unfold bindM. specialize (Hc fs p x Hp Hne).
  destruct (c fs) as [[a|e] fs1]; simpl in *.
  - apply Hk; assumption.
  - exact Hc.
Qed.

Lemma keeps_except_write_text (q : list string) (text : string) (loads : result pyval) :
  keeps_except q (write_text q text loads).
Proof.
  intros fs p x Hp Hne. unfold write_text.
  destruct (fs_lookup fs q) as [[d|]|]; simpl; try exact Hp;
    destruct (fs_lookup fs (removelast q)) as [[d'|]|]; simpl; try exact Hp;
    rewrite lookup_insert_ne by congruence; exact Hp.
Qed.

Lemma keeps_except_run_command (SKILL_DIR q : list string) (c : string) (args : pyval) :
  keeps_except q (run_command SKILL_DIR c args).
Proof.
  unfold run_command.
  destruct (String.eqb c "help"); [apply keeps_except_preserves, preserves_ret|].
  destruct (String.eqb c "init"); [apply keeps_except_preserves, preserves_cmd_init|].
  destruct (String.eqb c "plan"); [apply keeps_except_pure|].
  destruct (String.eqb c "build"); apply keeps_except_pure.
Qed.

Lemma keeps_except_main_body (SKILL_DIR : list string) :
  keeps_except (result_file SKILL_DIR) (main_body SKILL_DIR).
Proof.
  unfold main_body.
  apply keeps_except_bind; [apply keeps_except_pure|intros request].
  apply keeps_except_bind; [apply keeps_except_preserves, preserves_lift|intros command].
  apply keeps_except_bind; [apply keeps_except_preserves, preserves_lift|intros args].
  apply keeps_except_bind; [apply keeps_except_preserves, preserves_lift|intros known].
  apply keeps_except_bind.
  { destruct known as [c|]; [apply keeps_except_run_command|].
    apply keeps_except_preserves, preserves_ret. }
  intros res0.
  apply keeps_except_bind; [apply keeps_except_preserves, preserves_lift|intros res1].
  apply keeps_except_bind; [apply keeps_except_preserves, preserves_lift|intros res2].
  apply keeps_except_bind; [|intros _; apply keeps_except_preserves, preserves_ret].
  unfold save_result.
  apply keeps_except_bind;
    [apply keeps_except_preserves, preserves_mkdir_from|intros _].
  apply keeps_except_write_text.
Qed.

(** X19.  Whatever the request and whatever the outcome, a run of the
    entry point leaves every file and directory that exists as it is, with
    one exception: output/result.json, which it overwrites.  No command
    deletes anything or rewrites a project file. *)
Theorem main_keeps_files (SKILL_DIR : list string) (fs : gmap (list string) fnode)
    (p : list string) (x : fnode) :
  fs !! p = Some x ->
  p <> result_file SKILL_DIR ->
  snd (main SKILL_DIR fs) !! p = Some x.
Proof.
  intros Hp Hne. unfold main.
  pose proof (keeps_except_main_body SKILL_DIR fs p x Hp Hne) as H.
  destruct (main_body SKILL_DIR fs) as [[result|e] fs']; exact H.
Qed.

Lemma main_keeps_files_witness :
  with_request "init" (PDict [("name", PStr "demo")]) fs_edited !! demo_spec
  = Some edited_spec
  /\ snd (main SKILL_DIR0 (with_request "init" (PDict [("name", PStr "demo")]) fs_edited))
     !! demo_spec = Some edited_spec.
Proof.
  assert (with_request "init" (PDict [("name", PStr "demo")]) fs_edited !! demo_spec
          = Some edited_spec) as H by (vm_compute; reflexivity).
  split; [exact H|].
  exact (main_keeps_files SKILL_DIR0 _ demo_spec edited_spec H ltac:(discriminate)).
Defined.

(** ** Delegation *)

Lemma spawn_action (task label : string) (timeout : Z) :
  dict_index (sessions_spawn task label timeout) "action"
  = Ok (PDict [ ("tool", PStr "sessions_spawn");
                ("params",
                 PDict [ ("task", PStr task); ("label", PStr label);
                         ("runTimeoutSeconds", PInt timeout) ]) ]).
Proof. reflexivity. Qed.


(** What [plan] returns is an error or a delegation, never a success. *)
Lemma cmd_plan_not_ok (SKILL_DIR : list string) (args : pyval)
    (fs : gmap (list string) fnode) (res : pyval) :
  cmd_plan SKILL_DIR args fs = Ok res ->
  (exists summary, res = error_result summary)
  \/ (exists project requirements,
        dict_get args "project" PNone = Ok project
        /\ dict_get args "requirements" PNone = Ok requirements
        /\ res = PDict [ ("status", PStr "pending");
                         ("summary", PStr "Planning requires OpenClaw sub-agent");
                         ("action_required",
                          PDict [ ("tool", PStr "sessions_spawn");
                                  ("params",
                                   PDict [ ("task",
                                            PStr (planning_prompt project requirements));
                                           ("label",
                                            PStr ("autoforge-plan-" +:+ py_str project));
                                           ("runTimeoutSeconds", PInt 300) ]) ]);
                         ("artifacts", PList []) ]).
Proof.
  unfold cmd_plan.
  destruct (dict_get args "project" PNone) as [project|]; [|discriminate].
  destruct (dict_get args "requirements" PNone) as [requirements|]; [|discriminate].
  cbn [bind].
  destruct (negb (truthy project)); [intros H; inversion H; eauto|].
  destruct (negb (truthy requirements)); [intros H; inversion H; eauto|].
  destruct (path_div_val (PROJECTS_DIR SKILL_DIR) project) as [project_dir|];
    [|discriminate].
  cbn [bind].
  destruct (negb (fs_exists fs project_dir)); [intros H; inversion H; eauto|].
  rewrite spawn_action. cbn [bind]. intros H. inversion H. right. eauto.
Qed.

Lemma assoc_get_app {V : Type} (k : string) (kv kv' : list (string * V)) (v : V) :
  assoc_get k kv = Some v -> assoc_get k (kv ++ kv') = Some v.
Proof.
  induction kv as [|[k0 v0] kv IH]; simpl; [discriminate|].
  destruct (String.eqb k k0); [auto|exact IH].
Qed.

(** Filling in a missing key leaves the status of a result that has one. *)
Lemma setdefault_status (res res' : pyval) (k : string) (v st : pyval) :
  dict_get res "status" PNone = Ok st -> st <> PNone ->
  dict_setdefault res k v = Ok res' ->
  dict_get res' "status" PNone = Ok st.
Proof.
  destruct res as [| | | | |kv]; try discriminate. cbn [dict_get dict_setdefault].
  intros Hst Hne. destruct (assoc_get k kv); intros H; inversion H; subst res'.
  - exact Hst.
  - cbn [dict_get]. destruct (assoc_get "status" kv) as [s|] eqn:Hs.
    + rewrite (assoc_get_app _ _ _ _ Hs). exact Hst.
    + inversion Hst. congruence.
Qed.

(** The exit code of a run whose command gives a result with a status
    other than ok. *)
Lemma main_exit_1 (SKILL_DIR : list string) (fs : gmap (list string) fnode)
    (request command args : pyval) (c : string) :
  load_request SKILL_DIR fs = Ok request ->
  dict_get request "command" (PStr "help") = Ok command ->
  dict_get request "args" (PDict []) = Ok args ->
  command_known command = Ok (Some c) ->
  (forall res fs',
      run_command SKILL_DIR c args fs = (Ok res, fs') ->
      exists s, dict_get res "status" PNone = Ok (PStr s) /\ s <> "ok") ->
  fst (main SKILL_DIR fs) = 1%Z.
Proof.
  intros Hload Hcommand Hargs Hknown Hrun.
  unfold main.
  destruct (main_body SKILL_DIR fs) as [[result|e] fs1] eqn:Hbody; [|reflexivity].
  cbn [fst]. unfold main_body in Hbody.
  apply bindM_ok_inv in Hbody as (request' & s1 & Hr & H).
  inversion Hr; subst s1. rewrite Hload in H1. inversion H1; subst request'. clear Hr H1.
  apply bindM_ok_inv in H as (command' & s2 & Hc & H). apply lift_ok_inv in Hc as [Hc ->].
  rewrite Hcommand in Hc. inversion Hc; subst command'. clear Hc.
  apply bindM_ok_inv in H as (args' & s3 & Ha & H). apply lift_ok_inv in Ha as [Ha ->].
  rewrite Hargs in Ha. inversion Ha; subst args'. clear Ha.
  apply bindM_ok_inv in H as (known & s4 & Hk & H). apply lift_ok_inv in Hk as [Hk ->].
  rewrite Hknown in Hk. inversion Hk; subst known. clear Hk.
  apply bindM_ok_inv in H as (res0 & s5 & Hres & H).
  destruct (Hrun res0 s5 Hres) as (s & Hst & Hne).
  apply bindM_ok_inv in H as (res1 & s6 & H1 & H). apply lift_ok_inv in H1 as [H1 ->].
  apply bindM_ok_inv in H as (res2 & s7 & H2 & H). apply lift_ok_inv in H2 as [H2 ->].
  apply bindM_ok_inv in H as ([] & s8 & _ & H).
  unfold ret in H. inversion H; subst result fs1. clear H.
  pose proof (setdefault_status res0 res1 "command" command (PStr s) Hst
                ltac:(discriminate) H1) as Hst1.
  pose proof (setdefault_status res1 res2 "artifacts" (PList []) (PStr s) Hst1
                ltac:(discriminate) H2) as Hst2.
  destruct (status_ok res2) eqn:Hok; [|reflexivity].
  apply status_ok_iff in Hok. rewrite Hok in Hst2. inversion Hst2. congruence.
Qed.

(** X20.  A request for the command plan never ends with exit code 0:
    planning is always handed over to the orchestrator, so its result is a
    pending delegation or an error, and the exit code is 1 in both cases (as
    it is when the command raises). *)
Theorem plan_exits_1 (SKILL_DIR : list string) (fs : gmap (list string) fnode)
    (request args : pyval) :
  load_request SKILL_DIR fs = Ok request ->
  dict_get request "command" (PStr "help") = Ok (PStr "plan") ->
  dict_get request "args" (PDict []) = Ok args ->
  fst (main SKILL_DIR fs) = 1%Z
  /\ forall res, cmd_plan SKILL_DIR args fs = Ok res ->
                 dict_get res "status" PNone = Ok (PStr "error")
                 \/ (dict_get res "status" PNone = Ok (PStr "pending")
                     /\ exists action,
                          dict_get res "action_required" PNone = Ok action
                          /\ dict_get action "tool" PNone = Ok (PStr "sessions_spawn")).
Proof.
  intros Hload Hcommand Hargs. split.
  - apply (main_exit_1 SKILL_DIR fs request (PStr "plan") args "plan"
             Hload Hcommand Hargs eq_refl).
    intros res fs' Hrun. cbv beta delta [run_command] in Hrun. cbn in Hrun.
    inversion Hrun as [[Hplan Hfs]].
    destruct (cmd_plan_not_ok _ _ _ _ Hplan)
      as [[summary ->]|(project & requirements & _ & _ & ->)].
    + exists "error". split; [reflexivity|discriminate].
    + exists "pending". split; [reflexivity|discriminate].
  - intros res Hplan.
    destruct (cmd_plan_not_ok _ _ _ _ Hplan)
      as [[summary ->]|(project & requirements & _ & _ & ->)].
    + left. reflexivity.
    + right. split; [reflexivity|]. eexists. split; reflexivity.
Qed.

Lemma plan_exits_1_witness :
  fst (main SKILL_DIR0
         (with_request "plan"
            (PDict [("project", PStr "demo"); ("requirements", PStr "a to-do list")])
            fs_fresh)) = 1%Z.
Proof.
  refine (proj1 (plan_exits_1 SKILL_DIR0 _
                   (PDict [ ("command", PStr "plan");
                            ("args", PDict [ ("project", PStr "demo");
                                             ("requirements", PStr "a to-do list") ]) ])
                   (PDict [("project", PStr "demo"); ("requirements", PStr "a to-do list")])
                   _ eq_refl eq_refl)).
  vm_compute. reflexivity.
Defined.





(** ** A tasks file that cannot be read *)

(** X22.  The commands differ on a project whose tasks file exists but
    cannot be read or parsed: [status] swallows the failure and reports a
    project with no task at all, while [build] lets the exception out. *)
Theorem unreadable_tasks_file (SKILL_DIR : list string) (fs : gmap (list string) fnode)
    (args : pyval) (project : string) (e : exc) :
  dict_get args "project" PNone = Ok (PStr project) ->
  project <> "" ->
  fs_exists fs (path_div (PROJECTS_DIR SKILL_DIR) project) = true ->
  fs_exists fs (path_div (PROJECTS_DIR SKILL_DIR) project ++ [".autoforge"; "tasks.json"])
  = true ->
  fs_read_json fs (path_div (PROJECTS_DIR SKILL_DIR) project ++ [".autoforge"; "tasks.json"])
  = Raise e ->
  cmd_build SKILL_DIR args fs = Raise e
  /\ cmd_status SKILL_DIR args fs
     = Ok (PDict
             [ ("status", PStr "ok");
               ("summary", PStr ("Project '" +:+ project +:+ "' status"));
               ("project",
                PDict [ ("name", PStr project);
                        ("path", PStr (path_str (path_div (PROJECTS_DIR SKILL_DIR) project)));
                        ("has_spec",
                         PBool (fs_exists fs (path_div (PROJECTS_DIR SKILL_DIR) project
                                              ++ ["prompts"; "app_spec.txt"])));
                        ("tasks",
                         PDict [ ("total", PInt 0); ("completed", PInt 0);
                                 ("pending", PInt 0) ]) ]);
               ("pending_tasks", PList []);
               ("artifacts", PList []) ]).
Proof.
  intros Hproject Hne Hdir Htasks Hload.
  assert (truthy (PStr project) = true) as Htruthy
      by (simpl; apply negb_true_iff, String.eqb_neq; exact Hne).
  assert (exists feature, dict_get args "feature" PNone = Ok feature) as [feature Hfeature].
  { destruct args; try discriminate. cbn [dict_get]. eauto. }
  split.
  - unfold cmd_build.
    rewrite Hproject. cbn [bind].
    rewrite Hfeature. cbn [bind].
    rewrite Htruthy. cbn [negb path_div_val bind].
    rewrite Hdir, Htasks. cbn [negb].
    rewrite Hload. reflexivity.
  - unfold cmd_status.
    rewrite Hproject. cbn [bind].
    rewrite Htruthy. cbn [negb path_div_val bind].
    rewrite Hdir. cbn [negb].
    unfold tasks_data_or_empty. rewrite Htasks, Hload.
    reflexivity.
Qed.

Lemma unreadable_tasks_file_witness :
  cmd_build SKILL_DIR0 (PDict [("project", PStr "demo")]) fs_corrupt
  = Raise JSONDecodeError
  /\ exists res,
       cmd_status SKILL_DIR0 (PDict [("project", PStr "demo")]) fs_corrupt = Ok res
       /\ status_ok res = true.
Proof.
  destruct (unreadable_tasks_file SKILL_DIR0 fs_corrupt (PDict [("project", PStr "demo")])
              "demo" JSONDecodeError eq_refl ltac:(discriminate)
              ltac:(vm_compute; reflexivity) ltac:(vm_compute; reflexivity)
              ltac:(vm_compute; reflexivity)) as [Hbuild Hstatus].
  split; [exact Hbuild|]. eexists. split; [exact Hstatus|reflexivity].
Defined.

(** ** Initialisation *)

Lemma fs_is_dir_mono (fs fs2 : gmap (list string) fnode) (p : list string) :
  fs ⊆ fs2 -> fs_is_dir fs p = true -> fs_is_dir fs2 p = true.
Proof.
  unfold fs_is_dir, fs_lookup. intros Hsub. destruct p as [|c p]; [auto|].
  destruct (fs !! (c :: p)) as [[d|]|] eqn:Hp; try discriminate.
  rewrite (lookup_weaken _ _ _ _ Hp Hsub). auto.
Qed.

Lemma fs_exists_mono (fs fs2 : gmap (list string) fnode) (p : list string) :
  fs ⊆ fs2 -> fs_exists fs p = true -> fs_exists fs2 p = true.
Proof.
  unfold fs_exists, fs_lookup. intros Hsub. destruct p as [|c p]; [auto|].
  destruct (fs !! (c :: p)) as [x|] eqn:Hp; [|discriminate].
  rewrite (lookup_weaken _ _ _ _ Hp Hsub). auto.
Qed.

Lemma fs_lookup_insert (fs : gmap (list string) fnode) (p : list string) (x : fnode) :
  p <> [] -> fs_lookup (<[p := x]> fs) p = Some x.
Proof.
  intros Hp. unfold fs_lookup. destruct p as [|c p]; [contradiction|].
  apply lookup_insert_eq.
Qed.

Lemma mkdir_ok (p : list string) (fs fs1 : gmap (list string) fnode) :
  mkdir p fs = (Ok tt, fs1) -> fs ⊆ fs1 /\ fs_is_dir fs1 p = true.
Proof.
  intros H. split.
  - pose proof (preserves_mkdir p fs) as Hsub. rewrite H in Hsub. exact Hsub.
  - revert H. unfold mkdir, fs_is_dir.
    destruct (fs_lookup fs p) as [[d|]|] eqn:Hp; try discriminate.
    + intros H. inversion H; subst. rewrite Hp. reflexivity.
    + destruct (fs_lookup fs (removelast p)) as [[d|]|]; try discriminate.
      intros H. inversion H; subst.
      rewrite fs_lookup_insert; [reflexivity|].
      intros ->. discriminate Hp.
Qed.

Lemma mkdir_again (p : list string) (fs : gmap (list string) fnode) :
  fs_is_dir fs p = true -> mkdir p fs = (Ok tt, fs).
Proof.
  unfold fs_is_dir, mkdir. destruct (fs_lookup fs p) as [[d|]|]; try discriminate.
  reflexivity.
Qed.

Lemma mkdir_from_ok (todo : list string) :
  forall (done : list string) (fs fs1 : gmap (list string) fnode),
    mkdir_from done todo fs = (Ok tt, fs1) ->
    fs_is_dir fs done = true ->
    fs ⊆ fs1 /\ fs_is_dir fs1 (done ++ todo) = true.
Proof.
  induction todo as [|c rest IH]; intros done fs fs1 H Hdone.
  - inversion H; subst. rewrite app_nil_r. split; [reflexivity|exact Hdone].
  - cbn [mkdir_from] in H.
    apply bindM_ok_inv in H as ([] & fsa & Hmk & H).
    apply mkdir_ok in Hmk as [Hsub Hdir].
    destruct (IH _ _ _ H Hdir) as [Hsub' Hdir'].
    split; [etrans; eassumption|].
    rewrite <- app_assoc in Hdir'. exact Hdir'.
Qed.

Lemma mkdir_from_again (todo : list string) :
  forall (done : list string) (fs fs1 fs2 : gmap (list string) fnode),
    mkdir_from done todo fs = (Ok tt, fs1) ->
    fs1 ⊆ fs2 ->
    mkdir_from done todo fs2 = (Ok tt, fs2).
Proof.
  induction todo as [|c rest IH]; intros done fs fs1 fs2 H Hsub.
  - reflexivity.
  - cbn [mkdir_from] in *.
    apply bindM_ok_inv in H as ([] & fsa & Hmk & H).
    apply mkdir_ok in Hmk as [_ Hdir].
    assert (fsa ⊆ fs1) as Hsub1.
    { pose proof (preserves_mkdir_from rest (done ++ [c]) fsa) as Hp.
      rewrite H in Hp. exact Hp. }
    unfold bindM.
    rewrite (mkdir_again _ fs2 (fs_is_dir_mono _ _ _ (transitivity Hsub1 Hsub) Hdir)).
    exact (IH _ _ _ _ H Hsub).
Qed.

Lemma write_missing_ok (p : list string) (text : string) (loads : result pyval)
    (fs fs1 : gmap (list string) fnode) :
  (if negb (fs_exists fs p) then write_text p text loads else ret tt) fs = (Ok tt, fs1) ->
  fs ⊆ fs1 /\ fs_exists fs1 p = true.
Proof.
  destruct (fs_exists fs p) eqn:Hex; cbn [negb].
  - intros H. inversion H; subst. split; [reflexivity|exact Hex].
  - unfold write_text, fs_exists in *.
    destruct (fs_lookup fs p) as [x|] eqn:Hp; [discriminate|].
    destruct (fs_lookup fs (removelast p)) as [[d|]|]; try discriminate.
    intros H. inversion H; subst. split.
    + apply insert_subseteq, fs_lookup_none, Hp.
    + rewrite fs_lookup_insert; [reflexivity|]. intros ->. discriminate Hp.
Qed.

Lemma write_missing_again (p : list string) (text : string) (loads : result pyval)
    (fs : gmap (list string) fnode) :
  fs_exists fs p = true ->
  (if negb (fs_exists fs p) then write_text p text loads else ret tt) fs = (Ok tt, fs).
Proof. intros ->. reflexivity. Qed.

(** A run of [init] that returns has refused for want of a name, or has
    gone through all its steps. *)
Lemma cmd_init_inv (SKILL_DIR : list string) (args res : pyval)
    (fs fs' : gmap (list string) fnode) :
  cmd_init SKILL_DIR args fs = (Ok res, fs') ->
  (res = error_result "Project name is required" /\ fs' = fs)
  \/ exists name project_dir,
       init_run SKILL_DIR args fs fs' name project_dir
       /\ res = init_ok_result name project_dir.
Proof.
  unfold cmd_init. intros H.
  apply bindM_ok_inv in H as (name & s & Hname & H). apply lift_ok_inv in Hname as [Hname ->].
  destruct (truthy name) eqn:Htruthy; cbn [negb] in H.
  2:{ left. unfold ret in H. inversion H. auto. }
  right.
  apply bindM_ok_inv in H as (path_arg & s & Hpa & H). apply lift_ok_inv in Hpa as [Hpa ->].
  apply bindM_ok_inv in H as (pp & s & Hpp & H). apply lift_ok_inv in Hpp as [Hpp ->].
  apply bindM_ok_inv in H as (pd & s & Hpd & H). apply lift_ok_inv in Hpd as [Hpd ->].
  apply bindM_ok_inv in H as ([] & fs1 & H1 & H).
  apply bindM_ok_inv in H as ([] & fs2 & H2 & H).
  apply bindM_ok_inv in H as ([] & fs3 & H3 & H).
  apply bindM_ok_inv in H as ([] & fs4 & H4 & H).
  apply bindM_ok_inv in H as (spec_there & s & Hg & H).
  unfold gets in Hg. inversion Hg; subst spec_there s. clear Hg.
  apply bindM_ok_inv in H as ([] & fs5 & H5 & H).
  apply bindM_ok_inv in H as (tasks_there & s & Hg & H).
  unfold gets in Hg. inversion Hg; subst tasks_there s. clear Hg.
  apply bindM_ok_inv in H as ([] & fs6 & H6 & H).
  unfold ret in H. inversion H; subst res fs6. clear H.
  exists name, pd. split; [|reflexivity].
  constructor; [exact Hname|exact Htruthy|eauto|].
  exists fs1, fs2, fs3, fs4, fs5. auto 10.
Qed.

Lemma fs_lookup_same (fs fs1 : gmap (list string) fnode) (q : list string) :
  fs1 !! q = fs !! q -> fs_lookup fs1 q = fs_lookup fs q.
Proof. unfold fs_lookup. destruct q; auto. Qed.

Lemma fs_exists_same (fs fs1 : gmap (list string) fnode) (q : list string) :
  fs1 !! q = fs !! q -> fs_exists fs1 q = fs_exists fs q.
Proof. intros H. unfold fs_exists. rewrite (fs_lookup_same _ _ _ H). reflexivity. Qed.

Lemma mkdir_other (p q : list string) (fs fs1 : gmap (list string) fnode) :
  mkdir p fs = (Ok tt, fs1) -> q <> p -> fs1 !! q = fs !! q.
Proof.
  unfold mkdir. intros H Hne.
  destruct (fs_lookup fs p) as [[d|]|]; try discriminate.
  - inversion H. reflexivity.
  - destruct (fs_lookup fs (removelast p)) as [[d|]|]; try discriminate.
    inversion H. apply lookup_insert_ne. congruence.
Qed.

Lemma mkdir_from_other (todo : list string) :
  forall (done q : list string) (fs fs1 : gmap (list string) fnode),
    mkdir_from done todo fs = (Ok tt, fs1) ->
    (List.length done + List.length todo < List.length q)%nat ->
    fs1 !! q = fs !! q.
Proof.
  induction todo as [|c rest IH]; intros done q fs fs1 H Hlen.
  - inversion H. reflexivity.
  - cbn [mkdir_from] in H. cbn [List.length] in Hlen.
    apply bindM_ok_inv in H as ([] & fsa & Hmk & H).
    rewrite (IH (done ++ [c]) q fsa fs1 H)
      by (rewrite List.length_app; cbn [List.length]; lia).
    apply (mkdir_other _ _ _ _ Hmk).
    intros ->. rewrite List.length_app in Hlen. cbn [List.length] in Hlen. lia.
Qed.

Lemma write_missing_other (p q : list string) (text : string) (loads : result pyval)
    (fs fs1 : gmap (list string) fnode) :
  (if negb (fs_exists fs p) then write_text p text loads else ret tt) fs = (Ok tt, fs1) ->
  q <> p -> fs1 !! q = fs !! q.
Proof.
  intros H Hne. destruct (negb (fs_exists fs p)).
  - unfold write_text in H.
    destruct (fs_lookup fs p) as [[d|]|]; try discriminate;
      destruct (fs_lookup fs (removelast p)) as [[d'|]|]; try discriminate;
      inversion H; apply lookup_insert_ne; congruence.
  - inversion H. reflexivity.
Qed.

Lemma write_missing_new (p : list string) (text : string) (loads : result pyval)
    (fs fs1 : gmap (list string) fnode) :
  (if negb (fs_exists fs p) then write_text p text loads else ret tt) fs = (Ok tt, fs1) ->
  fs_exists fs p = false ->
  fs1 !! p = Some (FFile {| fd_text := Ok text; fd_json := loads |}).
Proof.
  intros H Hex. rewrite Hex in H. cbn [negb] in H.
  unfold write_text, fs_exists in *.
  destruct (fs_lookup fs p) as [x|]; [discriminate|].
  destruct (fs_lookup fs (removelast p)) as [[d|]|]; try discriminate.
  inversion H. apply lookup_insert_eq.
Qed.

(** The directories and files that a run of [init] going through all its
    steps leaves, and what the two files hold when the run has made them. *)
Lemma init_run_post (SKILL_DIR : list string) (args name : pyval)
    (fs fs' : gmap (list string) fnode) (project_dir : list string) :
  init_run SKILL_DIR args fs fs' name project_dir ->
  fs_is_dir fs' project_dir = true
  /\ fs_is_dir fs' (project_dir ++ ["prompts"]) = true
  /\ fs_is_dir fs' (project_dir ++ [".autoforge"]) = true
  /\ fs_is_dir fs' (project_dir ++ ["src"]) = true
  /\ fs_exists fs' (project_dir ++ ["prompts"; "app_spec.txt"]) = true
  /\ fs_exists fs' (project_dir ++ [".autoforge"; "tasks.json"]) = true
  /\ (fs_exists fs (project_dir ++ ["prompts"; "app_spec.txt"]) = false ->
      fs_read_text fs' (project_dir ++ ["prompts"; "app_spec.txt"])
      = Ok (spec_template name))
  /\ (fs_exists fs (project_dir ++ [".autoforge"; "tasks.json"]) = false ->
      fs_read_json fs' (project_dir ++ [".autoforge"; "tasks.json"])
      = Ok (PDict [("tasks", PList []); ("completed", PList [])])).
Proof.
  intros [_ _ _ (fs1 & fs2 & fs3 & fs4 & fs5 & H1 & H2 & H3 & H4 & H5 & H6)].
  pose proof H1 as H1'. pose proof H2 as H2'. pose proof H3 as H3'.
  pose proof H4 as H4'. pose proof H5 as H5'. pose proof H6 as H6'.
  apply mkdir_from_ok in H1' as [S1 D1]; [|reflexivity]. cbn [app] in D1.
  apply mkdir_ok in H2' as [S2 D2]. apply mkdir_ok in H3' as [S3 D3].
  apply mkdir_ok in H4' as [S4 D4].
  apply write_missing_ok in H5' as [S5 E5]. apply write_missing_ok in H6' as [S6 E6].
  assert (fs4 ⊆ fs') as S46 by (etrans; eassumption).
  assert (fs3 ⊆ fs') as S36 by (etrans; eassumption).
  assert (fs2 ⊆ fs') as S26 by (etrans; eassumption).
  assert (fs1 ⊆ fs') as S16 by (etrans; eassumption).
  assert (forall q : list string,
             (List.length project_dir + 1 < List.length q)%nat -> fs4 !! q = fs !! q)
    as Hfar.
  { intros q Hq.
    rewrite (mkdir_other _ q _ _ H4)
      by (intros ->; rewrite List.length_app in Hq; cbn [List.length] in Hq; lia).
    rewrite (mkdir_other _ q _ _ H3)
      by (intros ->; rewrite List.length_app in Hq; cbn [List.length] in Hq; lia).
    rewrite (mkdir_other _ q _ _ H2)
      by (intros ->; rewrite List.length_app in Hq; cbn [List.length] in Hq; lia).
    apply (mkdir_from_other _ _ _ _ _ H1). cbn [List.length]. lia. }
  assert (project_dir ++ [".autoforge"; "tasks.json"]
          <> project_dir ++ ["prompts"; "app_spec.txt"]) as Hdiff.
  { intros Heq. apply app_inv_head in Heq. discriminate Heq. }
  refine (conj (fs_is_dir_mono _ _ _ S16 D1)
         (conj (fs_is_dir_mono _ _ _ S26 D2)
         (conj (fs_is_dir_mono _ _ _ S36 D3)
         (conj (fs_is_dir_mono _ _ _ S46 D4)
         (conj (fs_exists_mono _ _ _ S6 E5) (conj E6 (conj _ _))))))).
  - intros Hnew.
    assert (fs_exists fs4 (project_dir ++ ["prompts"; "app_spec.txt"]) = false) as Hnew4.
    { rewrite (fs_exists_same fs fs4); [exact Hnew|].
      apply Hfar. rewrite List.length_app. cbn [List.length]. lia. }
    pose proof (write_missing_new _ _ _ _ _ H5 Hnew4) as Hw.
    apply (fun H => lookup_weaken _ _ _ _ H S6) in Hw.
    unfold fs_read_text, fs_lookup. destruct (project_dir ++ ["prompts"; "app_spec.txt"]) eqn:Hp.
    + destruct project_dir; discriminate Hp.
    + rewrite Hw. reflexivity.
  - intros Hnew.
    assert (fs_exists fs5 (project_dir ++ [".autoforge"; "tasks.json"]) = false) as Hnew5.
    { rewrite (fs_exists_same fs4 fs5) by (apply (write_missing_other _ _ _ _ _ _ H5 Hdiff)).
      rewrite (fs_exists_same fs fs4); [exact Hnew|].
      apply Hfar. rewrite List.length_app. cbn [List.length]. lia. }
    pose proof (write_missing_new _ _ _ _ _ H6 Hnew5) as Hw.
    unfold fs_read_json, fs_lookup.
    destruct (project_dir ++ [".autoforge"; "tasks.json"]) eqn:Hp.
    + destruct project_dir; discriminate Hp.
    + rewrite Hw. reflexivity.
Qed.

Lemma cmd_init_run (SKILL_DIR : list string) (args name : pyval)
    (fs fs' : gmap (list string) fnode) (project_dir : list string) :
  init_run SKILL_DIR args fs fs' name project_dir ->
  cmd_init SKILL_DIR args fs = (Ok (init_ok_result name project_dir), fs').
Proof.
  intros [Hname Htruthy (path_arg & pp & Hpa & Hpp & Hpd)
          (fs1 & fs2 & fs3 & fs4 & fs5 & H1 & H2 & H3 & H4 & H5 & H6)].
  unfold cmd_init, bindM, lift, gets.
  rewrite Hname. cbv beta iota zeta. rewrite Htruthy. cbn [negb].
  rewrite Hpa, Hpp, Hpd, H1, H2, H3, H4, H5, H6. reflexivity.
Qed.

Lemma init_run_again (SKILL_DIR : list string) (args name : pyval)
    (fs fs' : gmap (list string) fnode) (project_dir : list string) :
  init_run SKILL_DIR args fs fs' name project_dir ->
  init_run SKILL_DIR args fs' fs' name project_dir.
Proof.
  intros Hrun. destruct (init_run_post _ _ _ _ _ _ Hrun)
    as (_ & D2 & D3 & D4 & E5 & E6 & _).
  destruct Hrun as [Hname Htruthy Hdir
                    (fs1 & fs2 & fs3 & fs4 & fs5 & H1 & H2 & H3 & H4 & H5 & H6)].
  constructor; [exact Hname|exact Htruthy|exact Hdir|].
  exists fs', fs', fs', fs', fs'.
  assert (fs1 ⊆ fs') as S16.
  { apply mkdir_ok in H2 as [S2 _]. apply mkdir_ok in H3 as [S3 _].
    apply mkdir_ok in H4 as [S4 _]. apply write_missing_ok in H5 as [S5 _].
    apply write_missing_ok in H6 as [S6 _].
    etrans; [exact S2|]. etrans; [exact S3|]. etrans; [exact S4|].
    etrans; [exact S5|exact S6]. }
  split; [exact (mkdir_from_again _ _ _ _ _ H1 S16)|].
  split; [exact (mkdir_again _ _ D2)|].
  split; [exact (mkdir_again _ _ D3)|].
  split; [exact (mkdir_again _ _ D4)|].
  split; [exact (write_missing_again _ _ _ _ E5)|].
  exact (write_missing_again _ _ _ _ E6).
Qed.


(** The run that makes the project demo with its default location. *)
Lemma init_demo_runs (fs : gmap (list string) fnode) :
  fst (cmd_init SKILL_DIR0 (PDict [("name", PStr "demo")]) fs)
  = Ok (init_ok_result (PStr "demo") demo_dir) ->
  cmd_init SKILL_DIR0 (PDict [("name", PStr "demo")]) fs
  = (Ok (init_ok_result (PStr "demo") demo_dir),
     snd (cmd_init SKILL_DIR0 (PDict [("name", PStr "demo")]) fs)).
Proof.
  intros H. rewrite <- H. apply surjective_pairing.
Qed.



(** X24.  [init] is idempotent: running it again with the same arguments
    on the file system it has left returns the same result and changes
    nothing. *)
Theorem cmd_init_idempotent (SKILL_DIR : list string) (args res : pyval)
    (fs fs' : gmap (list string) fnode) :
  cmd_init SKILL_DIR args fs = (Ok res, fs') ->
  cmd_init SKILL_DIR args fs' = (Ok res, fs').
Proof.
  intros H. pose proof H as Hinv.
  apply cmd_init_inv in Hinv as [[-> ->]|(name & pd & Hrun & ->)].
  - exact H.
  - apply cmd_init_run, init_run_again with (fs := fs). exact Hrun.
Qed.

Lemma cmd_init_idempotent_witness :
  cmd_init SKILL_DIR0 (PDict [("name", PStr "demo")]) fs_fresh
  = (Ok (init_ok_result (PStr "demo") demo_dir), fs_fresh).
Proof.
  assert (fst (cmd_init SKILL_DIR0 (PDict [("name", PStr "demo")]) ∅)
          = Ok (init_ok_result (PStr "demo") demo_dir)) as Hfst
      by (vm_compute; reflexivity).
  pose proof (init_demo_runs ∅ Hfst) as Hrun.
  unfold fs_fresh.
  exact (cmd_init_idempotent SKILL_DIR0 (PDict [("name", PStr "demo")])
           (init_ok_result (PStr "demo") demo_dir) ∅ _ Hrun).
Defined.

(** ** The status of a project *)






(** ** The list of projects *)

Lemma project_summary_name (fs : gmap (list string) fnode) (p : list string) (d : pyval) :
  project_summary fs p = Ok d -> dict_get d "name" PNone = Ok (PStr (path_last p)).
Proof.
  unfold project_summary.
  destruct (len_of_field _ "tasks") as [n_tasks|]; [|discriminate]. cbn [bind].
  destruct (len_of_field _ "completed") as [n_completed|]; [|discriminate]. cbn [bind].
  intros H. injection H as <-. reflexivity.
Qed.

Lemma list_projects_names (fs : gmap (list string) fnode) (ps : list (list string)) :
  forall projects out,
    list_projects fs ps projects = Ok out ->
    exists new,
      out = projects ++ new
      /\ map (fun d => dict_get d "name" PNone) new
         = map (fun p => Ok (PStr (path_last p))) (List.filter (shown fs) ps).
Proof.
  induction ps as [|p rest IH]; intros projects out; cbn [list_projects List.filter].
  - intros H. injection H as <-. exists []. rewrite app_nil_r. auto.
  - fold (shown fs p). destruct (shown fs p).
    + destruct (project_summary fs p) as [d|] eqn:Hd; [|discriminate]. cbn [bind].
      intros H. apply IH in H as (new & -> & Hnames).
      exists (d :: new). rewrite <- app_assoc. split; [reflexivity|].
      cbn [map]. rewrite Hnames, (project_summary_name _ _ _ Hd). reflexivity.
    + apply IH.
Qed.

(** X26.  Without a project argument, [status] lists the projects: when
    the projects directory does not exist it reports that there is none;
    otherwise the projects listed are, in the order of the directory
    listing, exactly the entries of the projects directory that are
    directories and whose name does not begin with a dot, each under its
    name, and the summary gives their number. *)
Theorem status_lists_projects (SKILL_DIR : list string) (args project res : pyval)
    (fs : gmap (list string) fnode) :
  dict_get args "project" PNone = Ok project ->
  truthy project = false ->
  cmd_status SKILL_DIR args fs = Ok res ->
  (fs_exists fs (PROJECTS_DIR SKILL_DIR) = false
   /\ res = PDict [ ("status", PStr "ok"); ("summary", PStr "No projects found");
                    ("projects", PList []); ("artifacts", PList []) ])
  \/ exists ps projects,
       iterdir fs (PROJECTS_DIR SKILL_DIR) = Ok ps
       /\ res = PDict [ ("status", PStr "ok");
                        ("summary",
                         PStr ("Found " +:+ str_of_Z (Z.of_nat (List.length projects))
                               +:+ " project(s)"));
                        ("projects", PList projects);
                        ("artifacts", PList []) ]
       /\ map (fun d => dict_get d "name" PNone) projects
          = map (fun p => Ok (PStr (path_last p))) (List.filter (shown fs) ps)
       /\ List.length projects = List.length (List.filter (shown fs) ps).
Proof.
  intros Hproject Hfalsy. unfold cmd_status.
  rewrite Hproject. cbn [bind]. rewrite Hfalsy. cbn [negb].
  destruct (fs_exists fs (PROJECTS_DIR SKILL_DIR)); cbn [negb].
  - destruct (iterdir fs (PROJECTS_DIR SKILL_DIR)) as [ps|]; [|discriminate].
    cbn [bind].
    destruct (list_projects fs ps []) as [projects|] eqn:Hlist; [|discriminate].
    cbn [bind]. intros H. injection H as <-. right.
    apply list_projects_names in Hlist as (new & -> & Hnames). cbn [app].
    exists ps, new. split; [reflexivity|]. split; [reflexivity|].
    split; [exact Hnames|].
    apply (f_equal (@List.length _)) in Hnames. rewrite !length_map in Hnames.
    exact Hnames.
  - intros H. injection H as <-. left. auto.
Qed.

Lemma status_lists_projects_witness :
  exists ps projects,
    iterdir fs_projects (PROJECTS_DIR SKILL_DIR0) = Ok ps
    /\ List.length ps = 3%nat
    /\ map (fun d => dict_get d "name" PNone) projects = [Ok (PStr "demo")].
Proof.
  assert (exists res, cmd_status SKILL_DIR0 (PDict []) fs_projects = Ok res)
    as [res Hres] by (eexists; vm_compute; reflexivity).
  destruct (status_lists_projects SKILL_DIR0 (PDict []) PNone res fs_projects
              eq_refl eq_refl Hres)
    as [[Hno _]|(ps & projects & Hps & _ & Hnames & _)].
  - vm_compute in Hno. discriminate Hno.
  - exists ps, projects. split; [exact Hps|].
    assert (List.length ps = 3%nat
            /\ map (fun p => Ok (PStr (path_last p))) (List.filter (shown fs_projects) ps)
               = [Ok (PStr "demo")]) as [Hlen Hshown].
    { vm_compute in Hps. injection Hps as <-. split; vm_compute; reflexivity. }
    rewrite Hshown in Hnames. auto.
Defined.

End AutoforgeExtra.
